(** * gsc-exporter: monthly windows, paged fetching, aggregation, site ordering

    A shallow embedding of the reporting scripts of gsc-exporter
    ([account-wide-analysis.py], [queries-pages-analysis.py],
    [generate_gsc_wrapped.py]) and the properties of their core logic.

    Python integers are [Z], and the sums pandas takes over an [int64]
    column wrap around ([wrap64]); [str] is [string], the UTF-8 bytes of
    the text (compared byte-wise, which agrees with Python's code-point
    order, and measured in code points by [py_len]); a raised exception is
    an explicit result ([None] of an [option], or a constructor of the
    result type); the Search Console service is a function from requests
    to responses, and every call made is logged in a trace. *)

From Stdlib Require Import ZArith List String Ascii Bool Lia QArith.
From Stdlib Require Import OrdersEx Sorted Permutation.
Import ListNotations.
Open Scope Z_scope.

(** ** Exceptions as [option] *)

Definition bind {A B : Type} (x : option A) (f : A -> option B) : option B :=
  match x with
  | Some a => f a
  | None => None
  end.

Notation "x <- e ;; k" := (bind e (fun x => k))
  (at level 61, e at next level, right associativity).

(** ** [datetime.date], [timedelta(days=..)] and [dateutil.relativedelta] *)

Module PyDate.

Record date := mkdate { year : Z; month : Z; day : Z }.

Definition MINYEAR : Z := 1.
Definition MAXYEAR : Z := 9999.

(** [calendar.isleap] *)
Definition isleap (y : Z) : bool :=
  (y mod 4 =? 0) && (negb (y mod 100 =? 0) || (y mod 400 =? 0)).

(** [calendar.monthrange(y, m)[1]] *)
Definition days_in_month (y m : Z) : Z :=
  if m =? 2 then (if isleap y then 29 else 28)
  else if (m =? 4) || (m =? 6) || (m =? 9) || (m =? 11) then 30
  else 31.

Definition valid_dateb (d : date) : bool :=
  (MINYEAR <=? year d) && (year d <=? MAXYEAR) &&
  (1 <=? month d) && (month d <=? 12) &&
  (1 <=? day d) && (day d <=? days_in_month (year d) (month d)).

Definition valid_date (d : date) : Prop := valid_dateb d = true.

(** [date(y, m, d)]: [None] stands for the [ValueError] of an
    out-of-range field. *)
Definition make_date (y m d : Z) : option date :=
  let r := mkdate y m d in
  if valid_dateb r then Some r else None.

(** [d.replace(day=n)] *)
Definition replace_day (d : date) (n : Z) : option date :=
  make_date (year d) (month d) n.

(** The day before [d]; [None] is the [OverflowError] below
    0001-01-01. *)
Definition yesterday (d : date) : option date :=
  if 1 <? day d then Some (mkdate (year d) (month d) (day d - 1))
  else if 1 <? month d then
    Some (mkdate (year d) (month d - 1)
                 (days_in_month (year d) (month d - 1)))
  else if MINYEAR <? year d then Some (mkdate (year d - 1) 12 31)
  else None.

(** [d - timedelta(days=n)] for [n >= 0] *)
Fixpoint date_sub_days (d : date) (n : nat) : option date :=
  match n with
  | O => Some d
  | S n' => d' <- yesterday d ;; date_sub_days d' n'
  end.

(** [relativedelta]: only the relative [years] and [months] fields are
    ever set by the scripts. *)
Record relativedelta := mkrd { rd_years : Z; rd_months : Z }.

(** [relativedelta._fix]: months beyond 11 carry into years. *)
Definition rd_fix (years months : Z) : relativedelta :=
  if 11 <? Z.abs months then
    let s := Z.sgn months in
    let q := (months * s) / 12 in
    let r := (months * s) mod 12 in
    mkrd (years + q * s) (r * s)
  else mkrd years months.

(** [relativedelta(months=k)] *)
Definition relativedelta_months (k : Z) : relativedelta := rd_fix 0 k.

(** [relativedelta.__neg__] *)
Definition rd_neg (rd : relativedelta) : relativedelta :=
  rd_fix (- rd_years rd) (- rd_months rd).

(** [relativedelta.__radd__]: [d + rd] *)
Definition rd_radd (rd : relativedelta) (d : date) : option date :=
  let y := year d + rd_years rd in
  let m := month d in
  let ym :=
    if rd_months rd =? 0 then (y, m)
    else
      let m' := m + rd_months rd in
      if 12 <? m' then (y + 1, m' - 12)
      else if m' <? 1 then (y - 1, m' + 12)
      else (y, m') in
  let dd := Z.min (days_in_month (fst ym) (snd ym)) (day d) in
  make_date (fst ym) (snd ym) dd.

(** [d - rd], i.e. [relativedelta.__rsub__] *)
Definition date_sub_rd (d : date) (rd : relativedelta) : option date :=
  rd_radd (rd_neg rd) d.

(** Decimal rendering used by [strftime]. *)
Definition digit (n : Z) : ascii := ascii_of_nat (48 + Z.to_nat (n mod 10)).

Definition pad2 (n : Z) : string :=
  String (digit (n / 10)) (String (digit n) EmptyString).

Definition pad4 (n : Z) : string :=
  String (digit (n / 1000)) (String (digit (n / 100)) (pad2 n)).

(** [d.strftime('%Y-%m-%d')] (four-digit years) *)
Definition strftime_ymd (d : date) : string :=
  (pad4 (year d) ++ "-" ++ pad2 (month d) ++ "-" ++ pad2 (day d))%string.

(** [d.strftime('%Y-%m')] *)
Definition strftime_ym (d : date) : string :=
  (pad4 (year d) ++ "-" ++ pad2 (month d))%string.

(** Months counted from year 0: the position of [d]'s month on the
    calendar. *)
Definition month_index (d : date) : Z := 12 * year d + (month d - 1).

(** First day of the month at a given position. *)
Definition first_of_month (idx : Z) : date :=
  mkdate (idx / 12) (idx mod 12 + 1) 1.

End PyDate.

(** ** The monthly window generator

    The body of [for i in range(1, 17)] in both monthly scripts:
<<
    end_of_month = today.replace(day=1) - relativedelta(months=i - 1) - timedelta(days=1)
    start_of_month = end_of_month.replace(day=1)
>> *)

Module Windows.
Import PyDate.

Definition monthly_window (today : date) (i : Z) : option (date * date) :=
  first <- replace_day today 1 ;;
  shifted <- date_sub_rd first (relativedelta_months (i - 1)) ;;
  end_of_month <- date_sub_days shifted 1 ;;
  start_of_month <- replace_day end_of_month 1 ;;
  Some (start_of_month, end_of_month).

(** A window as the two ['%Y-%m-%d'] strings sent to the API. *)
Definition render_window (w : option (date * date))
  : option (string * string) :=
  option_map (fun w => (strftime_ymd (fst w), strftime_ymd (snd w))) w.

(** [range(1, 17)] *)
Definition window_indices : list Z :=
  [1; 2; 3; 4; 5; 6; 7; 8; 9; 10; 11; 12; 13; 14; 15; 16].

End Windows.

(** ** Python [str] and [list] operations used by the scripts *)

Module PyStr.

(** [s.startswith(p)] *)
Definition startswith (s p : string) : bool := String.prefix p s.

(** [s.replace(old, new)] for a non-empty [old]: every non-overlapping
    occurrence, scanning from the left.  [skip] counts the characters of
    a matched occurrence still to be dropped. *)
Fixpoint replace_from (old new : string) (skip : nat) (s : string) : string :=
  match s with
  | EmptyString => EmptyString
  | String c s' =>
      match skip with
      | S k => replace_from old new k s'
      | O =>
          if String.prefix old s
          then (new ++ replace_from old new (Nat.pred (String.length old)) s')%string
          else String c (replace_from old new 0 s')
      end
  end.

Definition replace (s old new : string) : string := replace_from old new 0 s.

(** [s.split(sep)] for a one-character separator *)
Fixpoint split (sep : ascii) (s : string) : list string :=
  match s with
  | EmptyString => [EmptyString]
  | String c s' =>
      if Ascii.eqb c sep then EmptyString :: split sep s'
      else match split sep s' with
           | w :: ws => String c w :: ws
           | [] => [String c EmptyString]
           end
  end.

(** [sep.join(parts)] *)
Definition join (sep : string) (parts : list string) : string :=
  String.concat sep parts.

(** [l[i]] with Python's negative indices; [None] is [IndexError]. *)
Definition py_index {A : Type} (l : list A) (i : Z) : option A :=
  let n := Z.of_nat (List.length l) in
  let j := if i <? 0 then i + n else i in
  if (0 <=? j) && (j <? n) then nth_error l (Z.to_nat j) else None.

(** [l[i:]] with Python's clamping of the bound *)
Definition py_slice_from {A : Type} (l : list A) (i : Z) : list A :=
  let n := Z.of_nat (List.length l) in
  let j := if i <? 0 then Z.max 0 (i + n) else Z.min i n in
  skipn (Z.to_nat j) l.

(** [x in l] for strings *)
Definition str_in (x : string) (l : list string) : bool :=
  existsb (String.eqb x) l.

Definition is_alpha (c : ascii) : bool :=
  let n := nat_of_ascii c in
  ((65 <=? n) && (n <=? 90))%nat || ((97 <=? n) && (n <=? 122))%nat.

Definition is_digit (c : ascii) : bool :=
  let n := nat_of_ascii c in ((48 <=? n) && (n <=? 57))%nat.

(** [urllib.parse.scheme_chars] *)
Definition scheme_char (c : ascii) : bool :=
  is_alpha c || is_digit c ||
  Ascii.eqb c "+"%char || Ascii.eqb c "-"%char || Ascii.eqb c "."%char.

Fixpoint forall_chars (p : ascii -> bool) (s : string) : bool :=
  match s with
  | EmptyString => true
  | String c s' => p c && forall_chars p s'
  end.

(** [s.find(c)] *)
Fixpoint find_char (c : ascii) (s : string) : option nat :=
  match s with
  | EmptyString => None
  | String a s' =>
      if Ascii.eqb a c then Some O else option_map S (find_char c s')
  end.

(** The part of [s] before the first of ['/'], ['?'], ['#']:
    [urllib.parse._splitnetloc]. *)
Fixpoint until_delim (s : string) : string :=
  match s with
  | EmptyString => EmptyString
  | String c s' =>
      if Ascii.eqb c "/"%char || Ascii.eqb c "?"%char || Ascii.eqb c "#"%char
      then EmptyString
      else String c (until_delim s')
  end.

Definition drop (n : nat) (s : string) : string :=
  String.substring n (String.length s - n) s.

(** [len(s)]: Python counts code points, which in the UTF-8 bytes of a
    string are the bytes that are not continuation bytes ([10xxxxxx]). *)
Definition is_continuation (c : ascii) : bool :=
  let n := nat_of_ascii c in ((128 <=? n) && (n <? 192))%nat.

Fixpoint py_len (s : string) : nat :=
  match s with
  | EmptyString => O
  | String c s' => ((if is_continuation c then 0 else 1) + py_len s')%nat
  end.

(** [url.lstrip(_WHATWG_C0_CONTROL_OR_SPACE)]: the leading characters
    up to the blank (code 32) are dropped. *)
Fixpoint lstrip_c0_or_space (s : string) : string :=
  match s with
  | EmptyString => EmptyString
  | String c s' =>
      if (nat_of_ascii c <=? 32)%nat then lstrip_c0_or_space s' else s
  end.

(** The removal of [_UNSAFE_URL_BYTES_TO_REMOVE]: tab, LF and CR,
    wherever they stand. *)
Fixpoint remove_unsafe (s : string) : string :=
  match s with
  | EmptyString => EmptyString
  | String c s' =>
      let n := nat_of_ascii c in
      if ((n =? 9) || (n =? 10) || (n =? 13))%nat then remove_unsafe s'
      else String c (remove_unsafe s')
  end.

(** A printable ASCII character other than the blank and the square
    brackets.  A URL made of such characters is one [urlsplit] neither
    cleans nor rejects: besides the clean-up above, the library raises
    [ValueError] on an unbalanced or invalid bracketed host and checks a
    non-ASCII host under NFKC. *)
Definition plain_char (c : ascii) : bool :=
  let n := nat_of_ascii c in
  ((33 <=? n) && (n <=? 126))%nat
  && negb (Ascii.eqb c "["%char || Ascii.eqb c "]"%char).

Definition plain (s : string) : bool := forall_chars plain_char s.

(** The split proper of [urlsplit]: strip a leading [scheme:], then take
    what follows [//] up to the first delimiter. *)
Definition split_netloc (url : string) : string :=
  let rest :=
    match find_char ":"%char url with
    | Some i =>
        let head := String.substring 0 i url in
        match head with
        | String c0 _ =>
            if is_alpha c0 && forall_chars scheme_char head
            then drop (S i) url else url
        | EmptyString => url
        end
    | None => url
    end in
  if String.prefix "//"%string rest then until_delim (drop 2 rest)
  else EmptyString.

(** [urlparse(url).netloc]: the clean-up, then the split.  The
    [ValueError] the library raises on bracketed or non-ASCII hosts it
    rejects is not part of this function; the properties that rest on the
    host of a URL are stated for [plain] identifiers. *)
Definition urlparse_netloc (url : string) : string :=
  split_netloc (remove_unsafe (lstrip_c0_or_space url)).

End PyStr.

(** ** The search-analytics API as the scripts see it *)

Module Api.

(** One element of [response['rows']].  [clicks] and [impressions] are
    counts; [ctr] and [position] are the API's real numbers, which the
    scripts only pass on or hand to a format specification. *)
Record api_row := mk_row
  { keys : list string; clicks : Z; impressions : Z; ctr : Q; position : Q }.

(** The [body] of a query together with its [siteUrl]; an absent key
    is [None] (or [[]] for [dimensions]). *)
Record request := mk_request
  { siteUrl : string; startDate : string; endDate : string;
    dimensions : list string; rowLimit : option Z; startRow : option Z }.

(** What [.execute()] does: returns the decoded body, whose ['rows'] key
    may be absent, or raises [HttpError] with a status, or raises some
    other exception (transport failure, timeout, token refresh). *)
Inductive response :=
| Response (rows : option (list api_row))
| HttpError (status : Z)
| OtherException.

Definition service := request -> response.

(** The three request bodies of the monthly scripts: the undimensioned
    totals, and the two dimensioned queries limited to 5000 rows. *)
Definition totals_request (site_url start_date end_date : string) : request :=
  mk_request site_url start_date end_date [] None None.

Definition queries_request (site_url start_date end_date : string) : request :=
  mk_request site_url start_date end_date ["query"%string] (Some 5000) None.

Definition pages_request (site_url start_date end_date : string) : request :=
  mk_request site_url start_date end_date ["page"%string] (Some 5000) None.

(** A month's totals for worked examples: 120 clicks on 2400
    impressions, a click-through rate of 1/20, average position 7/2. *)
Definition sample_totals : api_row := mk_row [] 120 2400 (1 # 20) (7 # 2).

(** Services for worked examples: one that answers every query with the
    same single row, one that refuses every query with the same HTTP
    status, and one whose transport is down. *)
Definition steady_service (row : api_row) : service :=
  fun _ => Response (Some [row]).

Definition refusing_service (status : Z) : service :=
  fun _ => HttpError status.

Definition unreachable_service : service := fun _ => OtherException.

(** A service that refuses with 403 every query starting on
    [start_date] and answers the others with one row. *)
Definition denied_from (start_date : string) (row : api_row) : service :=
  fun request =>
    if String.eqb (startDate request) start_date then HttpError 403
    else Response (Some [row]).


End Api.

(** ** Writing the output artifacts *)

Module Output.

(** How the filesystem answers one write: it succeeds, or raises
    [PermissionError], or raises another [OSError] (disk full, missing
    directory, ...).  [IOError] is an alias of [OSError]. *)
Inductive io_result := IoOk | IoPermissionError | IoOtherOSError.

Record filesystem := mk_fs { write_csv : io_result; write_html : io_result }.

(** How [main] ends: it returns, or an exception nobody caught
    unwinds it. *)
Inductive exit_status := Returned | Raised.

Record artifacts := mk_artifacts
  { csv_written : bool; html_written : bool; status : exit_status }.

End Output.

(** ** [generate_gsc_wrapped.py] *)

Module Wrapped.
Import Api Output.

(** [get_gsc_data]: the [while True] loop, with the number of
    iterations still allowed as [fuel] ([None]: the loop is still
    running).  The result pairs the returned value ([None] for Python's
    [None], [Some all_data] for the list) with the requests issued. *)
Fixpoint get_gsc_data_loop (fuel : nat) (svc : service)
         (site_url start_date end_date : string) (dims : list string)
         (row_limit : Z) (all_data : list api_row) (start_row : Z)
         (calls : list request)
  : option (option (list api_row) * list request) :=
  match fuel with
  | O => None
  | S fuel' =>
      let request :=
        mk_request site_url start_date end_date dims
                   (Some row_limit) (Some start_row) in
      let calls' := calls ++ [request] in
      match svc request with
      | Response (Some rows) =>
          let all_data' := all_data ++ rows in
          if Z.of_nat (List.length rows) <? row_limit
          then Some (Some all_data', calls')
          else get_gsc_data_loop fuel' svc site_url start_date end_date dims
                                 row_limit all_data' (start_row + row_limit)
                                 calls'
      | Response None => Some (Some all_data, calls')
      | HttpError _ => Some (None, calls')
      | OtherException => Some (None, calls')
      end
  end.

Definition get_gsc_data (fuel : nat) (svc : service)
           (site_url start_date end_date : string) (dims : list string)
           (row_limit : Z) :=
  get_gsc_data_loop fuel svc site_url start_date end_date dims row_limit
                    [] 0 [].

Definition default_row_limit : Z := 25000.

(** A paged source holding [data], with page size [page_size]: a call
    answers with the rows from [startRow] on, at most [rowLimit] and at
    most [page_size] of them; past the last row the body carries no
    ['rows'] key, or an empty list when [empty_list] is set. *)
Definition paged_source (page_size : Z) (data : list api_row)
           (empty_list : bool) : service :=
  fun request =>
    let offset := match startRow request with Some o => o | None => 0 end in
    let limit := match rowLimit request with
                 | Some l => Z.min l page_size
                 | None => page_size
                 end in
    match firstn (Z.to_nat limit) (skipn (Z.to_nat offset) data) with
    | [] => Response (if empty_list then Some [] else None)
    | page => Response (Some page)
    end.

(** [ceil(R / P)] *)
Definition ceil_div (R P : Z) : Z := (R + P - 1) / P.

(** Five rows told apart by their click counts, for worked examples. *)
Definition sample_rows : list api_row :=
  map (fun n => mk_row [] n 0 0 0) [1; 2; 3; 4; 5].

(** A row of the working dataframe: the three [keys] spread into the
    columns [date], [query], [page]. *)
Record raw_row := mk_raw
  { r_date : string; r_query : string; r_page : string;
    r_clicks : Z; r_impressions : Z }.


(** The [clicks] column of the dataframe is an [int64] column: pandas
    adds its values as 64-bit two's-complement integers, so a sum that
    leaves the range [-2^63, 2^63) wraps around. *)
Definition wrap64 (z : Z) : Z := (z + 2 ^ 63) mod 2 ^ 64 - 2 ^ 63.

Definition add_int64 (a b : Z) : Z := wrap64 (a + b).

(** [Series.sum()] of an [int64] column *)
Definition sum_int64 (values : list Z) : Z := fold_left add_int64 values 0.

(** [Series.sum()] of a group-by: one entry per distinct key, keys in
    ascending order (pandas' [groupby] sorts the group keys, [sort=True]
    being its default), each with the [int64] sum of its rows. *)
Fixpoint add_to_group (k : string) (v : Z) (groups : list (string * Z))
  : list (string * Z) :=
  match groups with
  | [] => [(k, add_int64 0 v)]
  | (k', v') :: tl =>
      match String.compare k k' with
      | Eq => (k', add_int64 v' v) :: tl
      | Lt => (k, add_int64 0 v) :: groups
      | Gt => (k', v') :: add_to_group k v tl
      end
  end.

Definition groupby_sum (key : raw_row -> string) (rows : list raw_row)
  : list (string * Z) :=
  fold_left (fun groups r => add_to_group (key r) (r_clicks r) groups) rows [].

(** [Series.nlargest(1)]: the largest value, the first of equal ones in
    the order of the series ([keep='first']). *)
Fixpoint nlargest1 (series : list (string * Z)) : option (string * Z) :=
  match series with
  | [] => None
  | x :: tl =>
      match nlargest1 tl with
      | Some b => if snd x <? snd b then Some b else Some x
      | None => Some x
      end
  end.

(** [top_page] and [top_page_clicks] / [top_query] and
    [top_query_clicks] *)
Definition top_by (key : raw_row -> string) (rows : list raw_row)
  : string * Z :=
  match nlargest1 (groupby_sum key rows) with
  | Some top => top
  | None => ("N/A"%string, 0)
  end.

Definition top_page (rows : list raw_row) : string := fst (top_by r_page rows).
Definition top_query (rows : list raw_row) : string := fst (top_by r_query rows).

(** The tie-break as the specification words it: groups are formed in
    the order their key is first met in the rows, and the first group
    with the greatest total wins. *)
Fixpoint add_to_group_encounter (k : string) (v : Z)
         (groups : list (string * Z)) : list (string * Z) :=
  match groups with
  | [] => [(k, add_int64 0 v)]
  | (k', v') :: tl =>
      if String.eqb k k' then (k', add_int64 v' v) :: tl
      else (k', v') :: add_to_group_encounter k v tl
  end.

Definition spec_top_first_encountered (key : raw_row -> string)
           (rows : list raw_row) : string * Z :=
  match nlargest1
          (fold_left (fun groups r =>
                        add_to_group_encounter (key r) (r_clicks r) groups)
                     rows [])
  with
  | Some top => top
  | None => ("N/A"%string, 0)
  end.

(** The order in which the group keys are sorted. *)
Definition str_lt (a b : string) : Prop := String.compare a b = Lt.

(** Total clicks of the rows whose key is [k], in exact arithmetic: the
    number the [int64] sum of the group stands for as long as it has not
    wrapped. *)
Definition total_for (key : raw_row -> string) (k : string)
           (rows : list raw_row) : Z :=
  fold_right Z.add 0
             (map r_clicks (filter (fun r => String.eqb (key r) k) rows)).

(** The sum, in exact arithmetic, of the absolute click counts of the
    rows: while it stays below [2^63], no [int64] sum over any of the
    rows can wrap. *)
Definition magnitude (rows : list raw_row) : Z :=
  fold_right Z.add 0 (map (fun r => Z.abs (r_clicks r)) rows).

(** The value a series holds under key [k] (0 when the key is absent). *)
Fixpoint group_value (k : string) (groups : list (string * Z)) : Z :=
  match groups with
  | [] => 0
  | (k', v) :: tl => if String.eqb k k' then v else group_value k tl
  end.

(** The rows of the specification's scenario, and the same tie met in
    the other order. *)
Definition scenario_rows : list raw_row :=
  [mk_raw "2023-01-01" "q" "/a" 10 100;
   mk_raw "2023-01-01" "q" "/b" 30 100;
   mk_raw "2023-01-01" "q" "/c" 30 100]%string.

Definition tie_rows : list raw_row :=
  [mk_raw "2023-01-01" "q" "/c" 30 100;
   mk_raw "2023-01-02" "q" "/b" 30 100]%string.

(** The two writes of [main]: each sits in its own
    [try ... except IOError], which logs and goes on. *)
Definition output_stage (fs : filesystem) : artifacts :=
  let csv_ok := match write_csv fs with IoOk => true | _ => false end in
  let html_ok := match write_html fs with IoOk => true | _ => false end in
  mk_artifacts csv_ok html_ok Returned.

End Wrapped.

(** ** The dataframe operations the monthly scripts use *)

Module Frame.

(** The format specifications applied with [f"{x:...}"]:
    [.2%], [.2f] and [,.0f]. *)
Inductive format_spec := Percent2 | Fixed2 | Thousands0.

(** A cell: a string, a number as the API gave it, the string obtained
    by formatting a value, or the [NaN] of a missing key. *)
Inductive cell :=
| CStr (s : string)
| CInt (n : Z)
| CReal (x : Q)
| CFormatted (f : format_spec) (v : cell)
| CNaN.

(** A Python [dict] with string keys, in insertion order. *)
Definition dict := list (string * cell).

Fixpoint dict_get (k : string) (d : dict) : option cell :=
  match d with
  | [] => None
  | (k', v) :: tl => if String.eqb k k' then Some v else dict_get k tl
  end.

Record DataFrame := mk_df { columns : list string; records : list (list cell) }.

Definition add_column (cols : list string) (k : string) : list string :=
  if existsb (String.eqb k) cols then cols else cols ++ [k].

(** [pd.DataFrame(list_of_dicts)]: the columns are the keys in the
    order they are first met; a missing key gives [NaN]. *)
Definition from_records (ds : list dict) : DataFrame :=
  let cols :=
    fold_left (fun cols d => fold_left add_column (map fst d) cols) ds [] in
  mk_df cols
        (map (fun d => map (fun c => match dict_get c d with
                                     | Some v => v
                                     | None => CNaN
                                     end) cols) ds).

Fixpoint index_of (name : string) (cols : list string) : option nat :=
  match cols with
  | [] => None
  | c :: tl =>
      if String.eqb name c then Some O else option_map S (index_of name tl)
  end.

Fixpoint indices_of (names cols : list string) : option (list nat) :=
  match names with
  | [] => Some []
  | n :: tl =>
      i <- index_of n cols ;; idxs <- indices_of tl cols ;; Some (i :: idxs)
  end.

(** [df[names]]; [None] is the [KeyError] of an unknown column. *)
Definition select (names : list string) (df : DataFrame) : option DataFrame :=
  idxs <- indices_of names (columns df) ;;
  Some (mk_df names
              (map (fun r => map (fun i => nth i r CNaN) idxs) (records df))).

Fixpoint update_nth {A : Type} (n : nat) (f : A -> A) (l : list A) : list A :=
  match l, n with
  | [], _ => []
  | x :: tl, O => f x :: tl
  | x :: tl, S n' => x :: update_nth n' f tl
  end.

(** [df[name] = df[name].apply(f)] *)
Definition apply_column (name : string) (f : cell -> cell) (df : DataFrame)
  : option DataFrame :=
  i <- index_of name (columns df) ;;
  Some (mk_df (columns df) (map (update_nth i f) (records df))).

(** What [df.to_csv(path, index=False)] writes: the header row and one
    line of cells per record. *)
Record csv_file := mk_csv { header : list string; lines : list (list cell) }.

Definition to_csv (df : DataFrame) : csv_file :=
  mk_csv (columns df) (records df).

(** A numeric field is unformatted when the cell still holds the number
    itself. *)
Definition unformatted (c : cell) : bool :=
  match c with
  | CInt _ | CReal _ => true
  | _ => false
  end.

End Frame.

(** ** The state of a fetching run *)

Module Run.
Import Api Frame.

Record run_state := mk_state { all_data : list dict; calls : list request }.

Definition initial : run_state := mk_state [] [].

Definition log (st : run_state) (reqs : list request) : run_state :=
  mk_state (all_data st) (calls st ++ reqs).

Definition append (st : run_state) (d : dict) : run_state :=
  mk_state (all_data st ++ [d]) (calls st).

(** A loop ends normally, or an exception nobody caught leaves it. *)
Inductive outcome := Finished (st : run_state) | Crashed (st : run_state).

Definition state_of (o : outcome) : run_state :=
  match o with Finished st | Crashed st => st end.

End Run.

(** ** [account-wide-analysis.py] *)

Module AccountWide.
Import PyDate Windows Api Frame Run Output.
Open Scope string_scope.

(** [get_monthly_performance_data]: one undimensioned query; both
    handlers ([HttpError], [Exception]) print and fall through to
    [return None], and so does the [IndexError] of an empty row list. *)
Definition get_monthly_performance_data (svc : service)
           (site_url start_date end_date : string)
  : option api_row * list request :=
  let request := totals_request site_url start_date end_date in
  (match svc request with
   | Response (Some (row :: _)) => Some row
   | Response (Some []) => None
   | Response None => None
   | HttpError _ => None
   | OtherException => None
   end, [request]).

Definition record_of (site_url : string) (start_of_month : date)
           (data : api_row) : dict :=
  [("site_url", CStr site_url);
   ("month", CStr (strftime_ym start_of_month));
   ("clicks", CInt (clicks data));
   ("impressions", CInt (impressions data));
   ("ctr", CReal (ctr data));
   ("position", CReal (position data))].

(** [for i in range(1, 17)] for one site *)
Fixpoint window_loop (svc : service) (today : date) (site_url : string)
         (indices : list Z) (st : run_state) : outcome :=
  match indices with
  | [] => Finished st
  | i :: rest =>
      match monthly_window today i with
      | None => Crashed st
      | Some (start_of_month, end_of_month) =>
          let '(data, reqs) :=
            get_monthly_performance_data svc site_url
              (strftime_ymd start_of_month) (strftime_ymd end_of_month) in
          let st := log st reqs in
          match data with
          | Some row =>
              window_loop svc today site_url rest
                          (append st (record_of site_url start_of_month row))
          | None => window_loop svc today site_url rest st
          end
      end
  end.

(** [for site_url in sites] *)
Fixpoint site_loop (svc : service) (today : date) (sites : list string)
         (st : run_state) : outcome :=
  match sites with
  | [] => Finished st
  | site_url :: rest =>
      match window_loop svc today site_url window_indices st with
      | Finished st' => site_loop svc today rest st'
      | Crashed st' => Crashed st'
      end
  end.

Definition fetch_all (svc : service) (today : date) (sites : list string)
  : outcome :=
  site_loop svc today sites initial.

(** What the iteration for window [i] of a site fetches, logs and
    appends, taken on its own. *)
Definition window_fetch (svc : service) (today : date) (site_url : string)
           (i : Z) : option api_row * list request :=
  match monthly_window today i with
  | Some (start_of_month, end_of_month) =>
      get_monthly_performance_data svc site_url
        (strftime_ymd start_of_month) (strftime_ymd end_of_month)
  | None => (None, [])
  end.

Definition window_records (svc : service) (today : date) (site_url : string)
           (i : Z) : list dict :=
  match monthly_window today i, fst (window_fetch svc today site_url i) with
  | Some (start_of_month, _), Some row =>
      [record_of site_url start_of_month row]
  | _, _ => []
  end.

(** The dataframe handed to [to_csv]: [ctr] and [position] are
    formatted "for better readability" before anything is written. *)
Definition report_frame (data : list dict) : option DataFrame :=
  df <- apply_column "ctr" (CFormatted Percent2) (from_records data) ;;
  apply_column "position" (CFormatted Fixed2) df.

Definition csv_artifact (data : list dict) : option csv_file :=
  option_map to_csv (report_frame data).

Definition report_columns : list string :=
  ["site_url"; "month"; "clicks"; "impressions"; "ctr"; "position"].

(** The cells of a month's row as this script writes them. *)
Definition formatted_line (site_url month : string) (data : api_row)
  : list cell :=
  [CStr site_url; CStr month;
   CInt (clicks data); CInt (impressions data);
   CFormatted Percent2 (CReal (ctr data));
   CFormatted Fixed2 (CReal (position data))].

(** The two writes follow each other with no handler around them. *)
Definition output_stage (fs : filesystem) : artifacts :=
  match write_csv fs with
  | IoOk =>
      match write_html fs with
      | IoOk => mk_artifacts true true Returned
      | _ => mk_artifacts true false Raised
      end
  | _ => mk_artifacts false false Raised
  end.

End AccountWide.

(** ** [queries-pages-analysis.py] *)

Module QueriesPages.
Import PyDate PyStr Windows Api Frame Run Output.
Open Scope string_scope.
Open Scope Z_scope.

(** What [get_monthly_performance_data] hands back: the merged dict,
    the string ["PERMISSION_DENIED"], or [None]; [Uncaught] is an
    exception that is not an [HttpError] and so leaves the function. *)
Inductive monthly_data :=
| Data (d : dict)
| PermissionDenied
| NoData
| Uncaught.

(** One of the two inner [try] blocks: the number of rows of a
    dimensioned query limited to 5000 rows; an [HttpError] only prints a
    warning and leaves the count at its initial 0.  [None]: another
    exception, which no handler of the function catches. *)
Definition unique_count (svc : service) (request : request) : option Z :=
  match svc request with
  | Response (Some rows) => Some (Z.of_nat (List.length rows))
  | Response None => Some 0
  | HttpError _ => Some 0
  | OtherException => None
  end.

Definition get_monthly_performance_data (svc : service)
           (site_url start_date end_date : string)
  : monthly_data * list request :=
  let request_totals := totals_request site_url start_date end_date in
  match svc request_totals with
  | Response None => (NoData, [request_totals])
  | Response (Some []) => (Uncaught, [request_totals])
  | Response (Some (totals_data :: _)) =>
      let request_queries := queries_request site_url start_date end_date in
      match unique_count svc request_queries with
      | None => (Uncaught, [request_totals; request_queries])
      | Some unique_queries =>
          let request_pages := pages_request site_url start_date end_date in
          match unique_count svc request_pages with
          | None => (Uncaught, [request_totals; request_queries; request_pages])
          | Some unique_pages =>
              (Data [("clicks", CInt (clicks totals_data));
                     ("impressions", CInt (impressions totals_data));
                     ("ctr", CReal (ctr totals_data));
                     ("position", CReal (position totals_data));
                     ("queries", CInt unique_queries);
                     ("pages", CInt unique_pages)],
               [request_totals; request_queries; request_pages])
          end
      end
  | HttpError status =>
      if status =? 403 then (PermissionDenied, [request_totals])
      else (NoData, [request_totals])
  | OtherException => (Uncaught, [request_totals])
  end.

Definition second_level_labels : list string :=
  ["co"; "com"; "org"; "net"; "gov"; "edu"].

(** [get_sort_key] *)
Definition get_sort_key (site_url : string) : string * Z * string :=
  if startswith site_url "sc-domain:" then
    (replace site_url "sc-domain:" "", 0, "")
  else
    let netloc := urlparse_netloc site_url in
    let parts := split "." netloc in
    let n := Z.of_nat (List.length parts) in
    let root_domain :=
      if (2 <? n)
         && match py_index parts (-2) with
            | Some p => str_in p second_level_labels
            | None => false
            end
         && match py_index parts (-3) with
            | Some p => (2 <? Z.of_nat (py_len p))
            | None => false
            end
      then join "." (py_slice_from parts (-3))
      else if 2 <? n then join "." (py_slice_from parts (-2))
      else netloc in
    if startswith netloc "www." then (root_domain, 1, "")
    else (root_domain, 2, match py_index (split "." netloc) 0 with
                          | Some p => p
                          | None => ""
                          end).

(** The root domain as the specification words it: the last three
    labels when the second-to-last is a known second-level label,
    otherwise the last two. *)
Definition spec_root_domain (labels : list string) : string :=
  match py_index labels (-2) with
  | Some p =>
      if str_in p second_level_labels
      then join "." (py_slice_from labels (-3))
      else join "." (py_slice_from labels (-2))
  | None => join "." labels
  end.

(** [for i in range(1, 17)] for one site: ["PERMISSION_DENIED"] breaks
    out of the loop. *)
Fixpoint window_loop (svc : service) (today : date) (site_url : string)
         (indices : list Z) (st : run_state) : outcome :=
  match indices with
  | [] => Finished st
  | i :: rest =>
      match monthly_window today i with
      | None => Crashed st
      | Some (start_of_month, end_of_month) =>
          let '(data, reqs) :=
            get_monthly_performance_data svc site_url
              (strftime_ymd start_of_month) (strftime_ymd end_of_month) in
          let st := log st reqs in
          match data with
          | PermissionDenied => Finished st
          | Data d =>
              window_loop svc today site_url rest
                (append st (("site_url", CStr site_url)
                            :: ("month", CStr (strftime_ym start_of_month))
                            :: d))
          | NoData => window_loop svc today site_url rest st
          | Uncaught => Crashed st
          end
      end
  end.

(** [for site_url in sites] *)
Fixpoint site_loop (svc : service) (today : date) (sites : list string)
         (st : run_state) : outcome :=
  match sites with
  | [] => Finished st
  | site_url :: rest =>
      match window_loop svc today site_url window_indices st with
      | Finished st' => site_loop svc today rest st'
      | Crashed st' => Crashed st'
      end
  end.

Definition fetch_all (svc : service) (today : date) (sites : list string)
  : outcome :=
  site_loop svc today sites initial.

(** What the iteration for window [i] of a site fetches, logs and
    appends, taken on its own; a window that cannot be computed raises
    before any call. *)
Definition window_fetch (svc : service) (today : date) (site_url : string)
           (i : Z) : monthly_data * list request :=
  match monthly_window today i with
  | Some (start_of_month, end_of_month) =>
      get_monthly_performance_data svc site_url
        (strftime_ymd start_of_month) (strftime_ymd end_of_month)
  | None => (Uncaught, [])
  end.

Definition window_records (svc : service) (today : date) (site_url : string)
           (i : Z) : list dict :=
  match monthly_window today i, fst (window_fetch svc today site_url i) with
  | Some (start_of_month, _), Data d =>
      [("site_url", CStr site_url)
       :: ("month", CStr (strftime_ym start_of_month)) :: d]
  | _, _ => []
  end.

(** The windows of a site that are reached: the loop stops after the
    first one answered ["PERMISSION_DENIED"] (or left by an exception). *)
Fixpoint processed_windows (svc : service) (today : date)
         (site_url : string) (indices : list Z) : list Z :=
  match indices with
  | [] => []
  | i :: rest =>
      match fst (window_fetch svc today site_url i) with
      | Data _ | NoData =>
          i :: processed_windows svc today site_url rest
      | PermissionDenied | Uncaught => [i]
      end
  end.

Definition column_order : list string :=
  ["site_url"; "month"; "clicks"; "impressions"; "ctr"; "position";
   "queries"; "pages"].

(** The cells of a month's row with every number as the API gave it, and
    the dict [main] appends for it. *)
Definition raw_line (site_url month : string) (totals_data : api_row)
           (unique_queries unique_pages : Z) : list cell :=
  [CStr site_url; CStr month;
   CInt (clicks totals_data); CInt (impressions totals_data);
   CReal (ctr totals_data); CReal (position totals_data);
   CInt unique_queries; CInt unique_pages].

Definition monthly_record (site_url month : string) (totals_data : api_row)
           (unique_queries unique_pages : Z) : dict :=
  combine column_order
          (raw_line site_url month totals_data unique_queries unique_pages).

(** [df = pd.DataFrame(all_data); df = df[column_order]; df.to_csv(..)] *)
Definition csv_artifact (data : list dict) : option csv_file :=
  option_map to_csv (select column_order (from_records data)).

(** The report: only [PermissionError] is handled.  On a fresh fetch the
    handler of the CSV write returns from [main]; with a cache hit the
    CSV is read, not written. *)
Definition html_stage (fs : filesystem) (csv_done : bool) : artifacts :=
  match write_html fs with
  | IoOk => mk_artifacts csv_done true Returned
  | IoPermissionError => mk_artifacts csv_done false Returned
  | IoOtherOSError => mk_artifacts csv_done false Raised
  end.

Definition output_stage (cache_hit : bool) (fs : filesystem) : artifacts :=
  if cache_hit then html_stage fs false
  else
    match write_csv fs with
    | IoOk => html_stage fs true
    | IoPermissionError => mk_artifacts false false Returned
    | IoOtherOSError => mk_artifacts false false Raised
    end.

End QueriesPages.

(** ** More of [generate_gsc_wrapped.py]: the yearly figures of [main] *)

Module WrappedMain.
Import Api Wrapped.

(** [response['rows']] when the key is there, for a call that returned. *)
Definition response_rows (r : response) : list api_row :=
  match r with
  | Response (Some rows) => rows
  | _ => []
  end.

(** [df['clicks'].sum()], an [int64] sum *)
Definition total_clicks (rows : list raw_row) : Z :=
  sum_int64 (map r_clicks rows).

(** [df[column].nunique()] *)
Definition nunique (key : raw_row -> string) (rows : list raw_row) : nat :=
  List.length (nodup string_dec (map key rows)).

(** [top_page_clicks], [top_query_clicks] *)
Definition top_clicks (key : raw_row -> string) (rows : list raw_row) : Z :=
  snd (top_by key rows).

End WrappedMain.

(** ** The month in the file names of the monthly scripts *)

Module FileNames.
Import PyDate Windows.

(** [(today.replace(day=1) - timedelta(days=1)).strftime('%Y-%m')] *)
Definition most_recent_month (today : date) : option string :=
  first <- replace_day today 1 ;;
  last_of_previous <- date_sub_days first 1 ;;
  Some (strftime_ym last_of_previous).

End FileNames.

(** ** More of [queries-pages-analysis.py]: ordering the sites and the
    index of the multi-site report *)

Module Report.
Import PyStr Frame QueriesPages.
Open Scope string_scope.
Open Scope Z_scope.

(** Python's order on the key tuples: component by component, the first
    difference decides. *)
Definition key_compare (a b : string * Z * string) : comparison :=
  match String.compare (fst (fst a)) (fst (fst b)) with
  | Eq =>
      match Z.compare (snd (fst a)) (snd (fst b)) with
      | Eq => String.compare (snd a) (snd b)
      | Lt => Lt
      | Gt => Gt
      end
  | Lt => Lt
  | Gt => Gt
  end.

Definition key_leb (a b : string * Z * string) : bool :=
  match key_compare a b with
  | Gt => false
  | _ => true
  end.

(** [sites.sort(key=get_sort_key)] and [sorted(..., key=get_sort_key)].
    Python's sort is stable, so its result is the one of any stable sort;
    here each site is inserted before the first site whose key is not
    smaller. *)
Fixpoint insert_site (site : string) (sorted : list string) : list string :=
  match sorted with
  | [] => [site]
  | s :: tl =>
      if key_leb (get_sort_key site) (get_sort_key s)
      then site :: sorted
      else s :: insert_site site tl
  end.

Definition sort_sites (sites : list string) : list string :=
  fold_right insert_site [] sites.

(** The anchor of a site, as both the index and the sections compute it. *)
Definition anchor_of (site : string) : string :=
  replace (replace (replace (replace (replace site "https://" "")
                                     "http://" "")
                            ":" "-")
                   "/" "-")
          "." "-".

(** What the loop of [create_multi_site_html_report] appends to
    [index_html], piece by piece. *)
Inductive index_entry :=
| GroupOpen (root_domain : string)
| GroupClose
| SiteLink (site anchor : string) (indented : bool).

Fixpoint index_entries (sorted_sites : list string)
         (current_root_domain : option string) : list index_entry :=
  match sorted_sites with
  | [] =>
      match current_root_domain with
      | Some _ => [GroupClose]
      | None => []
      end
  | site :: rest =>
      let key := get_sort_key site in
      let root_domain := fst (fst key) in
      let order := snd (fst key) in
      let changed :=
        match current_root_domain with
        | Some current => negb (String.eqb root_domain current)
        | None => true
        end in
      ((if changed
        then match current_root_domain with
             | Some _ => [GroupClose]
             | None => []
             end ++ [GroupOpen root_domain]
        else [])
         ++ [SiteLink site (anchor_of site)
                      (negb ((order =? 0) || (order =? 1)))]
         ++ index_entries rest
              (if changed then Some root_domain else current_root_domain))%list
  end.

Definition dquote : string := String (ascii_of_nat 34) EmptyString.

Definition render_entry (e : index_entry) : string :=
  match e with
  | GroupOpen root_domain => "<li><strong>" ++ root_domain ++ "</strong><ul>"
  | GroupClose => "</ul></li>"
  | SiteLink site anchor indented =>
      "<li>" ++ (if indented then "&nbsp;&nbsp;&nbsp;&nbsp;" else "")
             ++ "<a href=" ++ dquote ++ "#" ++ anchor ++ dquote ++ ">"
             ++ site ++ "</a></li>"
  end.

(** [index_html] *)
Definition index_html (sorted_sites : list string) : string :=
  "<ul>" ++ String.concat "" (map render_entry (index_entries sorted_sites None))
         ++ "</ul>".

(** Reading the pieces back: every group is opened outside any group and
    closed before the next, every link lies inside a group, and nothing
    is left open. *)
Fixpoint well_nested (inside : bool) (entries : list index_entry) : bool :=
  match entries with
  | [] => negb inside
  | GroupOpen _ :: tl => negb inside && well_nested true tl
  | GroupClose :: tl => inside && well_nested false tl
  | SiteLink _ _ _ :: tl => inside && well_nested true tl
  end.

Fixpoint group_roots (entries : list index_entry) : list string :=
  match entries with
  | [] => []
  | GroupOpen root_domain :: tl => root_domain :: group_roots tl
  | _ :: tl => group_roots tl
  end.

Fixpoint linked_sites (entries : list index_entry) : list string :=
  match entries with
  | [] => []
  | SiteLink site _ _ :: tl => site :: linked_sites tl
  | _ :: tl => linked_sites tl
  end.

(** The characters an anchor is cleared of. *)
Definition anchor_char (c : ascii) : bool :=
  negb (Ascii.eqb c ":" || Ascii.eqb c "/" || Ascii.eqb c ".").

End Report.

(** ** Directory and file names derived from a site, in the [main] of
    [generate_gsc_wrapped.py] and of [queries-pages-analysis.py] *)

Module Paths.
Import PyStr.
Open Scope string_scope.

(** [host_plain] *)
Definition host_plain (site_url : string) : string :=
  if startswith site_url "sc-domain:"
  then replace site_url "sc-domain:" ""
  else urlparse_netloc site_url.

(** [host_dir = host_plain.replace('www.', '')] *)
Definition host_dir (site_url : string) : string :=
  replace (host_plain site_url) "www." "".

(** [host_dir.replace('.', '-')], the part of the file names that stands
    for the site. *)
Definition host_for_filename (site_url : string) : string :=
  replace (host_dir site_url) "." "-".

(** [file_prefix] of a single-site run of [queries-pages-analysis.py] *)
Definition file_prefix (site_url most_recent_month : string) : string :=
  "queries-pages-analysis-" ++ host_for_filename site_url ++ "-"
    ++ most_recent_month.

(** A host as it stands between [//] and the first [/], [?] or [#]. *)
Definition host_char (c : ascii) : bool :=
  negb (Ascii.eqb c "/" || Ascii.eqb c "?" || Ascii.eqb c "#").

Definition not_dot (c : ascii) : bool := negb (Ascii.eqb c ".").

End Paths.

(** ** More of the monthly scripts: the sections of the multi-site report
    and the way [main] goes from the fetched rows to the files *)

Module Sections.
Import PyStr Frame Run Output QueriesPages Report.
Open Scope string_scope.

(** [df['site_url'] == site], cell by cell *)
Definition is_site (site : string) (c : cell) : bool :=
  match c with
  | CStr s => String.eqb s site
  | _ => false
  end.

Fixpoint remove_nth {A : Type} (n : nat) (l : list A) : list A :=
  match l, n with
  | [], _ => []
  | _ :: tl, O => tl
  | x :: tl, S n' => x :: remove_nth n' tl
  end.

(** [df[df['site_url'] == site].drop(columns=['site_url'])]: the records
    left; [None] is the [KeyError] of a frame without that column. *)
Definition site_frame (df : DataFrame) (site : string)
  : option (list (list cell)) :=
  i <- index_of "site_url" (columns df) ;;
  Some (map (remove_nth i)
            (filter (fun r => is_site site (nth i r CNaN)) (records df))).

(** What follows the heading of a site: its table, or the note
    "No data available for this site." *)
Inductive section_body :=
| Table (rows : list (list cell))
| NoDataNote.

Record section := mk_section
  { section_id : string; section_title : string; body : section_body }.

(** [generate_site_sections] *)
Fixpoint generate_site_sections (df : DataFrame) (sorted_sites : list string)
  : option (list section) :=
  match sorted_sites with
  | [] => Some []
  | site :: rest =>
      site_df <- site_frame df site ;;
      sections <- generate_site_sections df rest ;;
      Some (mk_section (anchor_of site) site
                       (match site_df with
                        | [] => NoDataNote
                        | _ => Table site_df
                        end)
            :: sections)
  end.

(** The formatting [main] applies to a copy of the frame before the
    multi-site report: thousands separators for the four counts, a
    two-decimal percentage and a two-decimal number. *)
Definition html_frame (df : DataFrame) : option DataFrame :=
  df <- apply_column "clicks" (CFormatted Thousands0) df ;;
  df <- apply_column "impressions" (CFormatted Thousands0) df ;;
  df <- apply_column "queries" (CFormatted Thousands0) df ;;
  df <- apply_column "pages" (CFormatted Thousands0) df ;;
  df <- apply_column "ctr" (CFormatted Percent2) df ;;
  apply_column "position" (CFormatted Fixed2) df.

(** What the six [apply] calls of [html_frame] do to one line of the
    frame in [column_order]. *)
Definition html_line (r : list cell) : list cell :=
  update_nth 5 (CFormatted Fixed2)
    (update_nth 4 (CFormatted Percent2)
       (update_nth 7 (CFormatted Thousands0)
          (update_nth 6 (CFormatted Thousands0)
             (update_nth 3 (CFormatted Thousands0)
                (update_nth 2 (CFormatted Thousands0) r))))).

(** The dicts appended for a site, in the order they were appended. *)
Definition rows_of (site : string) (data : list dict) : list dict :=
  filter (fun d => match dict_get "site_url" d with
                   | Some c => is_site site c
                   | None => false
                   end) data.

Definition cell_of (k : string) (d : dict) : cell :=
  match dict_get k d with
  | Some v => v
  | None => CNaN
  end.

(** A line of a site's table, read from the dict appended for the month:
    the month and the six figures, each under its format. *)
Definition table_line (d : dict) : list cell :=
  [cell_of "month" d;
   CFormatted Thousands0 (cell_of "clicks" d);
   CFormatted Thousands0 (cell_of "impressions" d);
   CFormatted Percent2 (cell_of "ctr" d);
   CFormatted Fixed2 (cell_of "position" d);
   CFormatted Thousands0 (cell_of "queries" d);
   CFormatted Thousands0 (cell_of "pages" d)].

(** The (site, month) a dict was appended for. *)
Definition row_key (d : dict) : option cell * option cell :=
  (dict_get "site_url" d, dict_get "month" d).

End Sections.

Module Mains.
Import PyDate Api Frame Run Output.

(** [main] of [queries-pages-analysis.py] from the list of sites on, for
    a run that fetches: an exception leaving the loops unwinds [main];
    no row at all ends it with "No performance data found."; otherwise
    the frame is built and the files are written. *)
Definition queries_pages_run (svc : service) (today : date)
           (sites : list string) (fs : filesystem) : artifacts :=
  match QueriesPages.fetch_all svc today sites with
  | Crashed _ => mk_artifacts false false Raised
  | Finished st =>
      match all_data st with
      | [] => mk_artifacts false false Returned
      | _ =>
          match QueriesPages.csv_artifact (all_data st) with
          | Some _ => QueriesPages.output_stage false fs
          | None => mk_artifacts false false Raised
          end
      end
  end.

(** [main] of [account-wide-analysis.py], likewise. *)
Definition account_wide_run (svc : service) (today : date)
           (sites : list string) (fs : filesystem) : artifacts :=
  match AccountWide.fetch_all svc today sites with
  | Crashed _ => mk_artifacts false false Raised
  | Finished st =>
      match all_data st with
      | [] => mk_artifacts false false Returned
      | _ =>
          match AccountWide.csv_artifact (all_data st) with
          | Some _ => AccountWide.output_stage fs
          | None => mk_artifacts false false Raised
          end
      end
  end.

End Mains.

(** * Properties *)

Section WindowFacts.
Import PyDate Windows.

Lemma days_in_month_bounds y m : 28 <= days_in_month y m <= 31.
Proof.
  unfold days_in_month.
  destruct (m =? 2); [destruct (isleap y); lia|].
  destruct ((m =? 4) || (m =? 6) || (m =? 9) || (m =? 11)); lia.
Qed.

Lemma valid_date_iff d :
  valid_date d <->
  MINYEAR <= year d <= MAXYEAR /\ 1 <= month d <= 12 /\
  1 <= day d <= days_in_month (year d) (month d).
Proof.
  unfold valid_date, valid_dateb.
  rewrite !andb_true_iff, !Z.leb_le. tauto.
Qed.

Lemma make_date_valid y m d :
  valid_date (mkdate y m d) -> make_date y m d = Some (mkdate y m d).
Proof. unfold make_date, valid_date. now intros ->. Qed.

Lemma relativedelta_months_nonneg k :
  0 <= k -> relativedelta_months k = mkrd (k / 12) (k mod 12).
Proof.
  intros Hk. unfold relativedelta_months, rd_fix.
  destruct (11 <? Z.abs k) eqn:E.
  - apply Z.ltb_lt in E.
    assert (Z.sgn k = 1) as -> by (apply Z.sgn_pos; lia).
    now rewrite !Z.mul_1_r.
  - apply Z.ltb_ge in E.
    rewrite Z.div_small, Z.mod_small by lia. reflexivity.
Qed.

Lemma rd_neg_small q r :
  0 <= r < 12 -> rd_neg (mkrd q r) = mkrd (- q) (- r).
Proof.
  intros Hr. unfold rd_neg, rd_fix. cbn [rd_years rd_months].
  destruct (11 <? Z.abs (- r)) eqn:E; [apply Z.ltb_lt in E; lia | reflexivity].
Qed.

(** Moving the first of a month back [k] months lands on the first of
    the month [k] positions earlier. *)
Lemma first_minus_months y m k :
  1 <= m <= 12 -> 0 <= k ->
  MINYEAR * 12 <= 12 * y + (m - 1) - k -> y <= MAXYEAR ->
  date_sub_rd (mkdate y m 1) (relativedelta_months k)
  = Some (first_of_month (12 * y + (m - 1) - k)).
Proof.
  intros Hm Hk Hlo Hhi. unfold date_sub_rd, MINYEAR, MAXYEAR in *.
  rewrite relativedelta_months_nonneg by assumption.
  rewrite rd_neg_small by (apply Z.mod_pos_bound; lia).
  unfold rd_radd, first_of_month. cbn [rd_years rd_months year month day].
  set (q := k / 12). set (r := k mod 12).
  assert (Hqr : k = 12 * q + r /\ 0 <= r < 12).
  { subst q r. split; [apply Z.div_mod; lia | apply Z.mod_pos_bound; lia]. }
  destruct Hqr as [Hkqr Hr].
  remember (12 * y + (m - 1) - k) as idx eqn:Hidx.
  assert (Hym : (if - r =? 0 then (y + - q, m)
                 else if 12 <? m + - r then (y + - q + 1, m + - r - 12)
                      else if m + - r <? 1 then (y + - q - 1, m + - r + 12)
                           else (y + - q, m + - r))
                = (idx / 12, idx mod 12 + 1)).
  { assert (Hdm : forall a b c, 0 <= b < 12 -> idx = 12 * a + b -> c = b + 1 ->
                          (a, c) = (idx / 12, idx mod 12 + 1)).
    { intros a b c Hb Hab ->.
      rewrite <- (Z.div_unique idx 12 a b), <- (Z.mod_unique idx 12 a b);
        auto with zarith. }
    destruct (- r =? 0) eqn:E0.
    - apply Z.eqb_eq in E0. apply (Hdm _ (m - 1)); lia.
    - destruct (12 <? m + - r) eqn:E1; [apply Z.ltb_lt in E1; lia|].
      destruct (m + - r <? 1) eqn:E2.
      + apply Z.ltb_lt in E2. apply (Hdm _ (m - r + 11)); lia.
      + apply Z.ltb_ge in E2. apply (Hdm _ (m - r - 1)); lia. }
  rewrite Hym. cbn [fst snd].
  pose proof (days_in_month_bounds (idx / 12) (idx mod 12 + 1)).
  rewrite Z.min_r by lia.
  apply make_date_valid, valid_date_iff. cbn [year month day].
  unfold MINYEAR, MAXYEAR.
  pose proof (Z.mod_pos_bound idx 12 ltac:(lia)).
  assert (1 <= idx / 12) by (apply Z.div_le_lower_bound; lia).
  assert (idx / 12 < y + 1) by (apply Z.div_lt_upper_bound; lia).
  lia.
Qed.

Lemma yesterday_first_of_month idx :
  MINYEAR * 12 + 1 <= idx ->
  yesterday (first_of_month idx)
  = Some (mkdate ((idx - 1) / 12) ((idx - 1) mod 12 + 1)
                 (days_in_month ((idx - 1) / 12) ((idx - 1) mod 12 + 1))).
Proof.
  unfold MINYEAR. intros Hidx.
  unfold yesterday, first_of_month. cbn [year month day].
  rewrite Z.ltb_irrefl.
  pose proof (Z.mod_pos_bound idx 12 ltac:(lia)) as Hr.
  pose proof (Z.div_mod idx 12 ltac:(lia)) as Hdm.
  destruct (1 <? idx mod 12 + 1) eqn:E.
  - apply Z.ltb_lt in E.
    assert (Hq : (idx - 1) / 12 = idx / 12)
      by (symmetry; apply Z.div_unique with (r := idx mod 12 - 1); lia).
    assert (Hm : (idx - 1) mod 12 = idx mod 12 - 1)
      by (symmetry; apply Z.mod_unique with (q := idx / 12); lia).
    rewrite Hq, Hm.
    replace (idx mod 12 + 1 - 1) with (idx mod 12 - 1 + 1) by lia.
    reflexivity.
  - apply Z.ltb_ge in E.
    assert (Hq : (idx - 1) / 12 = idx / 12 - 1)
      by (symmetry; apply Z.div_unique with (r := 11); lia).
    assert (Hm : (idx - 1) mod 12 = 11)
      by (symmetry; apply Z.mod_unique with (q := idx / 12 - 1); lia).
    rewrite Hq, Hm.
    unfold MINYEAR.
    assert (Hlt : (1 <? idx / 12) = true) by (apply Z.ltb_lt; lia).
    rewrite Hlt. reflexivity.
Qed.

(** The window of index [i], for a month position that stays inside
    the calendar. *)
Lemma monthly_window_at today i :
  valid_date today -> 1 <= i ->
  MINYEAR * 12 <= month_index today - i ->
  let idx := month_index today - i in
  let y := idx / 12 in
  let m := idx mod 12 + 1 in
  monthly_window today i
  = Some (mkdate y m 1, mkdate y m (days_in_month y m)).
Proof.
  intros Hv Hi Hlo idx y m.
  apply valid_date_iff in Hv. destruct Hv as (Hy & Hm & Hd).
  unfold MINYEAR, MAXYEAR in *.
  unfold monthly_window, replace_day.
  pose proof (days_in_month_bounds (year today) (month today)) as Hb.
  rewrite make_date_valid
    by (apply valid_date_iff; cbn [year month day]; unfold MINYEAR, MAXYEAR; lia).
  cbn [bind].
  unfold month_index in *.
  rewrite first_minus_months by (unfold MINYEAR, MAXYEAR; lia).
  cbn [bind date_sub_days].
  rewrite yesterday_first_of_month by (unfold MINYEAR; lia).
  replace (12 * year today + (month today - 1) - (i - 1) - 1) with idx
    by (subst idx; lia).
  fold y m. cbn [bind year month day].
  pose proof (days_in_month_bounds y m) as Hb'.
  pose proof (Z.mod_pos_bound idx 12 ltac:(lia)).
  assert (1 <= y) by (apply Z.div_le_lower_bound; subst idx; lia).
  assert (y < year today + 1) by (apply Z.div_lt_upper_bound; subst idx; lia).
  rewrite make_date_valid
    by (apply valid_date_iff; cbn [year month day]; unfold MINYEAR, MAXYEAR; lia).
  reflexivity.
Qed.

End WindowFacts.

Section MonthlyWindowGenerator.
Import PyDate Windows.

(** C1. For a reference date [today] and an index [i] from 1 to 16 the
    generated window ends on the day before the first of the month lying
    [i - 1] months before today's month, that day is the last calendar
    day of its month (the month [i] positions before today's), and the
    window starts on the first day of that same month.  With reference
    date 2024-03-15, window 1 is [2024-02-01, 2024-02-29] and window 13
    is [2023-02-01, 2023-02-28]. *)
Theorem monthly_window_is_full_calendar_month :
  (forall today i,
      valid_date today -> MINYEAR + 2 <= year today -> 1 <= i <= 16 ->
      exists s e,
        monthly_window today i = Some (s, e) /\
        date_sub_days (first_of_month (month_index today - (i - 1))) 1 = Some e /\
        month_index e = month_index today - i /\
        day e = days_in_month (year e) (month e) /\
        s = mkdate (year e) (month e) 1 /\
        valid_date s /\ valid_date e) /\
  render_window (monthly_window (mkdate 2024 3 15) 1)
  = Some ("2024-02-01", "2024-02-29")%string /\
  render_window (monthly_window (mkdate 2024 3 15) 13)
  = Some ("2023-02-01", "2023-02-28")%string.
Proof.
  split; [|split; reflexivity].
  intros today i Hv Hy Hi.
  pose proof Hv as Hv'. apply valid_date_iff in Hv'.
  destruct Hv' as (Hyr & Hm & Hd). unfold MINYEAR, MAXYEAR in *.
  assert (Hlo : MINYEAR * 12 <= month_index today - i)
    by (unfold MINYEAR, month_index; lia).
  pose proof (monthly_window_at today i Hv ltac:(lia) Hlo) as Hw.
  cbv zeta in Hw.
  set (idx := month_index today - i) in *.
  set (y := idx / 12) in *. set (m := idx mod 12 + 1) in *.
  pose proof (Z.mod_pos_bound idx 12 ltac:(lia)) as Hr.
  pose proof (Z.div_mod idx 12 ltac:(lia)) as Hdm.
  pose proof (days_in_month_bounds y m) as Hb.
  assert (Hy1 : 1 <= y)
    by (apply Z.div_le_lower_bound; unfold MINYEAR in Hlo; lia).
  assert (Hy2 : y < year today + 1)
    by (apply Z.div_lt_upper_bound; subst idx; unfold month_index; lia).
  exists (mkdate y m 1), (mkdate y m (days_in_month y m)).
  repeat split; try assumption.
  - cbn [date_sub_days].
    rewrite yesterday_first_of_month
      by (unfold MINYEAR, month_index in *; lia).
    replace (month_index today - (i - 1) - 1) with idx by (subst idx; lia).
    reflexivity.
  - unfold month_index. cbn [year month]. subst y m. lia.
  - apply valid_date_iff. cbn [year month day]. unfold MINYEAR, MAXYEAR. lia.
  - apply valid_date_iff. cbn [year month day]. unfold MINYEAR, MAXYEAR. lia.
Qed.

Lemma monthly_window_is_full_calendar_month_witness :
  exists s e,
    monthly_window (mkdate 2025 1 31) 16 = Some (s, e) /\
    date_sub_days (first_of_month (month_index (mkdate 2025 1 31) - (16 - 1))) 1
    = Some e /\
    month_index e = month_index (mkdate 2025 1 31) - 16 /\
    day e = days_in_month (year e) (month e) /\
    s = mkdate (year e) (month e) 1 /\
    valid_date s /\ valid_date e.
Proof.
  apply (proj1 monthly_window_is_full_calendar_month (mkdate 2025 1 31) 16).
  - reflexivity.
  - unfold MINYEAR; simpl; lia.
  - lia.
Defined.

End MonthlyWindowGenerator.

Section PagedFetcher.
Import Api Wrapped.

Variables (site_url start_date end_date : string) (dims : list string).

(** One turn of the loop, for any service. *)
Lemma get_gsc_data_loop_step fuel svc row_limit all_data start_row calls :
  get_gsc_data_loop (S fuel) svc site_url start_date end_date dims row_limit
                    all_data start_row calls
  = match svc (mk_request site_url start_date end_date dims
                        (Some row_limit) (Some start_row)) with
    | Response (Some rows) =>
        if Z.of_nat (List.length rows) <? row_limit
        then Some (Some (all_data ++ rows),
                   calls ++ [mk_request site_url start_date end_date dims
                        (Some row_limit) (Some start_row)])
        else get_gsc_data_loop fuel svc site_url start_date end_date dims
                               row_limit (all_data ++ rows)
                               (start_row + row_limit)
                               (calls ++ [mk_request site_url start_date end_date dims
                        (Some row_limit) (Some start_row)])
    | Response None =>
        Some (Some all_data, calls ++ [mk_request site_url start_date end_date dims
                        (Some row_limit) (Some start_row)])
    | HttpError _ | OtherException =>
        Some (None, calls ++ [mk_request site_url start_date end_date dims
                        (Some row_limit) (Some start_row)])
    end.
Proof. reflexivity. Qed.

Lemma firstn_nil_inv {A : Type} (n : nat) (l : list A) :
  (0 < n)%nat -> firstn n l = [] -> l = [].
Proof. destruct n, l; simpl; intros; try lia; congruence. Qed.

(** The loop on a paged source, started at any page boundary. *)
Lemma get_gsc_data_loop_paged P data empty_list :
  0 < P ->
  forall fuel off all_data calls,
    (off <= List.length data)%nat ->
    (Z.to_nat ((Z.of_nat (List.length data) - Z.of_nat off) / P) < fuel)%nat ->
    get_gsc_data_loop fuel (paged_source P data empty_list)
                      site_url start_date end_date dims P
                      all_data (Z.of_nat off) calls
    = Some (Some (all_data ++ skipn off data),
            calls ++ map (fun k =>
                            mk_request site_url start_date end_date dims (Some P)
                                       (Some (Z.of_nat off + Z.of_nat k * P)))
                         (seq 0 (S (Z.to_nat ((Z.of_nat (List.length data)
                                               - Z.of_nat off) / P))))).
Proof.
  intros HP. induction fuel as [|fuel IH]; intros off all_data calls Hoff Hfuel;
    [lia|].
  rewrite get_gsc_data_loop_step.
  set (rest := skipn off data).
  assert (Hlen : List.length rest = (List.length data - off)%nat)
    by (subst rest; apply length_skipn).
  assert (Hsrc : paged_source P data empty_list
                   (mk_request site_url start_date end_date dims (Some P)
                               (Some (Z.of_nat off)))
                 = match firstn (Z.to_nat P) rest with
                   | [] => Response (if empty_list then Some [] else None)
                   | page => Response (Some page)
                   end).
  { unfold paged_source. cbn [startRow rowLimit].
    rewrite Z.min_id, Nat2Z.id. reflexivity. }
  rewrite Hsrc. clear Hsrc.
  destruct (firstn (Z.to_nat P) rest) as [|r page] eqn:Epage.
  - (* past the last row *)
    apply firstn_nil_inv in Epage; [|lia].
    assert (Hq : (Z.of_nat (List.length data) - Z.of_nat off) / P = 0).
    { rewrite Epage in Hlen. simpl in Hlen. apply Z.div_small. lia. }
    rewrite Hq. cbn [Z.to_nat seq map]. change (Z.of_nat 0) with 0.
    rewrite Epage, Z.mul_0_l, Z.add_0_r, app_nil_r.
    destruct empty_list.
    + cbn [List.length Z.of_nat].
      assert (Hlt : (0 <? P) = true) by (apply Z.ltb_lt; lia).
      rewrite Hlt, app_nil_r. reflexivity.
    + reflexivity.
  - pose proof (length_firstn (Z.to_nat P) rest) as Hfl.
    rewrite Epage in Hfl.
    destruct (Z.of_nat (List.length (r :: page)) <? P) eqn:Elt.
    + (* a short page: the last one *)
      apply Z.ltb_lt in Elt.
      assert (Hshort : (List.length rest < Z.to_nat P)%nat) by lia.
      assert (Hall : r :: page = rest).
      { rewrite <- Epage. apply firstn_all2. lia. }
      assert (Hq : (Z.of_nat (List.length data) - Z.of_nat off) / P = 0)
        by (apply Z.div_small; lia).
      rewrite Hq. cbn [Z.to_nat seq map]. change (Z.of_nat 0) with 0.
      rewrite Z.mul_0_l, Z.add_0_r, Hall. reflexivity.
    + (* a full page: go on *)
      apply Z.ltb_ge in Elt.
      assert (Hfull : List.length (r :: page) = Z.to_nat P) by lia.
      assert (Hroom : (Z.to_nat P <= List.length rest)%nat) by lia.
      replace (Z.of_nat off + P) with (Z.of_nat (off + Z.to_nat P)) by lia.
      set (D := Z.of_nat (List.length data) - Z.of_nat off) in *.
      assert (HD : P <= D) by (subst D; lia).
      assert (Hq : D / P = (D - P) / P + 1).
      { replace D with ((D - P) + 1 * P) at 1 by lia.
        rewrite Z.div_add by lia. reflexivity. }
      assert (Hq0 : 0 <= (D - P) / P) by (apply Z.div_pos; lia).
      rewrite IH; [| lia |].
      * replace (Z.of_nat (List.length data) - Z.of_nat (off + Z.to_nat P))
          with (D - P) by (subst D; lia).
        rewrite Hq.
        replace (Z.to_nat ((D - P) / P + 1))
          with (S (Z.to_nat ((D - P) / P))) by lia.
        f_equal. f_equal.
        -- rewrite <- app_assoc. f_equal.
           rewrite <- Epage. subst rest.
           rewrite <- (firstn_skipn (Z.to_nat P) (skipn off data)) at 2.
           f_equal. rewrite skipn_skipn, Nat.add_comm. reflexivity.
        -- rewrite <- app_assoc. f_equal.
           set (n := S (Z.to_nat ((D - P) / P))).
           change (seq 0 (S n)) with (0%nat :: seq 1 n).
           rewrite <- seq_shift. cbn [map app]. rewrite map_map.
           f_equal; [do 2 f_equal; lia|].
           apply map_ext. intros k. do 2 f_equal. lia.
      * replace (Z.of_nat (List.length data) - Z.of_nat (off + Z.to_nat P))
          with (D - P) by (subst D; lia).
        lia.
Qed.

End PagedFetcher.

Section PagedFetcherClaims.
Import Api Wrapped.

Lemma calls_on_paged_source R P :
  0 <= R -> 0 < P ->
  R / P + 1 = if R mod P =? 0 then ceil_div R P + 1 else ceil_div R P.
Proof.
  intros HR HP. unfold ceil_div.
  pose proof (Z.div_mod R P ltac:(lia)) as Hdm.
  pose proof (Z.mod_pos_bound R P HP) as Hr.
  destruct (R mod P =? 0) eqn:E.
  - apply Z.eqb_eq in E. f_equal.
    apply Z.div_unique with (r := P - 1); lia.
  - apply Z.eqb_neq in E.
    apply Z.div_unique with (r := R mod P - 1); lia.
Qed.

(** C2. On a paged source with page size [P] holding [R] rows, the
    fetcher called with page limit [P] returns exactly the source's rows,
    each once and in order, after [ceil(R/P)] calls, or [ceil(R/P)+1]
    when [R] is a multiple of [P] (the extra call meets the empty
    terminal page); the calls ask for offsets 0, P, 2P, ...  For any
    service, a turn of the loop ends the fetch on a page shorter than the
    limit or on a body without rows, and otherwise moves the offset on by
    the limit.  Pages of 25000, 25000 and 1200 rows under limit 25000
    give 3 calls and 51200 rows. *)
Theorem get_gsc_data_pages_through_all_rows :
  (forall site_url start_date end_date dims P data empty_list fuel,
      0 < P ->
      (Z.to_nat (Z.of_nat (List.length data) / P) < fuel)%nat ->
      exists calls,
        get_gsc_data fuel (paged_source P data empty_list)
                     site_url start_date end_date dims P
        = Some (Some data, calls) /\
        Z.of_nat (List.length calls)
        = (if Z.of_nat (List.length data) mod P =? 0
           then ceil_div (Z.of_nat (List.length data)) P + 1
           else ceil_div (Z.of_nat (List.length data)) P) /\
        map startRow calls
        = map (fun k => Some (Z.of_nat k * P)) (seq 0 (List.length calls))) /\
  (forall fuel svc site_url start_date end_date dims row_limit
          all_data start_row calls,
      let request := mk_request site_url start_date end_date dims
                                (Some row_limit) (Some start_row) in
      let turn := get_gsc_data_loop (S fuel) svc site_url start_date end_date
                                    dims row_limit all_data start_row calls in
      (forall rows, svc request = Response (Some rows) ->
                    Z.of_nat (List.length rows) < row_limit ->
                    turn = Some (Some (all_data ++ rows), calls ++ [request])) /\
      (svc request = Response None ->
       turn = Some (Some all_data, calls ++ [request])) /\
      (forall rows, svc request = Response (Some rows) ->
                    row_limit <= Z.of_nat (List.length rows) ->
                    turn = get_gsc_data_loop fuel svc site_url start_date
                             end_date dims row_limit (all_data ++ rows)
                             (start_row + row_limit) (calls ++ [request]))) /\
  (forall svc site_url start_date end_date dims p1 p2 p3 fuel,
      let request start_row :=
        mk_request site_url start_date end_date dims
                   (Some 25000) (Some start_row) in
      svc (request 0) = Response (Some p1) ->
      svc (request 25000) = Response (Some p2) ->
      svc (request 50000) = Response (Some p3) ->
      Z.of_nat (List.length p1) = 25000 ->
      Z.of_nat (List.length p2) = 25000 ->
      Z.of_nat (List.length p3) = 1200 ->
      exists calls,
        get_gsc_data (3 + fuel) svc site_url start_date end_date dims
                     default_row_limit
        = Some (Some (p1 ++ p2 ++ p3), calls) /\
        List.length calls = 3%nat /\
        Z.of_nat (List.length (p1 ++ p2 ++ p3)) = 51200).
Proof.
  split; [|split].
  - intros site_url start_date end_date dims P data empty_list fuel HP Hfuel.
    pose proof (get_gsc_data_loop_paged site_url start_date end_date dims
                  P data empty_list HP fuel 0 [] [] ltac:(lia)) as Hloop.
    cbn [Z.of_nat skipn app] in Hloop.
    rewrite Z.sub_0_r in Hloop. specialize (Hloop Hfuel).
    eexists. split; [exact Hloop|]. split.
    + rewrite length_map, length_seq.
      rewrite <- calls_on_paged_source by lia.
      pose proof (Z.div_pos (Z.of_nat (List.length data)) P ltac:(lia) HP).
      lia.
    + rewrite length_map, length_seq, map_map. reflexivity.
  - intros fuel svc site_url start_date end_date dims row_limit
           all_data start_row calls request turn.
    subst turn. rewrite get_gsc_data_loop_step. fold request.
    repeat split.
    + intros rows -> Hlt. apply Z.ltb_lt in Hlt. now rewrite Hlt.
    + now intros ->.
    + intros rows -> Hge. apply Z.ltb_ge in Hge. now rewrite Hge.
  - intros svc site_url start_date end_date dims p1 p2 p3 fuel request
           H1 H2 H3 L1 L2 L3.
    unfold get_gsc_data, default_row_limit.
    change (3 + fuel)%nat with (S (S (S fuel))).
    rewrite get_gsc_data_loop_step. fold (request 0). rewrite H1, L1.
    change (25000 <? 25000) with false. cbv iota.
    rewrite get_gsc_data_loop_step. change (0 + 25000) with 25000.
    fold (request 25000). rewrite H2, L2.
    change (25000 <? 25000) with false. cbv iota.
    rewrite get_gsc_data_loop_step. change (25000 + 25000) with 50000.
    fold (request 50000). rewrite H3, L3.
    change (1200 <? 25000) with true. cbv iota.
    eexists. split; [rewrite <- app_assoc; reflexivity|].
    split; [reflexivity|].
    rewrite !length_app. lia.
Qed.

Lemma get_gsc_data_pages_through_all_rows_witness :
  exists calls,
    get_gsc_data 3 (paged_source 2 sample_rows false)
                 "sc-domain:example.com" "2023-01-01" "2023-12-31"
                 ["date"%string] 2
    = Some (Some sample_rows, calls) /\
    Z.of_nat (List.length calls)
    = (if Z.of_nat (List.length sample_rows) mod 2 =? 0
       then ceil_div (Z.of_nat (List.length sample_rows)) 2 + 1
       else ceil_div (Z.of_nat (List.length sample_rows)) 2) /\
    map startRow calls
    = map (fun k => Some (Z.of_nat k * 2)) (seq 0 (List.length calls)).
Proof.
  apply (proj1 get_gsc_data_pages_through_all_rows).
  - lia.
  - vm_compute. lia.
Defined.

End PagedFetcherClaims.

Section FetchFailure.
Import Api Wrapped WrappedMain.

Variables (svc : service) (site_url start_date end_date : string)
          (dims : list string) (row_limit : Z).




Lemma get_gsc_data_loop_pages fuel :
  forall all_data start_row calls rows calls',
    get_gsc_data_loop fuel svc site_url start_date end_date dims row_limit
                      all_data start_row calls = Some (Some rows, calls') ->
    exists earlier last,
      calls' = calls ++ earlier ++ [last] /\
      rows = all_data
               ++ flat_map (fun r => response_rows (svc r)) (earlier ++ [last]) /\
      Forall (fun r => row_limit
                       <= Z.of_nat (List.length (response_rows (svc r))))
             earlier /\
      (svc last = Response None \/
       Z.of_nat (List.length (response_rows (svc last))) < row_limit).
Proof.
  induction fuel as [|fuel IH]; intros all_data start_row calls rows calls' H;
    [discriminate|].
  rewrite get_gsc_data_loop_step in H.
  set (request := mk_request site_url start_date end_date dims
                             (Some row_limit) (Some start_row)) in *.
  destruct (svc request) as [[page|]|status|] eqn:E; try discriminate.
  - destruct (Z.of_nat (List.length page) <? row_limit) eqn:Elt.
    + inversion H; subst. exists [], request. cbn [app flat_map].
      rewrite E. cbn [response_rows]. rewrite app_nil_r.
      repeat split; [constructor|]. right. now apply Z.ltb_lt.
    + apply IH in H. destruct H as (earlier & last & -> & -> & Hfull & Hlast).
      exists (request :: earlier), last. cbn [app flat_map].
      rewrite E. cbn [response_rows].
      rewrite <- !app_assoc. repeat split; try assumption.
      constructor; [|assumption].
      rewrite E. cbn [response_rows]. now apply Z.ltb_ge.
  - inversion H; subst. exists [], request. cbn [app flat_map].
    rewrite E. cbn [response_rows]. rewrite !app_nil_r.
    repeat split; [constructor|]. now left.
Qed.

End FetchFailure.

Section FetchFailureClaims.
Import Api Wrapped WrappedMain.




End FetchFailureClaims.

Section UniqueCounts.
Import Api Frame QueriesPages.
Open Scope string_scope.

Variables (site_url start_date end_date : string).

Lemma unique_count_cases svc request :
  svc request <> OtherException ->
  exists n, unique_count svc request = Some n /\
            (forall status, svc request = HttpError status -> n = 0) /\
            (svc request = Response None -> n = 0) /\
            (forall rows, svc request = Response (Some rows) ->
                          n = Z.of_nat (List.length rows)).
Proof.
  intros Hne. unfold unique_count.
  destruct (svc request) as [[rows|]|status|]; [| | |congruence];
    eexists; (split; [reflexivity|]); repeat split; intros; congruence.
Qed.

(** C10. When the totals query returns a row, the month's fetch returns
    a row whatever HTTP error the two dimension-limited sub-queries meet;
    a sub-query that failed contributes the count 0, exactly as one that
    matched nothing does, so the two cases give the same row. *)
Theorem failed_unique_count_is_reported_as_zero :
  (forall svc totals_data more,
      svc (totals_request site_url start_date end_date) = Response (Some (totals_data :: more)) ->
      svc (queries_request site_url start_date end_date) <> OtherException ->
      svc (pages_request site_url start_date end_date) <> OtherException ->
      exists unique_queries unique_pages,
        get_monthly_performance_data svc site_url start_date end_date
        = (Data [("clicks", CInt (clicks totals_data));
                 ("impressions", CInt (impressions totals_data));
                 ("ctr", CReal (ctr totals_data));
                 ("position", CReal (position totals_data));
                 ("queries", CInt unique_queries);
                 ("pages", CInt unique_pages)],
           [(totals_request site_url start_date end_date); (queries_request site_url start_date end_date); (pages_request site_url start_date end_date)]) /\
        (forall status, svc (queries_request site_url start_date end_date) = HttpError status ->
                        unique_queries = 0) /\
        (forall status, svc (pages_request site_url start_date end_date) = HttpError status ->
                        unique_pages = 0) /\
        (forall rows, svc (queries_request site_url start_date end_date) = Response (Some rows) ->
                      unique_queries = Z.of_nat (List.length rows)) /\
        (forall rows, svc (pages_request site_url start_date end_date) = Response (Some rows) ->
                      unique_pages = Z.of_nat (List.length rows))) /\
  (forall svc_failing svc_empty totals_data more status_q status_p,
      svc_failing (totals_request site_url start_date end_date) = Response (Some (totals_data :: more)) ->
      svc_empty (totals_request site_url start_date end_date) = Response (Some (totals_data :: more)) ->
      svc_failing (queries_request site_url start_date end_date) = HttpError status_q ->
      svc_failing (pages_request site_url start_date end_date) = HttpError status_p ->
      svc_empty (queries_request site_url start_date end_date) = Response None ->
      svc_empty (pages_request site_url start_date end_date) = Response None ->
      get_monthly_performance_data svc_failing site_url start_date end_date
      = get_monthly_performance_data svc_empty site_url start_date end_date).
Proof.
  split.
  - intros svc totals_data more Ht Hq Hp.
    destruct (unique_count_cases svc (queries_request site_url start_date end_date) Hq)
      as (q & Eq & Hq1 & _ & Hq3).
    destruct (unique_count_cases svc (pages_request site_url start_date end_date) Hp)
      as (p' & Ep & Hp1 & _ & Hp3).
    exists q, p'. unfold get_monthly_performance_data.
    rewrite Ht, Eq, Ep. auto.
  - intros svc_failing svc_empty totals_data more status_q status_p
           Ht1 Ht2 Hq1 Hp1 Hq2 Hp2.
    unfold get_monthly_performance_data, unique_count.
    rewrite Ht1, Ht2, Hq1, Hp1, Hq2, Hp2. reflexivity.
Qed.

End UniqueCounts.

Section UniqueCountsWitness.
Import Api Frame QueriesPages Wrapped.
Open Scope string_scope.

Lemma failed_unique_count_is_reported_as_zero_witness :
  exists unique_queries unique_pages,
    get_monthly_performance_data
      (fun request => match dimensions request with
                      | [] => Response (Some sample_rows)
                      | _ => HttpError 429
                      end)
      "https://www.example.com/" "2024-02-01" "2024-02-29"
    = (Data [("clicks", CInt 1); ("impressions", CInt 0);
             ("ctr", CReal 0); ("position", CReal 0);
             ("queries", CInt unique_queries);
             ("pages", CInt unique_pages)],
       [mk_request "https://www.example.com/" "2024-02-01" "2024-02-29"
                   [] None None;
        mk_request "https://www.example.com/" "2024-02-01" "2024-02-29"
                   ["query"] (Some 5000) None;
        mk_request "https://www.example.com/" "2024-02-01" "2024-02-29"
                   ["page"] (Some 5000) None]) /\
    unique_queries = 0 /\ unique_pages = 0.
Proof.
  destruct (proj1 (failed_unique_count_is_reported_as_zero
                     "https://www.example.com/" "2024-02-01" "2024-02-29")
                  (fun request => match dimensions request with
                                  | [] => Response (Some sample_rows)
                                  | _ => HttpError 429
                                  end)
                  (mk_row [] 1 0 0 0) (tl sample_rows)
                  eq_refl ltac:(discriminate) ltac:(discriminate))
    as (q & p' & Hdata & Hq & Hp & _).
  exists q, p'. split; [exact Hdata|].
  split; [apply (Hq 429) | apply (Hp 429)]; reflexivity.
Defined.

End UniqueCountsWitness.

Section SortKey.
Import PyStr QueriesPages.
Open Scope string_scope.
Open Scope Z_scope.

Lemma py_index_from_end {A : Type} (pre : list A) (a b c : A) :
  py_index (pre ++ [a; b; c]) (-3) = Some a /\
  py_index (pre ++ [a; b; c]) (-2) = Some b.
Proof.
  unfold py_index. rewrite length_app. cbn [List.length].
  change (-3 <? 0)%Z with true. change (-2 <? 0)%Z with true. cbv iota.
  split.
  - replace (-3 + Z.of_nat (List.length pre + 3))%Z
      with (Z.of_nat (List.length pre)) by lia.
    rewrite Nat2Z.id.
    assert (H : ((0 <=? Z.of_nat (List.length pre))
                 && (Z.of_nat (List.length pre)
                     <? Z.of_nat (List.length pre + 3)))%Z = true)
      by (apply andb_true_iff; split; [apply Z.leb_le | apply Z.ltb_lt]; lia).
    rewrite H, nth_error_app2, Nat.sub_diag by lia. reflexivity.
  - replace (-2 + Z.of_nat (List.length pre + 3))%Z
      with (Z.of_nat (S (List.length pre))) by lia.
    rewrite Nat2Z.id.
    assert (H : ((0 <=? Z.of_nat (S (List.length pre)))
                 && (Z.of_nat (S (List.length pre))
                     <? Z.of_nat (List.length pre + 3)))%Z = true)
      by (apply andb_true_iff; split; [apply Z.leb_le | apply Z.ltb_lt]; lia).
    rewrite H, nth_error_app2 by lia.
    replace (S (List.length pre) - List.length pre)%nat with 1%nat by lia.
    reflexivity.
Qed.

Lemma skipn_app_exact {A : Type} (pre suf : list A) :
  skipn (List.length pre) (pre ++ suf) = suf.
Proof. induction pre; [reflexivity | assumption]. Qed.

Lemma py_slice_from_end {A : Type} (pre : list A) (a b c : A) :
  py_slice_from (pre ++ [a; b; c]) (-3) = [a; b; c] /\
  py_slice_from (pre ++ [a; b; c]) (-2) = [b; c].
Proof.
  unfold py_slice_from. rewrite length_app. cbn [List.length].
  change (-3 <? 0)%Z with true. change (-2 <? 0)%Z with true. cbv iota.
  split.
  - replace (Z.to_nat (Z.max 0 (-3 + Z.of_nat (List.length pre + 3))))
      with (List.length pre) by lia.
    apply skipn_app_exact.
  - replace (Z.to_nat (Z.max 0 (-2 + Z.of_nat (List.length pre + 3))))
      with (List.length (pre ++ [a]))
      by (rewrite length_app; cbn [List.length]; lia).
    change (pre ++ [a; b; c])%list with (pre ++ [a] ++ [b; c])%list.
    rewrite app_assoc. apply skipn_app_exact.
Qed.

Lemma split_cons sep s : exists w ws, split sep s = w :: ws.
Proof.
  induction s as [|ch s IH]; cbn [split]; [now eexists; eexists|].
  destruct (Ascii.eqb ch sep); [now eexists; eexists|].
  destruct IH as (w & ws & ->). now eexists; eexists.
Qed.

(** C5, as the code has it.  A [sc-domain:] identifier gets class 0 and
    as root the identifier without the marker.  For a URL-prefix
    identifier made of printable ASCII characters without blanks or
    square brackets, with host [netloc]: class 1 and no subdomain when
    the host begins with [www.], otherwise class 2 with the first host
    label as subdomain; the root is the last three labels when there are
    more than two labels, the second-to-last is one of co, com, org, net,
    gov, edu and the third-from-last is longer than two characters;
    otherwise the last two labels when there are more than two; otherwise
    the host itself.  The three identifiers of example.co.uk get the keys
    the specification lists. *)
Theorem get_sort_key_characterised :
  (forall site_url,
      startswith site_url "sc-domain:" = true ->
      get_sort_key site_url = (replace site_url "sc-domain:" "", 0, "")) /\
  (forall site_url,
      plain site_url = true ->
      startswith site_url "sc-domain:" = false ->
      let netloc := urlparse_netloc site_url in
      let labels := split "." netloc in
      let key := get_sort_key site_url in
      (startswith netloc "www." = true ->
       snd (fst key) = 1 /\ snd key = "") /\
      (startswith netloc "www." = false ->
       snd (fst key) = 2 /\ hd_error labels = Some (snd key)) /\
      (forall pre a b c,
          labels = (pre ++ [a; b; c])%list ->
          str_in b second_level_labels = true ->
          (2 < py_len a)%nat ->
          fst (fst key) = join "." [a; b; c]) /\
      (forall pre a b c,
          labels = (pre ++ [a; b; c])%list ->
          str_in b second_level_labels = false \/ (py_len a <= 2)%nat ->
          fst (fst key) = join "." [b; c]) /\
      ((List.length labels <= 2)%nat -> fst (fst key) = netloc)) /\
  get_sort_key "sc-domain:example.co.uk" = ("example.co.uk", 0, "") /\
  get_sort_key "https://www.example.co.uk/" = ("example.co.uk", 1, "") /\
  get_sort_key "https://blog.example.co.uk/" = ("example.co.uk", 2, "blog").
Proof.
  split; [|split; [|repeat split]].
  - intros site_url Hsc. unfold get_sort_key. now rewrite Hsc.
  - intros site_url _ Hsc netloc labels key.
    assert (Hkey : key =
      let root_domain :=
        if (2 <? Z.of_nat (List.length labels))
           && match py_index labels (-2) with
              | Some p => str_in p second_level_labels
              | None => false
              end
           && match py_index labels (-3) with
              | Some p => (2 <? Z.of_nat (py_len p))
              | None => false
              end
        then join "." (py_slice_from labels (-3))
        else if 2 <? Z.of_nat (List.length labels)
             then join "." (py_slice_from labels (-2))
             else netloc in
      if startswith netloc "www." then (root_domain, 1, "")
      else (root_domain, 2, match py_index labels 0 with
                            | Some p => p
                            | None => ""
                            end)).
    { subst key. unfold get_sort_key. rewrite Hsc. reflexivity. }
    cbv zeta in Hkey.
    assert (Hroot : forall pre a b c,
               labels = (pre ++ [a; b; c])%list ->
               (2 <? Z.of_nat (List.length labels)) = true /\
               py_index labels (-2) = Some b /\
               py_index labels (-3) = Some a /\
               py_slice_from labels (-3) = [a; b; c] /\
               py_slice_from labels (-2) = [b; c]).
    { intros pre a b c ->.
      destruct (py_index_from_end pre a b c) as [H3 H2].
      destruct (py_slice_from_end pre a b c) as [S3 S2].
      repeat split; try assumption.
      apply Z.ltb_lt. rewrite length_app. cbn [List.length]. lia. }
    split; [|split; [|split; [|split]]].
    + intros Hwww. rewrite Hkey, Hwww. split; reflexivity.
    + intros Hwww. rewrite Hkey, Hwww. cbn [fst snd].
      split; [reflexivity|].
      destruct (split_cons "." netloc) as (w & ws & Hsplit).
      fold labels in Hsplit. rewrite Hsplit. reflexivity.
    + intros pre a b c Hl Hb Ha.
      destruct (Hroot pre a b c Hl) as (Hn & H2 & H3 & S3 & _).
      rewrite Hkey, Hn, H2, H3, S3, Hb.
      assert (Hlen : (2 <? Z.of_nat (py_len a)) = true)
        by (apply Z.ltb_lt; lia).
      rewrite Hlen. cbn [andb].
      destruct (startswith netloc "www."); reflexivity.
    + intros pre a b c Hl Hcase.
      destruct (Hroot pre a b c Hl) as (Hn & H2 & H3 & _ & S2).
      rewrite Hkey, Hn, H2, H3, S2.
      assert (Hguard : str_in b second_level_labels
                       && (2 <? Z.of_nat (py_len a)) = false).
      { destruct Hcase as [Hb|Ha]; [now rewrite Hb|].
        apply andb_false_iff. right. apply Z.ltb_ge. lia. }
      cbn [andb]. rewrite Hguard.
      destruct (startswith netloc "www."); reflexivity.
    + intros Hshort.
      assert (Hn : (2 <? Z.of_nat (List.length labels)) = false)
        by (apply Z.ltb_ge; lia).
      rewrite Hkey, Hn. cbn [andb].
      destruct (startswith netloc "www."); reflexivity.
Qed.

Lemma get_sort_key_characterised_witness :
  fst (fst (get_sort_key "https://shop.example.org.uk/"))
  = join "." ["example"; "org"; "uk"].
Proof.
  apply (proj1 (proj2 (proj2
           (proj1 (proj2 get_sort_key_characterised)
                  "https://shop.example.org.uk/" eq_refl eq_refl)))
         ["shop"] "example" "org" "uk").
  - reflexivity.
  - reflexivity.
  - simpl. lia.
Defined.

(** C5 as stated fails on a host whose third-from-last label is short:
    [ab.co.uk] has the known label [co] second-to-last, yet its root is
    [co.uk], not the last three labels. *)
Lemma get_sort_key_short_label_counterexample :
  split "." (urlparse_netloc "https://ab.co.uk/") = ["ab"; "co"; "uk"] /\
  spec_root_domain ["ab"; "co"; "uk"] = "ab.co.uk" /\
  get_sort_key "https://ab.co.uk/" = ("co.uk", 2, "ab") /\
  fst (fst (get_sort_key "https://ab.co.uk/"))
  <> spec_root_domain (split "." (urlparse_netloc "https://ab.co.uk/")).
Proof. repeat split; [vm_compute; discriminate]. Qed.

End SortKey.

Section StringOrder.
Import Wrapped.

Lemma compare_as_OT a b : String.compare a b = String_as_OT.compare a b.
Proof.
  revert b. induction a as [|c a IH]; destruct b as [|d b]; reflexivity.
Qed.

Lemma str_lt_trans a b c : str_lt a b -> str_lt b c -> str_lt a c.
Proof.
  unfold str_lt. rewrite !compare_as_OT.
  apply (@StrictOrder_Transitive _ _ String_as_OT.lt_strorder).
Qed.

Lemma str_lt_irrefl a : ~ str_lt a a.
Proof.
  unfold str_lt. rewrite compare_as_OT.
  apply (@StrictOrder_Irreflexive _ _ String_as_OT.lt_strorder).
Qed.

Lemma compare_gt_lt a b : String.compare a b = Gt -> str_lt b a.
Proof.
  unfold str_lt. intros H. rewrite String.compare_antisym, H. reflexivity.
Qed.

Lemma str_lt_leb a b : str_lt a b -> String.leb a b = true.
Proof. unfold str_lt, String.leb. now intros ->. Qed.

Lemma leb_refl a : String.leb a a = true.
Proof.
  unfold String.leb. destruct (String.compare a a) eqn:E; try reflexivity.
  exfalso. apply (str_lt_irrefl a). now apply compare_gt_lt.
Qed.

End StringOrder.

Section Int64.
Import Wrapped.

Lemma wrap64_range z : - 2 ^ 63 <= wrap64 z < 2 ^ 63.
Proof.
  unfold wrap64.
  pose proof (Z.mod_pos_bound (z + 2 ^ 63) (2 ^ 64) eq_refl) as H.
  change (2 ^ 64) with (2 * 2 ^ 63) in *. lia.
Qed.

Lemma wrap64_small z : - 2 ^ 63 <= z < 2 ^ 63 -> wrap64 z = z.
Proof.
  intros H. unfold wrap64. rewrite Z.mod_small; [lia|].
  change (2 ^ 64) with (2 * 2 ^ 63). lia.
Qed.

Lemma wrap64_add_l a b : wrap64 (wrap64 a + b) = wrap64 (a + b).
Proof.
  unfold wrap64.
  replace ((a + 2 ^ 63) mod 2 ^ 64 - 2 ^ 63 + b + 2 ^ 63)
    with ((a + 2 ^ 63) mod 2 ^ 64 + b) by lia.
  rewrite Zplus_mod_idemp_l. do 2 f_equal. lia.
Qed.

Lemma wrap64_add_r a b : wrap64 (a + wrap64 b) = wrap64 (a + b).
Proof. rewrite (Z.add_comm a), wrap64_add_l. f_equal. lia. Qed.

Lemma wrap64_abs z : Z.abs (wrap64 z) <= Z.abs z.
Proof.
  pose proof (wrap64_range z) as Hr.
  destruct (Z_lt_dec z (- 2 ^ 63)) as [Hlo|Hlo]; [lia|].
  destruct (Z_lt_dec z (2 ^ 63)) as [Hhi|Hhi]; [|lia].
  rewrite wrap64_small; lia.
Qed.

Lemma fold_add_int64 l :
  forall a, fold_left add_int64 l (wrap64 a)
            = wrap64 (a + fold_right Z.add 0 l).
Proof.
  induction l as [|x l IH]; intros a; cbn [fold_left fold_right].
  - now rewrite Z.add_0_r.
  - unfold add_int64 at 2. rewrite wrap64_add_l, IH. f_equal. lia.
Qed.

Lemma sum_int64_wrap l : sum_int64 l = wrap64 (fold_right Z.add 0 l).
Proof. unfold sum_int64. exact (fold_add_int64 l 0). Qed.

End Int64.

Section GroupBy.
Import Wrapped.

Variable key : raw_row -> string.

Lemma group_value_absent k groups :
  ~ In k (map fst groups) -> group_value k groups = 0.
Proof.
  induction groups as [|[k' v'] tl IH]; cbn [group_value map fst In];
    intros Hn; [reflexivity|].
  destruct (String.eqb_spec k k') as [->|Hne]; [exfalso; apply Hn; now left|].
  apply IH. intros H. apply Hn. now right.
Qed.

Lemma add_to_group_value k k0 v groups :
  StronglySorted str_lt (map fst groups) ->
  group_value k (add_to_group k0 v groups)
  = if String.eqb k k0 then add_int64 (group_value k groups) v
    else group_value k groups.
Proof.
  induction groups as [|[k' v'] tl IH]; cbn [add_to_group group_value map fst];
    intros Hs.
  - reflexivity.
  - apply StronglySorted_inv in Hs. destruct Hs as [Hs Hall].
    destruct (String.compare k0 k') eqn:E; cbn [group_value].
    + apply String.compare_eq_iff in E. subst k'.
      destruct (String.eqb k k0); reflexivity.
    + destruct (String.eqb_spec k k0) as [->|Hne]; [|reflexivity].
      destruct (String.eqb_spec k0 k') as [->|Hne'].
      * exfalso. now apply (str_lt_irrefl k').
      * rewrite group_value_absent; [reflexivity|].
        intros Hin. rewrite Forall_forall in Hall.
        apply (str_lt_irrefl k0).
        eapply str_lt_trans; [exact E | now apply Hall].
    + rewrite (IH Hs).
      destruct (String.eqb_spec k k') as [->|Hne]; [|reflexivity].
      destruct (String.eqb_spec k' k0) as [->|Hne']; [|reflexivity].
      exfalso. apply (str_lt_irrefl k0). now apply compare_gt_lt.
Qed.

Lemma add_to_group_keys k k0 v groups :
  In k (map fst (add_to_group k0 v groups))
  <-> k = k0 \/ In k (map fst groups).
Proof.
  induction groups as [|[k' v'] tl IH]; cbn [add_to_group map fst In].
  - intuition.
  - destruct (String.compare k0 k') eqn:E; cbn [map fst In].
    + apply String.compare_eq_iff in E. subst k'. intuition.
    + intuition.
    + rewrite IH. intuition.
Qed.

Lemma add_to_group_sorted k0 v groups :
  StronglySorted str_lt (map fst groups) ->
  StronglySorted str_lt (map fst (add_to_group k0 v groups)).
Proof.
  induction groups as [|[k' v'] tl IH]; cbn [add_to_group map fst]; intros Hs.
  - repeat constructor.
  - apply StronglySorted_inv in Hs. destruct Hs as [Hs Hall].
    destruct (String.compare k0 k') eqn:E; cbn [map fst].
    + constructor; assumption.
    + constructor; [constructor; assumption|].
      constructor; [exact E|].
      eapply Forall_impl; [|exact Hall].
      intros a Ha. eapply str_lt_trans; [exact E | exact Ha].
    + constructor; [apply IH; assumption|].
      apply Forall_forall. intros a Ha.
      apply add_to_group_keys in Ha. destruct Ha as [->|Ha].
      * now apply compare_gt_lt.
      * rewrite Forall_forall in Hall. now apply Hall.
Qed.

Lemma groupby_sum_snoc rows r :
  groupby_sum key (rows ++ [r])
  = add_to_group (key r) (r_clicks r) (groupby_sum key rows).
Proof. unfold groupby_sum. now rewrite fold_left_app. Qed.

Lemma total_for_snoc k rows r :
  total_for key k (rows ++ [r])
  = total_for key k rows + (if String.eqb k (key r) then r_clicks r else 0).
Proof.
  unfold total_for. rewrite filter_app, map_app, fold_right_app.
  cbn [filter]. rewrite (String.eqb_sym k (key r)).
  destruct (String.eqb (key r) k); cbn [map fold_right].
  - generalize (map r_clicks (filter (fun r0 => String.eqb (key r0) k) rows)).
    intros l. induction l as [|x l IH]; cbn [fold_right]; lia.
  - lia.
Qed.

(** The grouped series: keys in ascending order, exactly the keys met
    in the rows, each with the [int64] sum of its rows. *)
Lemma groupby_sum_spec rows :
  StronglySorted str_lt (map fst (groupby_sum key rows)) /\
  (forall k, In k (map fst (groupby_sum key rows)) <-> In k (map key rows)) /\
  (forall k, group_value k (groupby_sum key rows)
             = wrap64 (total_for key k rows)).
Proof.
  induction rows as [|r rows IH] using rev_ind.
  - repeat split; try constructor; tauto.
  - destruct IH as (Hs & Hk & Hv). rewrite groupby_sum_snoc.
    split; [now apply add_to_group_sorted|]. split.
    + intros k. rewrite add_to_group_keys, Hk, map_app, in_app_iff.
      cbn [map In]. intuition.
    + intros k. rewrite (add_to_group_value _ _ _ _ Hs), Hv, total_for_snoc.
      destruct (String.eqb k (key r)).
      * unfold add_int64. apply wrap64_add_l.
      * now rewrite Z.add_0_r.
Qed.

Lemma sorted_group_value k c groups :
  StronglySorted str_lt (map fst groups) ->
  In (k, c) groups -> group_value k groups = c.
Proof.
  induction groups as [|[k' v'] tl IH]; cbn [map fst In group_value];
    intros Hs Hin; [contradiction|].
  apply StronglySorted_inv in Hs. destruct Hs as [Hs Hall].
  rewrite Forall_forall in Hall.
  destruct Hin as [Heq|Hin].
  - inversion Heq; subst. now rewrite String.eqb_refl.
  - destruct (String.eqb_spec k k') as [->|Hne]; [|now apply IH].
    exfalso. apply (str_lt_irrefl k'). apply Hall.
    apply in_map_iff. now exists (k', c).
Qed.

Lemma nlargest1_nonempty x tl : exists top, nlargest1 (x :: tl) = Some top.
Proof.
  cbn [nlargest1]. destruct (nlargest1 tl) as [b|]; [|now eexists].
  destruct (snd x <? snd b); now eexists.
Qed.

(** The winner of [nlargest(1)] splits the series: strictly smaller
    values before it, none larger after it. *)
Lemma nlargest1_split series top :
  nlargest1 series = Some top ->
  exists before after,
    series = before ++ top :: after /\
    Forall (fun x => snd x < snd top) before /\
    Forall (fun x => snd x <= snd top) after.
Proof.
  revert top. induction series as [|x tl IH]; intros top H; [discriminate|].
  cbn [nlargest1] in H. destruct (nlargest1 tl) as [b|] eqn:Eb.
  - destruct (IH b eq_refl) as (before & after & Htl & Hb & Ha).
    destruct (snd x <? snd b) eqn:E; inversion H; subst top.
    + apply Z.ltb_lt in E. exists (x :: before), after.
      split; [now rewrite Htl|]. split; [now constructor | assumption].
    + apply Z.ltb_ge in E. exists [], tl.
      split; [reflexivity|]. split; [constructor|].
      rewrite Htl. apply Forall_app. split.
      * eapply Forall_impl; [|exact Hb]. cbn beta. intros; lia.
      * constructor; [lia|].
        eapply Forall_impl; [|exact Ha]. cbn beta. intros; lia.
  - inversion H; subst top. destruct tl as [|y tl].
    + exists [], []. repeat split; constructor.
    + destruct (nlargest1_nonempty y tl) as [t Ht]. congruence.
Qed.

(** No sum over some of the rows exceeds, in absolute value, the
    magnitude of the rows. *)
Lemma total_for_magnitude k rows :
  Z.abs (total_for key k rows) <= magnitude rows.
Proof.
  unfold total_for, magnitude.
  induction rows as [|r rows IH]; cbn [filter map fold_right]; [lia|].
  destruct (String.eqb (key r) k); cbn [map fold_right]; lia.
Qed.

Lemma magnitude_nonneg (rows : list raw_row) : 0 <= magnitude rows.
Proof.
  unfold magnitude.
  induction rows as [|r rows IH]; cbn [map fold_right]; lia.
Qed.

(** Below [2^63] of magnitude the [int64] sum of a group is its total. *)
Lemma total_for_exact k rows :
  magnitude rows < 2 ^ 63 ->
  wrap64 (total_for key k rows) = total_for key k rows.
Proof.
  intros Hm. apply wrap64_small.
  pose proof (total_for_magnitude k rows). lia.
Qed.

End GroupBy.

Section TopByClicks.
Import Wrapped.

Lemma sorted_after {A : Type} (R : A -> A -> Prop) before a after :
  StronglySorted R (before ++ a :: after) -> Forall (R a) after.
Proof.
  induction before as [|b before IH]; cbn [app]; intros H;
    apply StronglySorted_inv in H; destruct H as [Hs Hall]; auto.
Qed.

(** The top key of a non-empty working set, in terms of the [int64] sums
    of the groups. *)
Lemma top_by_greatest_sum key rows k c :
  rows <> [] ->
  top_by key rows = (k, c) ->
  In k (map key rows) /\
  c = wrap64 (total_for key k rows) /\
  forall r, In r rows ->
            wrap64 (total_for key (key r) rows) <= c /\
            (wrap64 (total_for key (key r) rows) = c ->
             String.leb k (key r) = true).
Proof.
  intros Hne Htop.
  destruct (groupby_sum_spec key rows) as (Hs & Hk & Hv).
  unfold top_by in Htop.
  destruct (groupby_sum key rows) as [|g0 groups] eqn:Eg.
  { destruct rows as [|r rows]; [congruence|].
    exfalso. apply (proj2 (Hk (key r))). now left. }
  destruct (nlargest1_nonempty g0 groups) as [top Etop].
  rewrite Etop in Htop. subst top.
  destruct (nlargest1_split _ _ Etop) as (before & after & Hsplit & Hb & Ha).
  cbn [snd] in Hb, Ha.
  assert (Hin : In (k, c) (g0 :: groups))
    by (rewrite Hsplit; apply in_elt).
  assert (Hc : c = wrap64 (total_for key k rows)).
  { rewrite <- Hv. symmetry. now apply sorted_group_value. }
  split; [apply Hk, in_map_iff; now exists (k, c)|].
  split; [exact Hc|].
  intros r Hr.
  assert (Hkey : In (key r) (map fst (g0 :: groups)))
    by (apply Hk, in_map; exact Hr).
  apply in_map_iff in Hkey. destruct Hkey as ([k' c'] & Hfst & Hin').
  cbn [fst] in Hfst. subst k'.
  assert (Hc' : c' = wrap64 (total_for key (key r) rows)).
  { rewrite <- Hv. symmetry. now apply sorted_group_value. }
  rewrite <- Hc'.
  rewrite Hsplit in Hin'. apply in_app_or in Hin'.
  rewrite Forall_forall in Hb, Ha.
  destruct Hin' as [Hin'|[Heq|Hin']].
  - specialize (Hb _ Hin'). cbn [snd] in Hb. split; lia.
  - inversion Heq; subst. split; [lia|]. intros _. apply leb_refl.
  - specialize (Ha _ Hin'). cbn [snd] in Ha. split; [lia|]. intros _.
    apply str_lt_leb.
    rewrite Hsplit, map_app in Hs. cbn [map fst] in Hs.
    apply sorted_after in Hs. rewrite Forall_forall in Hs.
    apply Hs, in_map_iff. now exists (key r, c').
Qed.

(** C6, as the code has it.  The clicks are held in an [int64] column.
    As long as the absolute click counts of the rows add up to less than
    [2^63], so that no sum wraps, the top page (or query) returned for a
    non-empty working set is a key of the rows whose total clicks are the
    greatest; when several keys tie on that total, the one that comes
    first in the ascending order of the keys wins, because the totals are
    taken from a group-by that sorts its keys.  Whatever the [int64]
    counts are, the same holds of the wrapped sums the code compares.  On
    the rows /a:10, /b:30, /c:30 the top page is /b. *)
Theorem top_by_clicks_first_in_key_order :
  (forall key rows k c,
      rows <> [] ->
      magnitude rows < 2 ^ 63 ->
      top_by key rows = (k, c) ->
      In k (map key rows) /\
      c = total_for key k rows /\
      forall r, In r rows ->
                total_for key (key r) rows <= c /\
                (total_for key (key r) rows = c ->
                 String.leb k (key r) = true)) /\
  (forall key rows k c,
      rows <> [] ->
      Forall (fun r => - 2 ^ 63 <= r_clicks r < 2 ^ 63) rows ->
      top_by key rows = (k, c) ->
      In k (map key rows) /\
      c = wrap64 (total_for key k rows) /\
      forall r, In r rows ->
                wrap64 (total_for key (key r) rows) <= c /\
                (wrap64 (total_for key (key r) rows) = c ->
                 String.leb k (key r) = true)) /\
  top_page scenario_rows = "/b"%string /\
  top_by r_page scenario_rows = ("/b"%string, 30).
Proof.
  split; [|split; [|split; reflexivity]].
  - intros key rows k c Hne Hm Htop.
    destruct (top_by_greatest_sum key rows k c Hne Htop) as (Hk & Hc & Hmax).
    rewrite (total_for_exact key k rows Hm) in Hc.
    split; [assumption|]. split; [assumption|].
    intros r Hr. specialize (Hmax r Hr).
    now rewrite (total_for_exact key (key r) rows Hm) in Hmax.
  - intros key rows k c Hne _ Htop.
    now apply top_by_greatest_sum.
Qed.

Lemma top_by_clicks_first_in_key_order_witness :
  In "/b"%string (map r_page tie_rows) /\
  30 = total_for r_page "/b" tie_rows /\
  forall r, In r tie_rows ->
            total_for r_page (r_page r) tie_rows <= 30 /\
            (total_for r_page (r_page r) tie_rows = 30 ->
             String.leb "/b" (r_page r) = true).
Proof.
  apply (proj1 top_by_clicks_first_in_key_order r_page tie_rows).
  - discriminate.
  - reflexivity.
  - reflexivity.
Defined.

(** C6 as stated fails when the tied keys are not met in ascending
    order: /c comes first in the rows, /b ties with it, and /b is the top
    page. *)
Lemma top_page_tie_counterexample :
  total_for r_page "/c" tie_rows = total_for r_page "/b" tie_rows /\
  fst (spec_top_first_encountered r_page tie_rows) = "/c"%string /\
  top_page tie_rows = "/b"%string /\
  top_page tie_rows <> fst (spec_top_first_encountered r_page tie_rows).
Proof. repeat split. vm_compute. discriminate. Qed.

End TopByClicks.

Section DateRendering.
Import PyDate Windows.

Lemma digit_inj a b : digit a = digit b -> a mod 10 = b mod 10.
Proof.
  unfold digit. intros H.
  pose proof (Z.mod_pos_bound a 10 ltac:(lia)).
  pose proof (Z.mod_pos_bound b 10 ltac:(lia)).
  apply (f_equal nat_of_ascii) in H.
  rewrite !nat_ascii_embedding in H by lia. lia.
Qed.

Lemma two_digits a b :
  0 <= a < 100 -> 0 <= b < 100 ->
  (a / 10) mod 10 = (b / 10) mod 10 -> a mod 10 = b mod 10 -> a = b.
Proof. intros. Z.div_mod_to_equations. lia. Qed.

Lemma four_digits a b :
  0 <= a < 10000 -> 0 <= b < 10000 ->
  (a / 1000) mod 10 = (b / 1000) mod 10 ->
  (a / 100) mod 10 = (b / 100) mod 10 ->
  (a / 10) mod 10 = (b / 10) mod 10 -> a mod 10 = b mod 10 -> a = b.
Proof. intros. Z.div_mod_to_equations. lia. Qed.

(** Distinct months have distinct ['%Y-%m'] labels, and distinct days
    distinct ['%Y-%m-%d'] renderings. *)
Lemma strftime_ym_inj d1 d2 :
  valid_date d1 -> valid_date d2 ->
  strftime_ym d1 = strftime_ym d2 ->
  year d1 = year d2 /\ month d1 = month d2.
Proof.
  intros H1 H2 H. apply valid_date_iff in H1, H2.
  unfold MINYEAR, MAXYEAR in *.
  unfold strftime_ym, pad4, pad2 in H. cbn [String.append] in H.
  inversion H as [[Ha Hb Hc Hd He Hf]]. clear H.
  apply digit_inj in Ha, Hb, Hc, Hd, He, Hf.
  split; [apply four_digits | apply two_digits]; lia.
Qed.

Lemma strftime_ymd_inj d1 d2 :
  valid_date d1 -> valid_date d2 ->
  strftime_ymd d1 = strftime_ymd d2 -> d1 = d2.
Proof.
  intros H1 H2 H. pose proof H1 as V1. pose proof H2 as V2.
  apply valid_date_iff in H1, H2.
  unfold MINYEAR, MAXYEAR in *.
  pose proof (days_in_month_bounds (year d1) (month d1)).
  pose proof (days_in_month_bounds (year d2) (month d2)).
  unfold strftime_ymd, pad4, pad2 in H. cbn [String.append] in H.
  inversion H as [[Ha Hb Hc Hd He Hf Hg Hh]]. clear H.
  apply digit_inj in Ha, Hb, Hc, Hd, He, Hf, Hg, Hh.
  destruct d1 as [y1 m1 dd1], d2 as [y2 m2 dd2]. cbn [year month day] in *.
  f_equal; [apply four_digits | apply two_digits | apply two_digits]; lia.
Qed.

End DateRendering.

Section AccountWideRun.
Import PyDate Windows Api Frame Run AccountWide.

Variables (svc : service) (today : date).

Lemma aw_window_loop_flat site_url indices :
  (forall i, In i indices -> monthly_window today i <> None) ->
  forall st,
    window_loop svc today site_url indices st
    = Finished
        (mk_state
           (all_data st ++ flat_map (window_records svc today site_url) indices)
           (calls st
              ++ flat_map (fun i => snd (window_fetch svc today site_url i))
                          indices)).
Proof.
  induction indices as [|i rest IH]; intros Hw st.
  - cbn [window_loop flat_map]. rewrite !app_nil_r. now destruct st.
  - cbn [window_loop flat_map].
    unfold window_records at 1, window_fetch at 1 2.
    destruct (monthly_window today i) as [[s e]|] eqn:Ew;
      [|exfalso; apply (Hw i); [now left | assumption]].
    destruct (get_monthly_performance_data svc site_url (strftime_ymd s)
                                           (strftime_ymd e))
      as [data reqs] eqn:Ef.
    cbn [fst snd].
    destruct data as [row|];
      (rewrite IH by (intros j Hj; apply Hw; now right));
      unfold append, log; cbn [all_data calls];
      rewrite <- ?app_assoc; reflexivity.
Qed.

Lemma aw_site_loop_flat sites :
  (forall i, In i window_indices -> monthly_window today i <> None) ->
  forall st,
    site_loop svc today sites st
    = Finished
        (mk_state
           (all_data st
              ++ flat_map (fun site_url =>
                             flat_map (window_records svc today site_url)
                                      window_indices) sites)
           (calls st
              ++ flat_map (fun site_url =>
                             flat_map (fun i =>
                                         snd (window_fetch svc today site_url i))
                                      window_indices) sites)).
Proof.
  intros Hw. induction sites as [|site_url rest IH]; intros st.
  - cbn [site_loop flat_map]. rewrite !app_nil_r. now destruct st.
  - cbn [site_loop flat_map]. rewrite aw_window_loop_flat by assumption.
    rewrite IH. cbn [all_data calls]. rewrite <- !app_assoc. reflexivity.
Qed.

End AccountWideRun.

Section QueriesPagesRun.
Import PyDate Windows Api Frame Run QueriesPages.

Variables (svc : service) (today : date).

(** The loop of one site adds exactly what its reached windows fetch. *)
Lemma qp_window_loop_state site_url indices :
  forall st,
    state_of (window_loop svc today site_url indices st)
    = mk_state
        (all_data st
           ++ flat_map (window_records svc today site_url)
                       (processed_windows svc today site_url indices))
        (calls st
           ++ flat_map (fun i => snd (window_fetch svc today site_url i))
                       (processed_windows svc today site_url indices)).
Proof.
  induction indices as [|i rest IH]; intros st.
  - cbn [window_loop processed_windows flat_map state_of].
    rewrite !app_nil_r. now destruct st.
  - cbn [window_loop processed_windows].
    assert (Hwf : window_fetch svc today site_url i
                  = match monthly_window today i with
                    | Some (s, e) =>
                        get_monthly_performance_data
                          svc site_url (strftime_ymd s) (strftime_ymd e)
                    | None => (Uncaught, [])
                    end) by reflexivity.
    assert (Hwr : window_records svc today site_url i
                  = match monthly_window today i,
                          fst (window_fetch svc today site_url i) with
                    | Some (s, _), Data d =>
                        [("site_url"%string, CStr site_url)
                         :: ("month"%string, CStr (strftime_ym s)) :: d]
                    | _, _ => []
                    end) by reflexivity.
    destruct (monthly_window today i) as [[s e]|] eqn:Ew.
    + destruct (get_monthly_performance_data svc site_url (strftime_ymd s)
                                             (strftime_ymd e))
        as [data reqs] eqn:Ef.
      rewrite Hwf in Hwr |- *. cbn [fst] in Hwr |- *.
      destruct data as [d| | |]; cbn [flat_map state_of];
        rewrite ?IH, Hwr, Hwf; unfold append, log;
        cbn [all_data calls snd]; rewrite ?app_nil_r, <- ?app_assoc;
        reflexivity.
    + rewrite Hwf. cbn [fst flat_map state_of].
      rewrite Hwr, Hwf. cbn [snd]. rewrite !app_nil_r. now destruct st.
Qed.

(** The loop of one site ends normally unless a reached window is left
    by an exception. *)
Lemma qp_window_loop_finishes site_url indices :
  (forall i, In i (processed_windows svc today site_url indices) ->
             fst (window_fetch svc today site_url i) <> Uncaught) ->
  forall st, exists st', window_loop svc today site_url indices st = Finished st'.
Proof.
  induction indices as [|i rest IH]; intros Hok st.
  - now eexists.
  - cbn [window_loop]. cbn [processed_windows] in Hok.
    pose proof (Hok i) as Hi. unfold window_fetch in Hi, Hok.
    destruct (monthly_window today i) as [[s e]|] eqn:Ew;
      [|exfalso; apply Hi; [now left | reflexivity]].
    destruct (get_monthly_performance_data svc site_url (strftime_ymd s)
                                           (strftime_ymd e))
      as [data reqs] eqn:Ef.
    cbn [fst] in Hi, Hok.
    destruct data as [d| | |].
    + apply IH. intros j Hj. apply Hok. now right.
    + now eexists.
    + apply IH. intros j Hj. apply Hok. now right.
    + exfalso. apply Hi; [now left | reflexivity].
Qed.

End QueriesPagesRun.

Section OutputArtifacts.
Import Output.

(** C9, as the code has it.  In [generate_gsc_wrapped.py] each write has
    its own handler: whether the CSV is produced depends on the CSV write
    alone, and whether the HTML is produced on the HTML write alone.  In
    [queries-pages-analysis.py] the CSV is produced whenever its own
    write succeeds, whatever happens to the HTML afterwards; on a fresh
    fetch the HTML is produced exactly when both writes succeed, and with
    a cache hit exactly when the HTML write succeeds. *)
Theorem artifacts_produced_by_each_script :
  (forall fs fs',
      write_csv fs = write_csv fs' ->
      csv_written (Wrapped.output_stage fs)
      = csv_written (Wrapped.output_stage fs')) /\
  (forall fs fs',
      write_html fs = write_html fs' ->
      html_written (Wrapped.output_stage fs)
      = html_written (Wrapped.output_stage fs')) /\
  (forall fs,
      (csv_written (Wrapped.output_stage fs) = true <-> write_csv fs = IoOk) /\
      (html_written (Wrapped.output_stage fs) = true <-> write_html fs = IoOk)) /\
  (forall fs,
      csv_written (QueriesPages.output_stage false fs) = true
      <-> write_csv fs = IoOk) /\
  (forall fs,
      html_written (QueriesPages.output_stage false fs) = true
      <-> write_csv fs = IoOk /\ write_html fs = IoOk) /\
  (forall fs,
      html_written (QueriesPages.output_stage true fs) = true
      <-> write_html fs = IoOk).
Proof.
  split; [|split; [|split; [|split; [|split]]]].
  - intros [c h] [c' h']. cbn. intros ->. reflexivity.
  - intros [c h] [c' h']. cbn. intros ->. reflexivity.
  - intros [c h]. destruct c, h; cbn; split; split; congruence.
  - intros [c h]. destruct c, h; cbn; split; congruence.
  - intros [c h]. destruct c, h; cbn; split;
      try (intros [? ?]); try split; congruence.
  - intros [c h]. destruct c, h; cbn; split; congruence.
Qed.

(** C9 as stated fails in [queries-pages-analysis.py]: with a
    [PermissionError] on the CSV the handler returns from [main], and the
    HTML, whose own write would have succeeded, is never produced. *)
Lemma html_depends_on_csv_counterexample :
  write_html (mk_fs IoPermissionError IoOk) = write_html (mk_fs IoOk IoOk) /\
  html_written (QueriesPages.output_stage false (mk_fs IoOk IoOk)) = true /\
  html_written (QueriesPages.output_stage false (mk_fs IoPermissionError IoOk))
  = false /\
  ~ (forall fs fs',
        write_html fs = write_html fs' ->
        html_written (QueriesPages.output_stage false fs)
        = html_written (QueriesPages.output_stage false fs')).
Proof.
  repeat split. intros H.
  specialize (H (mk_fs IoPermissionError IoOk) (mk_fs IoOk IoOk) eq_refl).
  discriminate H.
Qed.

Lemma artifacts_produced_by_each_script_witness :
  csv_written (Wrapped.output_stage (mk_fs IoOk IoOtherOSError))
  = csv_written (Wrapped.output_stage (mk_fs IoOk IoOk)).
Proof.
  apply (proj1 artifacts_produced_by_each_script). reflexivity.
Defined.

End OutputArtifacts.

Section MonthlyRecords.
Import PyDate Windows Api Frame Run.

Variables (svc : service) (today : date).

Lemma qp_monthly_data_inv site_url start_date end_date d :
  fst (QueriesPages.get_monthly_performance_data svc site_url start_date end_date)
  = QueriesPages.Data d ->
  exists totals_data more unique_queries unique_pages,
    svc (totals_request site_url start_date end_date)
    = Response (Some (totals_data :: more)) /\
    forall month,
      ("site_url"%string, CStr site_url) :: ("month"%string, CStr month) :: d
      = QueriesPages.monthly_record site_url month totals_data
                                    unique_queries unique_pages.
Proof.
  unfold QueriesPages.get_monthly_performance_data.
  destruct (svc (totals_request site_url start_date end_date))
    as [[[|t more]|]|status|]; cbn [fst]; try discriminate.
  - destruct (QueriesPages.unique_count svc _) as [q|]; [|discriminate].
    destruct (QueriesPages.unique_count svc _) as [g|]; [|discriminate].
    cbn [fst]. intros H. inversion H; subst.
    exists t, more, q, g. split; reflexivity.
  - destruct (status =? 403); discriminate.
Qed.

(** A record appended for a window comes from a totals row of that very
    window. *)
Lemma qp_window_records_inv site_url i d :
  In d (QueriesPages.window_records svc today site_url i) ->
  exists s e totals_data more unique_queries unique_pages,
    monthly_window today i = Some (s, e) /\
    svc (totals_request site_url (strftime_ymd s) (strftime_ymd e))
    = Response (Some (totals_data :: more)) /\
    (exists d', fst (QueriesPages.window_fetch svc today site_url i)
                = QueriesPages.Data d') /\
    d = QueriesPages.monthly_record site_url (strftime_ym s) totals_data
                                    unique_queries unique_pages.
Proof.
  unfold QueriesPages.window_records, QueriesPages.window_fetch.
  destruct (monthly_window today i) as [[s e]|]; [|contradiction].
  destruct (fst (QueriesPages.get_monthly_performance_data
                   svc site_url (strftime_ymd s) (strftime_ymd e)))
    as [d'| | |] eqn:Ed; try contradiction.
  intros [<-|[]].
  destruct (qp_monthly_data_inv _ _ _ _ Ed) as (t & more & q & g & Ht & Hd).
  exists s, e, t, more, q, g. repeat split; try assumption.
  - now exists d'.
  - apply Hd.
Qed.

Lemma aw_window_records_inv site_url i d :
  In d (AccountWide.window_records svc today site_url i) ->
  exists s e row more,
    monthly_window today i = Some (s, e) /\
    svc (totals_request site_url (strftime_ymd s) (strftime_ymd e))
    = Response (Some (row :: more)) /\
    fst (AccountWide.window_fetch svc today site_url i) = Some row /\
    d = AccountWide.record_of site_url s row.
Proof.
  unfold AccountWide.window_records, AccountWide.window_fetch.
  destruct (monthly_window today i) as [[s e]|]; [|contradiction].
  unfold AccountWide.get_monthly_performance_data. cbn [fst].
  destruct (svc (totals_request site_url (strftime_ymd s) (strftime_ymd e)))
    as [[[|t more]|]|status|] eqn:Es; try contradiction.
  intros [<-|[]]. exists s, e, t, more. repeat split. exact Es.
Qed.

Lemma qp_processed_incl site_url indices i :
  In i (QueriesPages.processed_windows svc today site_url indices) ->
  In i indices.
Proof.
  induction indices as [|j rest IH]; cbn [QueriesPages.processed_windows];
    [contradiction|].
  destruct (fst (QueriesPages.window_fetch svc today site_url j));
    cbn [In]; intuition.
Qed.

Lemma qp_site_loop_cons site_url rest st :
  QueriesPages.site_loop svc today (site_url :: rest) st
  = match QueriesPages.window_loop svc today site_url window_indices st with
    | Finished st' => QueriesPages.site_loop svc today rest st'
    | Crashed st' => Crashed st'
    end.
Proof. reflexivity. Qed.

(** Whatever way the run ends, every record it holds was appended for a
    window of one of the sites. *)
Lemma qp_site_loop_records sites :
  forall st d,
    In d (all_data (state_of (QueriesPages.site_loop svc today sites st))) ->
    In d (all_data st) \/
    exists site_url i,
      In site_url sites /\ In i window_indices /\
      In d (QueriesPages.window_records svc today site_url i).
Proof.
  induction sites as [|site_url rest IH]; intros st d Hd.
  - now left.
  - rewrite qp_site_loop_cons in Hd.
    pose proof (qp_window_loop_state svc today site_url window_indices st) as Hst.
    assert (Hone : forall x,
               In x (all_data
                       (state_of (QueriesPages.window_loop
                                    svc today site_url window_indices st))) ->
               In x (all_data st) \/
               exists i, In i window_indices /\
                         In x (QueriesPages.window_records svc today site_url i)).
    { intros x Hx. rewrite Hst in Hx. cbn [all_data] in Hx.
      apply in_app_or in Hx. destruct Hx as [Hx|Hx]; [now left|].
      right. apply in_flat_map in Hx. destruct Hx as (i & Hi & Hx).
      exists i. split; [eapply qp_processed_incl; eassumption | assumption]. }
    destruct (QueriesPages.window_loop svc today site_url window_indices st)
      as [st'|st'] eqn:El; cbn [state_of] in Hone.
    + apply IH in Hd. destruct Hd as [Hd|(s' & i & Hs' & Hi & Hx)].
      * apply Hone in Hd. destruct Hd as [Hd|(i & Hi & Hx)]; [now left|].
        right. exists site_url, i. repeat split; [now left | assumption..].
      * right. exists s', i. repeat split; [now right | assumption..].
    + cbn [state_of] in Hd. apply Hone in Hd.
      destruct Hd as [Hd|(i & Hi & Hx)]; [now left|].
      right. exists site_url, i. repeat split; [now left | assumption..].
Qed.

End MonthlyRecords.

Section CsvArtifacts.
Import PyDate Windows Api Frame Run.

Lemma from_records_uniform (cols : list string) (ds : list dict) :
  fold_left add_column cols [] = cols ->
  fold_left add_column cols cols = cols ->
  ds <> [] ->
  Forall (fun d => map fst d = cols) ds ->
  from_records ds
  = mk_df cols
          (map (fun d => map (fun c => match dict_get c d with
                                       | Some v => v
                                       | None => CNaN
                                       end) cols) ds).
Proof.
  intros H0 H1 Hne Hall. unfold from_records.
  assert (Hcols : fold_left (fun cs d => fold_left add_column (map fst d) cs)
                            ds [] = cols).
  { destruct ds as [|d ds]; [congruence|].
    apply Forall_cons_iff in Hall. destruct Hall as [Hd Hall].
    cbn [fold_left]. rewrite Hd, H0.
    clear Hne Hd. induction ds as [|d' ds IH]; [reflexivity|].
    apply Forall_cons_iff in Hall. destruct Hall as [Hd' Hall].
    cbn [fold_left]. rewrite Hd', H1. now apply IH. }
  rewrite Hcols. reflexivity.
Qed.

(** The CSV of [queries-pages-analysis.py]: the eight columns in their
    order, and under them the cells of the appended records, untouched. *)
Lemma qp_csv_of_records (ds : list dict) :
  ds <> [] ->
  Forall (fun d => exists site_url month totals_data q g,
              d = QueriesPages.monthly_record site_url month totals_data q g) ds ->
  QueriesPages.csv_artifact ds
  = Some (mk_csv QueriesPages.column_order (map (map snd) ds)).
Proof.
  intros Hne Hall. unfold QueriesPages.csv_artifact.
  rewrite (from_records_uniform QueriesPages.column_order ds);
    [| reflexivity | reflexivity | assumption |].
  - unfold select. cbn [columns records].
    change (indices_of QueriesPages.column_order QueriesPages.column_order)
      with (Some [0; 1; 2; 3; 4; 5; 6; 7]%nat).
    unfold to_csv. cbn [bind option_map columns records]. do 2 f_equal.
    rewrite map_map. apply map_ext_in. intros d Hd.
    rewrite Forall_forall in Hall.
    destruct (Hall d Hd) as (site_url & month & t & q & g & ->). reflexivity.
  - eapply Forall_impl; [|exact Hall]. cbn beta.
    intros d (site_url & month & t & q & g & ->). reflexivity.
Qed.

(** The CSV of [account-wide-analysis.py]: six columns, with [ctr] and
    [position] already turned into formatted strings. *)
Lemma aw_csv_of_records (ds : list dict) :
  ds <> [] ->
  Forall (fun d => exists site_url s row,
              d = AccountWide.record_of site_url s row) ds ->
  AccountWide.csv_artifact ds
  = Some (mk_csv AccountWide.report_columns
                 (map (fun d => map (fun kv =>
                                       if String.eqb (fst kv) "ctr"
                                       then CFormatted Percent2 (snd kv)
                                       else if String.eqb (fst kv) "position"
                                            then CFormatted Fixed2 (snd kv)
                                            else snd kv) d) ds)).
Proof.
  intros Hne Hall. unfold AccountWide.csv_artifact, AccountWide.report_frame.
  rewrite (from_records_uniform AccountWide.report_columns ds);
    [| reflexivity | reflexivity | assumption |].
  - unfold apply_column. cbn [columns records].
    change (index_of "ctr" AccountWide.report_columns) with (Some 4%nat).
    cbn [bind columns records].
    change (index_of "position" AccountWide.report_columns) with (Some 5%nat).
    unfold to_csv. cbn [bind option_map columns records]. do 2 f_equal.
    rewrite !map_map. apply map_ext_in. intros d Hd.
    rewrite Forall_forall in Hall.
    destruct (Hall d Hd) as (site_url & s' & row & ->). reflexivity.
  - eapply Forall_impl; [|exact Hall]. cbn beta.
    intros d (site_url & s' & row & ->). reflexivity.
Qed.

End CsvArtifacts.

Section CsvClaims.
Import PyDate Windows Api Frame Run.

Lemma aw_window_loop_records svc today site_url indices :
  forall st d,
    In d (all_data (state_of (AccountWide.window_loop svc today site_url
                                                      indices st))) ->
    In d (all_data st) \/
    exists i, In i indices /\
              In d (AccountWide.window_records svc today site_url i).
Proof.
  induction indices as [|i rest IH]; intros st d Hd; [now left|].
  cbn [AccountWide.window_loop] in Hd.
  assert (Hwr : AccountWide.window_records svc today site_url i
                = match monthly_window today i,
                        fst (AccountWide.window_fetch svc today site_url i) with
                  | Some (s, _), Some row =>
                      [AccountWide.record_of site_url s row]
                  | _, _ => []
                  end) by reflexivity.
  unfold AccountWide.window_fetch in Hwr.
  destruct (monthly_window today i) as [[s e]|]; [|now left].
  destruct (AccountWide.get_monthly_performance_data
              svc site_url (strftime_ymd s) (strftime_ymd e)) as [data reqs].
  cbn [fst] in Hwr.
  destruct data as [row|]; apply IH in Hd;
    destruct Hd as [Hd|(j & Hj & Hd)];
    try (right; exists j; split; [now right | assumption]).
  - unfold append, log in Hd. cbn [all_data] in Hd.
    apply in_app_or in Hd. destruct Hd as [Hd|[<-|[]]]; [now left|].
    right. exists i. split; [now left|]. rewrite Hwr. now left.
  - now left.
Qed.

Lemma aw_site_loop_records svc today sites :
  forall st d,
    In d (all_data (state_of (AccountWide.site_loop svc today sites st))) ->
    In d (all_data st) \/
    exists site_url i,
      In site_url sites /\ In i window_indices /\
      In d (AccountWide.window_records svc today site_url i).
Proof.
  induction sites as [|site_url rest IH]; intros st d Hd; [now left|].
  assert (Hcons : AccountWide.site_loop svc today (site_url :: rest) st
                  = match AccountWide.window_loop svc today site_url
                                                  window_indices st with
                    | Finished st' => AccountWide.site_loop svc today rest st'
                    | Crashed st' => Crashed st'
                    end) by reflexivity.
  rewrite Hcons in Hd. clear Hcons.
  pose proof (aw_window_loop_records svc today site_url window_indices st)
    as Hone.
  destruct (AccountWide.window_loop svc today site_url window_indices st)
    as [st'|st']; cbn [state_of] in Hone.
  - apply IH in Hd. destruct Hd as [Hd|(s' & i & Hs' & Hi & Hx)].
    + apply Hone in Hd. destruct Hd as [Hd|(i & Hi & Hx)]; [now left|].
      right. exists site_url, i. repeat split; [now left | assumption..].
    + right. exists s', i. repeat split; [now right | assumption..].
  - cbn [state_of] in Hd. apply Hone in Hd.
    destruct Hd as [Hd|(i & Hi & Hx)]; [now left|].
    right. exists site_url, i. repeat split; [now left | assumption..].
Qed.

(** C7, as the code has it.  The CSV of [queries-pages-analysis.py] has
    the header site_url, month, clicks, impressions, ctr, position,
    queries, pages, and every line holds the numbers as the API returned
    them: no formatting, [ctr] the raw fraction of a totals row.  The CSV
    of [account-wide-analysis.py] has the header site_url, month, clicks,
    impressions, ctr, position; its clicks and impressions are raw, but
    its [ctr] is the two-decimal percentage string and its [position] the
    two-decimal string, both formatted before the file is written. *)
Theorem csv_header_and_number_format :
  (forall svc today sites st,
      QueriesPages.fetch_all svc today sites = Finished st ->
      all_data st <> [] ->
      exists csv,
        QueriesPages.csv_artifact (all_data st) = Some csv /\
        header csv = ["site_url"; "month"; "clicks"; "impressions"; "ctr";
                      "position"; "queries"; "pages"]%string /\
        Forall (fun line =>
                  forallb unformatted (skipn 2 line) = true /\
                  exists site_url month totals_data q g,
                    line = QueriesPages.raw_line site_url month totals_data q g /\
                    nth 4 line CNaN = CReal (ctr totals_data) /\
                    exists request more,
                      svc request = Response (Some (totals_data :: more)))
               (lines csv)) /\
  (forall svc today sites st,
      AccountWide.fetch_all svc today sites = Finished st ->
      all_data st <> [] ->
      exists csv,
        AccountWide.csv_artifact (all_data st) = Some csv /\
        header csv = ["site_url"; "month"; "clicks"; "impressions"; "ctr";
                      "position"]%string /\
        Forall (fun line =>
                  exists site_url month row,
                    line = AccountWide.formatted_line site_url month row /\
                    nth 2 line CNaN = CInt (clicks row) /\
                    nth 3 line CNaN = CInt (impressions row) /\
                    nth 4 line CNaN = CFormatted Percent2 (CReal (ctr row)) /\
                    nth 5 line CNaN = CFormatted Fixed2 (CReal (position row)) /\
                    exists request more,
                      svc request = Response (Some (row :: more)))
               (lines csv)).
Proof.
  split.
  - intros svc today sites st Hrun Hne.
    assert (Hrec : forall d, In d (all_data st) ->
                             exists site_url month t q g,
                               d = QueriesPages.monthly_record site_url month t q g /\
                               exists request more,
                                 svc request = Response (Some (t :: more))).
    { intros d Hd.
      pose proof (qp_site_loop_records svc today sites initial d) as H.
      unfold QueriesPages.fetch_all in Hrun. rewrite Hrun in H.
      destruct (H Hd) as [[]|(site_url & i & _ & _ & Hw)].
      apply qp_window_records_inv in Hw.
      destruct Hw as (s & e & t & more & q & g & _ & Hsvc & _ & ->).
      exists site_url, (strftime_ym s), t, q, g. split; [reflexivity|].
      now exists (totals_request site_url (strftime_ymd s) (strftime_ymd e)), more. }
    eexists. split; [|split].
    + apply qp_csv_of_records; [assumption|].
      apply Forall_forall. intros d Hd.
      destruct (Hrec d Hd) as (site_url & month & t & q & g & -> & _).
      now exists site_url, month, t, q, g.
    + reflexivity.
    + cbn [lines]. apply Forall_forall. intros line Hl.
      apply in_map_iff in Hl. destruct Hl as (d & <- & Hd).
      destruct (Hrec d Hd) as (site_url & month & t & q & g & -> & Hsvc).
      split; [reflexivity|].
      exists site_url, month, t, q, g. repeat split. exact Hsvc.
  - intros svc today sites st Hrun Hne.
    assert (Hrec : forall d, In d (all_data st) ->
                             exists site_url s row,
                               d = AccountWide.record_of site_url s row /\
                               exists request more,
                                 svc request = Response (Some (row :: more))).
    { intros d Hd.
      pose proof (aw_site_loop_records svc today sites initial d) as H.
      unfold AccountWide.fetch_all in Hrun. rewrite Hrun in H.
      destruct (H Hd) as [[]|(site_url & i & _ & _ & Hw)].
      apply aw_window_records_inv in Hw.
      destruct Hw as (s & e & row & more & _ & Hsvc & _ & ->).
      exists site_url, s, row. split; [reflexivity|].
      now exists (totals_request site_url (strftime_ymd s) (strftime_ymd e)), more. }
    eexists. split; [|split].
    + apply aw_csv_of_records; [assumption|].
      apply Forall_forall. intros d Hd.
      destruct (Hrec d Hd) as (site_url & s & row & -> & _).
      now exists site_url, s, row.
    + reflexivity.
    + cbn [lines]. apply Forall_forall. intros line Hl.
      apply in_map_iff in Hl. destruct Hl as (d & <- & Hd).
      destruct (Hrec d Hd) as (site_url & s & row & -> & Hsvc).
      exists site_url, (strftime_ym s), row. repeat split. exact Hsvc.
Qed.

Lemma csv_header_and_number_format_witness :
  exists csv,
    QueriesPages.csv_artifact
      (all_data (state_of (QueriesPages.fetch_all
                             (steady_service sample_totals) (mkdate 2024 3 15)
                             ["https://www.example.com/"%string])))
    = Some csv /\
    header csv = ["site_url"; "month"; "clicks"; "impressions"; "ctr";
                  "position"; "queries"; "pages"]%string /\
    Forall (fun line =>
              forallb unformatted (skipn 2 line) = true /\
              exists site_url month totals_data q g,
                line = QueriesPages.raw_line site_url month totals_data q g /\
                nth 4 line CNaN = CReal (ctr totals_data) /\
                exists request more,
                  steady_service sample_totals request
                  = Response (Some (totals_data :: more)))
           (lines csv).
Proof.
  apply (proj1 csv_header_and_number_format
               (steady_service sample_totals) (mkdate 2024 3 15)
               ["https://www.example.com/"%string]).
  - vm_compute. reflexivity.
  - vm_compute. discriminate.
Defined.

(** C7 as stated fails for [account-wide-analysis.py]: the line written
    for February 2024 carries the click-through rate 1/20 as a formatted
    percentage string, not as the raw fraction. *)
Lemma account_wide_csv_ctr_counterexample :
  exists csv line,
    AccountWide.csv_artifact
      (all_data (state_of (AccountWide.fetch_all
                             (steady_service sample_totals) (mkdate 2024 3 15)
                             ["https://www.example.com/"%string])))
    = Some csv /\
    hd_error (lines csv) = Some line /\
    line = [CStr "https://www.example.com/"; CStr "2024-02";
            CInt 120; CInt 2400;
            CFormatted Percent2 (CReal (1 # 20));
            CFormatted Fixed2 (CReal (7 # 2))] /\
    forallb unformatted (skipn 2 line) = false.
Proof.
  eexists. eexists. split; [vm_compute; reflexivity|].
  split; [reflexivity|]. split; reflexivity.
Qed.

End CsvClaims.

Section WindowsOfARun.
Import PyDate Windows Api Frame Run.

Variable today : date.
Hypothesis today_valid : valid_date today.
Hypothesis today_year : MINYEAR + 2 <= year today.

Lemma window_indices_range i : In i window_indices <-> 1 <= i <= 16.
Proof.
  unfold window_indices. cbn [In]. lia.
Qed.

Lemma window_defined i :
  1 <= i <= 16 ->
  monthly_window today i
  = Some (first_of_month (month_index today - i),
          mkdate ((month_index today - i) / 12)
                 ((month_index today - i) mod 12 + 1)
                 (days_in_month ((month_index today - i) / 12)
                                ((month_index today - i) mod 12 + 1))).
Proof.
  intros Hi. pose proof today_valid as Hv. apply valid_date_iff in Hv.
  unfold MINYEAR, MAXYEAR in *.
  apply (monthly_window_at today i today_valid); unfold MINYEAR, month_index; lia.
Qed.

Lemma window_start_valid i s e :
  1 <= i <= 16 -> monthly_window today i = Some (s, e) ->
  valid_date s /\ month_index s = month_index today - i.
Proof.
  intros Hi Hw. rewrite (window_defined i Hi) in Hw. inversion Hw; subst.
  pose proof today_valid as Hv. apply valid_date_iff in Hv.
  unfold MINYEAR, MAXYEAR in *.
  set (idx := month_index today - i).
  assert (Hidx : 12 <= idx <= 12 * year today + 11)
    by (subst idx; unfold month_index; lia).
  pose proof (Z.mod_pos_bound idx 12 ltac:(lia)) as Hr.
  pose proof (Z.div_mod idx 12 ltac:(lia)) as Hdm.
  assert (1 <= idx / 12) by (apply Z.div_le_lower_bound; lia).
  assert (idx / 12 < year today + 1) by (apply Z.div_lt_upper_bound; lia).
  split.
  - apply valid_date_iff. unfold first_of_month. cbn [year month day].
    pose proof (days_in_month_bounds (idx / 12) (idx mod 12 + 1)).
    unfold MINYEAR, MAXYEAR. lia.
  - unfold month_index, first_of_month. cbn [year month]. lia.
Qed.

(** Two windows of a run with the same month label, or the same start
    date on the wire, are the same window. *)
Lemma window_label_inj i j si ei sj ej :
  1 <= i <= 16 -> 1 <= j <= 16 ->
  monthly_window today i = Some (si, ei) ->
  monthly_window today j = Some (sj, ej) ->
  strftime_ym si = strftime_ym sj -> i = j.
Proof.
  intros Hi Hj Hwi Hwj Heq.
  destruct (window_start_valid i si ei Hi Hwi) as [Vi Ii].
  destruct (window_start_valid j sj ej Hj Hwj) as [Vj Ij].
  destruct (strftime_ym_inj si sj Vi Vj Heq) as [Hy Hm].
  unfold month_index in *. lia.
Qed.

Lemma window_start_inj i j si ei sj ej :
  1 <= i <= 16 -> 1 <= j <= 16 ->
  monthly_window today i = Some (si, ei) ->
  monthly_window today j = Some (sj, ej) ->
  strftime_ymd si = strftime_ymd sj -> i = j.
Proof.
  intros Hi Hj Hwi Hwj Heq.
  destruct (window_start_valid i si ei Hi Hwi) as [Vi Ii].
  destruct (window_start_valid j sj ej Hj Hwj) as [Vj Ij].
  pose proof (strftime_ymd_inj si sj Vi Vj Heq) as Hs. subst sj. lia.
Qed.

Lemma windows_never_fail i :
  In i window_indices -> monthly_window today i <> None.
Proof.
  intros Hi. apply window_indices_range in Hi.
  rewrite (window_defined i Hi). discriminate.
Qed.

End WindowsOfARun.

Section RowsOfARun.
Import PyDate Windows Api Frame Run.

Variables (svc : service) (today : date).

Lemma qp_window_loop_keeps site_url indices st d :
  In d (all_data st) ->
  In d (all_data (state_of (QueriesPages.window_loop svc today site_url
                                                     indices st))).
Proof.
  intros Hd. rewrite qp_window_loop_state. cbn [all_data].
  apply in_or_app. now left.
Qed.

Lemma qp_site_loop_keeps sites :
  forall st d,
    In d (all_data st) ->
    In d (all_data (state_of (QueriesPages.site_loop svc today sites st))).
Proof.
  induction sites as [|site_url rest IH]; intros st d Hd; [assumption|].
  rewrite qp_site_loop_cons.
  pose proof (qp_window_loop_keeps site_url window_indices st d Hd) as Hk.
  destruct (QueriesPages.window_loop svc today site_url window_indices st);
    cbn [state_of] in *; [now apply IH | assumption].
Qed.

(** In a loop that ends normally, a window not preceded by a
    permission-denied one is reached, and its record is kept. *)
Lemma qp_window_loop_reaches site_url pre i post :
  forall st st',
    QueriesPages.window_loop svc today site_url (pre ++ i :: post) st
    = Finished st' ->
    (forall j, In j pre ->
               fst (QueriesPages.window_fetch svc today site_url j)
               <> QueriesPages.PermissionDenied) ->
    forall d, In d (QueriesPages.window_records svc today site_url i) ->
              In d (all_data st').
Proof.
  induction pre as [|j pre IH]; intros st st' Hrun Hpre d Hd.
  - cbn [app] in Hrun.
    assert (Hst : all_data
                    (state_of (QueriesPages.window_loop svc today site_url
                                                        (i :: post) st))
                  = all_data st') by now rewrite Hrun.
    rewrite <- Hst, qp_window_loop_state. cbn [all_data].
    apply in_or_app. right. apply in_flat_map. exists i. split; [|assumption].
    cbn [QueriesPages.processed_windows].
    destruct (fst (QueriesPages.window_fetch svc today site_url i));
      now left.
  - cbn [app QueriesPages.window_loop] in Hrun.
    specialize (Hpre j) as Hj.
    unfold QueriesPages.window_fetch in Hj.
    destruct (monthly_window today j) as [[s e]|]; [|discriminate].
    destruct (QueriesPages.get_monthly_performance_data
                svc site_url (strftime_ymd s) (strftime_ymd e))
      as [data reqs].
    cbn [fst] in Hj.
    destruct data as [d'| | |];
      try discriminate;
      try (exfalso; apply Hj; [now left | reflexivity]);
      (eapply IH; [exact Hrun | | exact Hd]);
      intros k Hk; apply Hpre; now right.
Qed.

Lemma qp_site_loop_reaches sites :
  forall st st',
    QueriesPages.site_loop svc today sites st = Finished st' ->
    forall site_url pre i post d,
      In site_url sites ->
      window_indices = pre ++ i :: post ->
      (forall j, In j pre ->
                 fst (QueriesPages.window_fetch svc today site_url j)
                 <> QueriesPages.PermissionDenied) ->
      In d (QueriesPages.window_records svc today site_url i) ->
      In d (all_data st').
Proof.
  induction sites as [|site rest IH];
    intros st st' Hrun site_url pre i post d Hin Hsplit Hpre Hd;
    [contradiction|].
  rewrite qp_site_loop_cons in Hrun.
  destruct (QueriesPages.window_loop svc today site window_indices st)
    as [st1|st1] eqn:Eloop; [|discriminate].
  destruct Hin as [->|Hin].
  - rewrite Hsplit in Eloop.
    pose proof (qp_window_loop_reaches site_url pre i post st st1 Eloop Hpre d Hd)
      as H1.
    pose proof (qp_site_loop_keeps rest st1 d H1) as H2.
    now rewrite Hrun in H2.
  - eapply IH; eassumption.
Qed.

(** The run of all sites ends normally when no reached window is left by
    an exception. *)
Lemma qp_site_loop_finishes sites :
  (forall site_url i,
      In site_url sites -> In i window_indices ->
      fst (QueriesPages.window_fetch svc today site_url i)
      <> QueriesPages.Uncaught) ->
  forall st, exists st', QueriesPages.site_loop svc today sites st = Finished st'.
Proof.
  induction sites as [|site rest IH]; intros Hok st; [now eexists|].
  rewrite qp_site_loop_cons.
  destruct (qp_window_loop_finishes svc today site window_indices) with (st := st)
    as [st1 ->].
  - intros i Hi. apply Hok; [now left|].
    eapply qp_processed_incl; eassumption.
  - apply IH. intros s i Hs Hi. apply Hok; [now right | assumption].
Qed.

End RowsOfARun.

Section MissingMonths.
Import PyDate Windows Api Frame Run.

Lemma window_indices_split i :
  1 <= i <= 16 ->
  exists pre post,
    window_indices = pre ++ i :: post /\
    (forall j, In j pre -> 1 <= j < i) /\
    (forall j, In j post -> i < j <= 16).
Proof.
  intros Hi.
  exists (filter (fun j => j <? i) window_indices),
         (filter (fun j => i <? j) window_indices).
  assert (Hcases : i = 1 \/ i = 2 \/ i = 3 \/ i = 4 \/ i = 5 \/ i = 6 \/
                   i = 7 \/ i = 8 \/ i = 9 \/ i = 10 \/ i = 11 \/ i = 12 \/
                   i = 13 \/ i = 14 \/ i = 15 \/ i = 16) by lia.
  split; [|split].
  - repeat (destruct Hcases as [->|Hcases]; [reflexivity|]).
    subst i. reflexivity.
  - intros j Hj. apply filter_In in Hj. destruct Hj as [Hj Hlt].
    apply window_indices_range in Hj. apply Z.ltb_lt in Hlt. lia.
  - intros j Hj. apply filter_In in Hj. destruct Hj as [Hj Hlt].
    apply window_indices_range in Hj. apply Z.ltb_lt in Hlt. lia.
Qed.


Lemma qp_window_fetch_at svc today site_url i s e :
  monthly_window today i = Some (s, e) ->
  QueriesPages.window_fetch svc today site_url i
  = QueriesPages.get_monthly_performance_data
      svc site_url (strftime_ymd s) (strftime_ymd e).
Proof. unfold QueriesPages.window_fetch. now intros ->. Qed.

Lemma aw_record_keys site_url s row :
  dict_get "site_url" (AccountWide.record_of site_url s row)
  = Some (CStr site_url) /\
  dict_get "month" (AccountWide.record_of site_url s row)
  = Some (CStr (strftime_ym s)).
Proof. split; reflexivity. Qed.

Lemma qp_record_keys site_url month t q g :
  dict_get "site_url" (QueriesPages.monthly_record site_url month t q g)
  = Some (CStr site_url) /\
  dict_get "month" (QueriesPages.monthly_record site_url month t q g)
  = Some (CStr month).
Proof. split; reflexivity. Qed.











(** A fetch that raises anything but an [HttpError] is caught nowhere in
    [queries-pages-analysis.py]: the run stops there, before the second
    site.  This is the case the hypothesis of the theorem leaves aside. *)
Remark transport_failure_ends_queries_pages_run :
  QueriesPages.fetch_all unreachable_service (mkdate 2024 3 15)
                         ["https://a.example.com/"; "https://b.example.com/"]%string
  = Crashed (mk_state [] [totals_request "https://a.example.com/"
                                         "2024-02-01" "2024-02-29"]).
Proof. vm_compute. reflexivity. Qed.

End MissingMonths.

Section PermissionDenied.
Import PyDate Windows Api Frame Run.

Variables (svc : service) (today : date).

Lemma qp_monthly_calls site_url start_date end_date r :
  In r (snd (QueriesPages.get_monthly_performance_data
               svc site_url start_date end_date)) ->
  startDate r = start_date /\ siteUrl r = site_url.
Proof.
  unfold QueriesPages.get_monthly_performance_data.
  destruct (svc (totals_request site_url start_date end_date))
    as [[[|t more]|]|status|]; cbn [snd In].
  - intros [<-|[]]. now split.
  - destruct (QueriesPages.unique_count svc _) as [q|]; cbn [snd In].
    + destruct (QueriesPages.unique_count svc _) as [g|]; cbn [snd In];
        intros [<-|[<-|[<-|[]]]]; now split.
    + intros [<-|[<-|[]]]; now split.
  - intros [<-|[]]. now split.
  - destruct (status =? 403); cbn [snd In]; intros [<-|[]]; now split.
  - intros [<-|[]]. now split.
Qed.

Lemma qp_monthly_denied site_url start_date end_date :
  svc (totals_request site_url start_date end_date) = HttpError 403 ->
  QueriesPages.get_monthly_performance_data svc site_url start_date end_date
  = (QueriesPages.PermissionDenied,
     [totals_request site_url start_date end_date]).
Proof.
  intros H. unfold QueriesPages.get_monthly_performance_data. now rewrite H.
Qed.

(** Once a window is answered permission-denied, the windows reached are
    those up to it, or fewer. *)
Lemma qp_processed_denied site_url pre i post :
  fst (QueriesPages.window_fetch svc today site_url i)
  = QueriesPages.PermissionDenied ->
  QueriesPages.processed_windows svc today site_url (pre ++ i :: post)
  = pre ++ [i] \/
  incl (QueriesPages.processed_windows svc today site_url (pre ++ i :: post))
       pre.
Proof.
  intros Hden. induction pre as [|j pre IH];
    cbn [app QueriesPages.processed_windows].
  - rewrite Hden. now left.
  - destruct (fst (QueriesPages.window_fetch svc today site_url j)).
    + destruct IH as [->|Hincl]; [now left|].
      right. intros x [<-|Hx]; [now left | right; now apply Hincl].
    + right. intros x [<-|[]]. now left.
    + destruct IH as [->|Hincl]; [now left|].
      right. intros x [<-|Hx]; [now left | right; now apply Hincl].
    + right. intros x [<-|[]]. now left.
Qed.

End PermissionDenied.

Section PermissionDeniedClaims.
Import PyDate Windows Api Frame Run.

(** C4, as the code has it.  In [queries-pages-analysis.py], when the
    totals query of window [i] of a site is answered 403, the calls the
    loop of that site makes are calls for earlier windows, followed by at
    most that one refused call: the refused request is issued once and
    never again, no call is made for any later window of the site, and,
    unless an earlier window was left by an exception, the run goes on
    with the next site.  ([account-wide-analysis.py] has no such rule:
    see the counterexample.) *)
Theorem permission_denied_ends_the_site :
  forall svc today site_url i s e st,
    valid_date today -> MINYEAR + 2 <= year today -> 1 <= i <= 16 ->
    monthly_window today i = Some (s, e) ->
    svc (totals_request site_url (strftime_ymd s) (strftime_ymd e))
    = HttpError 403 ->
    (exists front,
        (calls (state_of (QueriesPages.window_loop svc today site_url
                                                   window_indices st))
         = calls st ++ front \/
         calls (state_of (QueriesPages.window_loop svc today site_url
                                                   window_indices st))
         = calls st ++ front
                 ++ [totals_request site_url (strftime_ymd s) (strftime_ymd e)]) /\
        forall r, In r front ->
                  r <> totals_request site_url (strftime_ymd s) (strftime_ymd e) /\
                  exists j sj ej,
                    1 <= j < i /\ monthly_window today j = Some (sj, ej) /\
                    startDate r = strftime_ymd sj) /\
    (forall j sj ej,
        i < j <= 16 -> monthly_window today j = Some (sj, ej) ->
        forall r, In r (calls (state_of (QueriesPages.window_loop
                                           svc today site_url window_indices st))) ->
                  In r (calls st) \/ startDate r <> strftime_ymd sj) /\
    ((forall j, 1 <= j < i ->
                fst (QueriesPages.window_fetch svc today site_url j)
                <> QueriesPages.Uncaught) ->
     forall rest,
       QueriesPages.site_loop svc today (site_url :: rest) st
       = QueriesPages.site_loop
           svc today rest
           (state_of (QueriesPages.window_loop svc today site_url
                                               window_indices st))).
Proof.
  intros svc today site_url i s e st Hv Hy Hi Hw H403.
  set (denied := totals_request site_url (strftime_ymd s) (strftime_ymd e)).
  set (F := fun k => snd (QueriesPages.window_fetch svc today site_url k)).
  destruct (window_indices_split i Hi) as (pre & post & Hsplit & Hlt & Hgt).
  assert (Hfetch : QueriesPages.window_fetch svc today site_url i
                   = (QueriesPages.PermissionDenied, [denied])).
  { rewrite (qp_window_fetch_at svc today site_url i s e Hw).
    now apply qp_monthly_denied. }
  assert (Hearly : forall l r,
             incl l pre -> In r (flat_map F l) ->
             r <> denied /\
             exists j sj ej,
               1 <= j < i /\ monthly_window today j = Some (sj, ej) /\
               startDate r = strftime_ymd sj).
  { intros l r Hl Hr. apply in_flat_map in Hr. destruct Hr as (j & Hj & Hr).
    specialize (Hlt j (Hl j Hj)).
    pose proof (window_defined today Hv Hy j ltac:(lia)) as Hwj.
    subst F. cbn beta in Hr.
    rewrite (qp_window_fetch_at svc today site_url j _ _ Hwj) in Hr.
    apply qp_monthly_calls in Hr. destruct Hr as [Hstart _].
    split.
    - intros ->. subst denied. cbn [startDate totals_request] in Hstart.
      assert (i = j); [|lia].
      eapply (window_start_inj today Hv Hy i j); try eassumption; lia.
    - eexists j, _, _. repeat split; [lia | lia | exact Hwj | exact Hstart]. }
  assert (Hcalls : exists front,
             incl front (flat_map F pre) /\
             (calls (state_of (QueriesPages.window_loop svc today site_url
                                                        window_indices st))
              = calls st ++ front \/
              calls (state_of (QueriesPages.window_loop svc today site_url
                                                        window_indices st))
              = calls st ++ front ++ [denied])).
  { rewrite qp_window_loop_state. cbn [calls]. fold F. rewrite Hsplit.
    destruct (qp_processed_denied svc today site_url pre i post)
      as [Hp|Hp]; [now rewrite Hfetch | |].
    - rewrite Hp. exists (flat_map F pre). split; [apply incl_refl|].
      right. rewrite flat_map_app. cbn [flat_map]. subst F. cbn beta.
      rewrite Hfetch. cbn [snd]. now rewrite app_nil_r.
    - eexists. split; [|left; reflexivity].
      intros r Hr. apply in_flat_map in Hr. destruct Hr as (j & Hj & Hr).
      apply in_flat_map. exists j. split; [now apply Hp | assumption]. }
  destruct Hcalls as (front & Hfront & Hcalls).
  assert (Hfront' : forall r, In r front ->
                              r <> denied /\
                              exists j sj ej,
                                1 <= j < i /\
                                monthly_window today j = Some (sj, ej) /\
                                startDate r = strftime_ymd sj).
  { intros r Hr. apply (Hearly pre r (incl_refl pre)). now apply Hfront. }
  split; [|split].
  - exists front. split; assumption.
  - intros j sj ej Hj Hwj r Hr.
    assert (Hr' : In r (calls st) \/ In r front \/ r = denied).
    { destruct Hcalls as [Hc|Hc]; rewrite Hc in Hr;
        repeat (apply in_app_or in Hr; destruct Hr as [Hr|Hr]); auto.
      destruct Hr as [<-|[]]. auto. }
    destruct Hr' as [Hr'|[Hr'|Hr']]; [now left | |]; right; intros Heq.
    + destruct (Hfront' r Hr') as (_ & k & sk & ek & Hk & Hwk & Hstart).
      rewrite Hstart in Heq.
      assert (k = j); [|lia].
      eapply (window_start_inj today Hv Hy k j); try eassumption; lia.
    + subst r denied. cbn [startDate totals_request] in Heq.
      assert (i = j); [|lia].
      eapply (window_start_inj today Hv Hy i j); try eassumption; lia.
  - intros Hok rest. rewrite qp_site_loop_cons.
    destruct (qp_window_loop_finishes svc today site_url window_indices)
      with (st := st) as [st1 Hst1]; [|now rewrite Hst1].
    intros j Hj. rewrite Hsplit in Hj.
    destruct (qp_processed_denied svc today site_url pre i post)
      as [Hp|Hp]; [now rewrite Hfetch | |].
    + rewrite Hp in Hj. apply in_app_or in Hj. destruct Hj as [Hj|[<-|[]]].
      * apply Hok. now apply Hlt.
      * rewrite Hfetch. discriminate.
    + apply Hok. apply Hlt. now apply Hp.
Qed.

Lemma permission_denied_ends_the_site_witness :
  exists front,
    (calls (state_of (QueriesPages.window_loop
                        (denied_from "2024-02-01" sample_totals)
                        (mkdate 2024 3 15) "https://www.example.com/"
                        window_indices initial))
     = calls initial ++ front \/
     calls (state_of (QueriesPages.window_loop
                        (denied_from "2024-02-01" sample_totals)
                        (mkdate 2024 3 15) "https://www.example.com/"
                        window_indices initial))
     = calls initial ++ front
             ++ [totals_request "https://www.example.com/"
                                (strftime_ymd (mkdate 2024 2 1))
                                (strftime_ymd (mkdate 2024 2 29))]) /\
    forall r, In r front ->
              r <> totals_request "https://www.example.com/"
                                  (strftime_ymd (mkdate 2024 2 1))
                                  (strftime_ymd (mkdate 2024 2 29)) /\
              exists j sj ej,
                1 <= j < 1 /\
                monthly_window (mkdate 2024 3 15) j = Some (sj, ej) /\
                startDate r = strftime_ymd sj.
Proof.
  apply (permission_denied_ends_the_site
           (denied_from "2024-02-01" sample_totals) (mkdate 2024 3 15)
           "https://www.example.com/" 1 (mkdate 2024 2 1) (mkdate 2024 2 29)
           initial).
  - reflexivity.
  - unfold MINYEAR. simpl. lia.
  - lia.
  - vm_compute. reflexivity.
  - vm_compute. reflexivity.
Defined.

(** C4 as stated fails in [account-wide-analysis.py]: the query for
    February 2024 is answered 403, and the query for January 2024 of the
    same site is issued all the same, as are the fourteen after it. *)
Lemma account_wide_keeps_calling_counterexample :
  refusing_service 403
    (totals_request "https://www.example.com/" "2024-02-01" "2024-02-29")
  = HttpError 403 /\
  render_window (monthly_window (mkdate 2024 3 15) 1)
  = Some ("2024-02-01", "2024-02-29")%string /\
  render_window (monthly_window (mkdate 2024 3 15) 2)
  = Some ("2024-01-01", "2024-01-31")%string /\
  exists st,
    AccountWide.fetch_all (refusing_service 403) (mkdate 2024 3 15)
                          ["https://www.example.com/"%string]
    = Finished st /\
    List.length (calls st) = 16%nat /\
    nth_error (calls st) 0
    = Some (totals_request "https://www.example.com/"
                           "2024-02-01" "2024-02-29") /\
    nth_error (calls st) 1
    = Some (totals_request "https://www.example.com/"
                           "2024-01-01" "2024-01-31").
Proof.
  split; [reflexivity|]. split; [vm_compute; reflexivity|].
  split; [vm_compute; reflexivity|].
  eexists. split; [vm_compute; reflexivity|].
  split; [reflexivity|]. split; reflexivity.
Qed.

End PermissionDeniedClaims.

(** * Further properties of the code *)

Section PagedFetcherAnyService.
Import Api Wrapped WrappedMain.

Variables (svc : service) (site_url start_date end_date : string)
          (dims : list string) (row_limit : Z).

Lemma get_gsc_data_loop_offsets fuel :
  forall all_data start_row calls result calls',
    get_gsc_data_loop fuel svc site_url start_date end_date dims row_limit
                      all_data start_row calls = Some (result, calls') ->
    exists n,
      calls' = calls ++ map (fun k =>
                               mk_request site_url start_date end_date dims
                                          (Some row_limit)
                                          (Some (start_row + Z.of_nat k * row_limit)))
                            (seq 0 (S n)).
Proof.
  induction fuel as [|fuel IH]; intros all_data start_row calls result calls' H;
    [discriminate|].
  rewrite get_gsc_data_loop_step in H.
  assert (Hone : calls ++ [mk_request site_url start_date end_date dims
                                      (Some row_limit) (Some start_row)]
                 = calls ++ map (fun k =>
                                   mk_request site_url start_date end_date dims
                                              (Some row_limit)
                                              (Some (start_row
                                                     + Z.of_nat k * row_limit)))
                                (seq 0 1)).
  { cbn [seq map]. change (Z.of_nat 0) with 0.
    now rewrite Z.mul_0_l, Z.add_0_r. }
  destruct (svc _) as [[rows|]|status|].
  - destruct (Z.of_nat (List.length rows) <? row_limit).
    + inversion H; subst. exists 0%nat. exact Hone.
    + apply IH in H. destruct H as (n & ->). exists (S n).
      rewrite <- app_assoc. f_equal.
      change (seq 0 (S (S n))) with (0%nat :: seq 1 (S n)).
      rewrite <- seq_shift. cbn [map app]. rewrite map_map.
      change (Z.of_nat 0) with 0. rewrite Z.mul_0_l, Z.add_0_r.
      f_equal. apply map_ext. intros k. do 2 f_equal. lia.
  - inversion H; subst. exists 0%nat. exact Hone.
  - inversion H; subst. exists 0%nat. exact Hone.
  - inversion H; subst. exists 0%nat. exact Hone.
Qed.

Lemma get_gsc_data_loop_runs_on fuel :
  (forall request, exists rows,
        svc request = Response (Some rows) /\
        row_limit <= Z.of_nat (List.length rows)) ->
  forall all_data start_row calls,
    get_gsc_data_loop fuel svc site_url start_date end_date dims row_limit
                      all_data start_row calls = None.
Proof.
  intros Hfull. induction fuel as [|fuel IH]; intros all_data start_row calls;
    [reflexivity|].
  rewrite get_gsc_data_loop_step.
  destruct (Hfull (mk_request site_url start_date end_date dims
                              (Some row_limit) (Some start_row)))
    as (rows & -> & Hlen).
  apply Z.ltb_ge in Hlen. rewrite Hlen. apply IH.
Qed.

End PagedFetcherAnyService.

Section PagedFetcherExtras.
Import Api Wrapped WrappedMain.

(** X1. Whatever the service answers, the requests of one fetch differ
    only in their offset: the k-th request (from 0) asks for [row_limit]
    rows from row [k * row_limit] of the same site, dates and dimensions,
    and at least one request is made. *)
Theorem get_gsc_data_requests_step_by_row_limit :
  forall fuel svc site_url start_date end_date dims row_limit result calls,
    get_gsc_data fuel svc site_url start_date end_date dims row_limit
    = Some (result, calls) ->
    calls <> [] /\
    calls = map (fun k => mk_request site_url start_date end_date dims
                                     (Some row_limit)
                                     (Some (Z.of_nat k * row_limit)))
                (seq 0 (List.length calls)).
Proof.
  intros fuel svc site_url start_date end_date dims row_limit result calls H.
  apply get_gsc_data_loop_offsets in H. destruct H as (n & ->).
  cbn [app]. rewrite length_map, length_seq. split; [discriminate|].
  apply map_ext. intros k. now rewrite Z.add_0_l.
Qed.

Lemma get_gsc_data_requests_step_by_row_limit_witness :
  [mk_request "sc-domain:example.com" "2023-01-01" "2023-12-31" [] (Some 2)
              (Some 0);
   mk_request "sc-domain:example.com" "2023-01-01" "2023-12-31" [] (Some 2)
              (Some 2);
   mk_request "sc-domain:example.com" "2023-01-01" "2023-12-31" [] (Some 2)
              (Some 4)] <> [] /\
  [mk_request "sc-domain:example.com" "2023-01-01" "2023-12-31" [] (Some 2)
              (Some 0);
   mk_request "sc-domain:example.com" "2023-01-01" "2023-12-31" [] (Some 2)
              (Some 2);
   mk_request "sc-domain:example.com" "2023-01-01" "2023-12-31" [] (Some 2)
              (Some 4)]
  = map (fun k => mk_request "sc-domain:example.com" "2023-01-01" "2023-12-31"
                             [] (Some 2) (Some (Z.of_nat k * 2)))
        (seq 0 3).
Proof.
  apply (get_gsc_data_requests_step_by_row_limit
           3 (paged_source 2 sample_rows false)
           "sc-domain:example.com" "2023-01-01" "2023-12-31" [] 2
           (Some sample_rows)).
  vm_compute. reflexivity.
Defined.

(** X2. When a fetch returns a list, for any service, that list is the
    concatenation, in call order, of the rows of every response; every
    response but the last held at least [row_limit] rows, and the last
    held fewer or had no ['rows'] key. *)
Theorem get_gsc_data_concatenates_the_pages :
  forall fuel svc site_url start_date end_date dims row_limit rows calls,
    get_gsc_data fuel svc site_url start_date end_date dims row_limit
    = Some (Some rows, calls) ->
    rows = flat_map (fun r => response_rows (svc r)) calls /\
    exists earlier last,
      calls = earlier ++ [last] /\
      Forall (fun r => row_limit
                       <= Z.of_nat (List.length (response_rows (svc r))))
             earlier /\
      (svc last = Response None \/
       Z.of_nat (List.length (response_rows (svc last))) < row_limit).
Proof.
  intros fuel svc site_url start_date end_date dims row_limit rows calls H.
  apply get_gsc_data_loop_pages in H.
  destruct H as (earlier & last & -> & -> & Hfull & Hlast).
  cbn [app]. split; [reflexivity|]. now exists earlier, last.
Qed.

Lemma get_gsc_data_concatenates_the_pages_witness :
  sample_rows
  = flat_map (fun r => response_rows (paged_source 2 sample_rows false r))
             (map (fun k => mk_request "sc-domain:example.com" "2023-01-01"
                                       "2023-12-31" [] (Some 2)
                                       (Some (Z.of_nat k * 2)))
                  (seq 0 3)).
Proof.
  apply (get_gsc_data_concatenates_the_pages
           3 (paged_source 2 sample_rows false)
           "sc-domain:example.com" "2023-01-01" "2023-12-31" [] 2).
  vm_compute. reflexivity.
Defined.

(** X3. The loop has no bound of its own: against a service that answers
    every request with at least [row_limit] rows (as any does when
    [row_limit] is 0 or negative and rows are present), the fetch never
    returns, however many iterations it is given. *)
Theorem get_gsc_data_never_returns_on_full_pages :
  forall svc site_url start_date end_date dims row_limit,
    (forall request, exists rows,
          svc request = Response (Some rows) /\
          row_limit <= Z.of_nat (List.length rows)) ->
    forall fuel,
      get_gsc_data fuel svc site_url start_date end_date dims row_limit = None.
Proof.
  intros svc site_url start_date end_date dims row_limit Hfull fuel.
  now apply get_gsc_data_loop_runs_on.
Qed.

Lemma get_gsc_data_never_returns_on_full_pages_witness :
  get_gsc_data 1000 (steady_service sample_totals)
               "sc-domain:example.com" "2023-01-01" "2023-12-31" [] 1
  = None.
Proof.
  apply (get_gsc_data_never_returns_on_full_pages
           (steady_service sample_totals)).
  intros request. exists [sample_totals]. split; [reflexivity|]. simpl. lia.
Defined.

End PagedFetcherExtras.

Section YearlyFigures.
Import Wrapped WrappedMain.

Variable key : raw_row -> string.

Lemma add_to_group_sum k v groups :
  wrap64 (fold_right Z.add 0 (map snd (add_to_group k v groups)))
  = wrap64 (fold_right Z.add 0 (map snd groups) + v).
Proof.
  induction groups as [|[k' v'] tl IH]; cbn [add_to_group map snd fold_right].
  - unfold add_int64. rewrite wrap64_add_l. f_equal. lia.
  - destruct (String.compare k k'); cbn [map snd fold_right].
    + unfold add_int64. rewrite wrap64_add_l. f_equal. lia.
    + unfold add_int64. rewrite wrap64_add_l. f_equal. lia.
    + rewrite <- wrap64_add_r, IH, wrap64_add_r. f_equal. lia.
Qed.

Lemma exact_clicks_snoc (rows : list raw_row) r :
  fold_right Z.add 0 (map r_clicks (rows ++ [r]))
  = fold_right Z.add 0 (map r_clicks rows) + r_clicks r.
Proof.
  rewrite map_app, fold_right_app. cbn [map fold_right].
  generalize (map r_clicks rows). intros l.
  induction l as [|x l IH]; cbn [fold_right]; lia.
Qed.

Lemma total_clicks_wrap rows :
  total_clicks rows = wrap64 (fold_right Z.add 0 (map r_clicks rows)).
Proof. unfold total_clicks. apply sum_int64_wrap. Qed.

(** Modulo [2^64] the sums of the groups add up to the sum of the
    column. *)
Lemma groupby_sum_total rows :
  wrap64 (fold_right Z.add 0 (map snd (groupby_sum key rows)))
  = total_clicks rows.
Proof.
  rewrite total_clicks_wrap.
  induction rows as [|r rows IH] using rev_ind; [reflexivity|].
  rewrite groupby_sum_snoc, add_to_group_sum, exact_clicks_snoc.
  now rewrite <- wrap64_add_l, IH, wrap64_add_l.
Qed.

Lemma add_to_group_magnitude k v (groups : list (string * Z)) :
  fold_right Z.add 0 (map (fun g => Z.abs (snd g)) (add_to_group k v groups))
  <= fold_right Z.add 0 (map (fun g => Z.abs (snd g)) groups) + Z.abs v.
Proof.
  induction groups as [|[k' v'] tl IH]; cbn [add_to_group map snd fold_right].
  - unfold add_int64. pose proof (wrap64_abs (0 + v)). cbn [Z.add] in *. lia.
  - destruct (String.compare k k'); cbn [map snd fold_right].
    + unfold add_int64. pose proof (wrap64_abs (v' + v)). lia.
    + unfold add_int64. pose proof (wrap64_abs (0 + v)). cbn [Z.add] in *. lia.
    + lia.
Qed.

Lemma groupby_sum_magnitude rows :
  fold_right Z.add 0 (map (fun g => Z.abs (snd g)) (groupby_sum key rows))
  <= magnitude rows.
Proof.
  induction rows as [|r rows IH] using rev_ind; [unfold magnitude; cbn; lia|].
  rewrite groupby_sum_snoc.
  pose proof (add_to_group_magnitude (key r) (r_clicks r)
                                     (groupby_sum key rows)) as H.
  assert (Hm : magnitude (rows ++ [r]) = magnitude rows + Z.abs (r_clicks r)).
  { unfold magnitude. rewrite map_app, fold_right_app. cbn [map fold_right].
    generalize (map (fun r0 => Z.abs (r_clicks r0)) rows). intros l.
    induction l as [|x l IHl]; cbn [fold_right]; lia. }
  lia.
Qed.

Lemma abs_sum_le {A : Type} (f : A -> Z) (l : list A) :
  Z.abs (fold_right Z.add 0 (map f l))
  <= fold_right Z.add 0 (map (fun x => Z.abs (f x)) l).
Proof. induction l as [|x l IH]; cbn [map fold_right]; lia. Qed.

(** Below [2^63] of magnitude the [int64] sum of the column is the sum
    of its values. *)
Lemma total_clicks_exact rows :
  magnitude rows < 2 ^ 63 ->
  total_clicks rows = fold_right Z.add 0 (map r_clicks rows).
Proof.
  intros Hm. rewrite total_clicks_wrap. apply wrap64_small.
  pose proof (abs_sum_le r_clicks rows) as H. fold (magnitude rows) in H. lia.
Qed.

Lemma total_for_nonneg k rows :
  (forall r, In r rows -> 0 <= r_clicks r) -> 0 <= total_for key k rows.
Proof.
  intros Hpos. unfold total_for.
  induction rows as [|r rows IH]; cbn [filter map fold_right]; [lia|].
  assert (0 <= r_clicks r) by (apply Hpos; now left).
  assert (0 <= fold_right Z.add 0
                 (map r_clicks (filter (fun r0 => String.eqb (key r0) k) rows)))
    by (apply IH; intros; apply Hpos; now right).
  destruct (String.eqb (key r) k); cbn [map fold_right]; lia.
Qed.

Lemma total_for_le_sum k rows :
  (forall r, In r rows -> 0 <= r_clicks r) ->
  total_for key k rows <= fold_right Z.add 0 (map r_clicks rows).
Proof.
  intros Hpos. unfold total_for.
  induction rows as [|r rows IH]; cbn [filter map fold_right]; [lia|].
  assert (0 <= r_clicks r) by (apply Hpos; now left).
  assert (fold_right Z.add 0
            (map r_clicks (filter (fun r0 => String.eqb (key r0) k) rows))
          <= fold_right Z.add 0 (map r_clicks rows))
    by (apply IH; intros; apply Hpos; now right).
  destruct (String.eqb (key r) k); cbn [map fold_right]; lia.
Qed.

Lemma sorted_keys_nodup (groups : list (string * Z)) :
  StronglySorted str_lt (map fst groups) -> NoDup (map fst groups).
Proof.
  generalize (map fst groups). intros l Hs.
  induction Hs as [|a l Hs IH Hall]; constructor; [|assumption].
  intros Hin. rewrite Forall_forall in Hall.
  apply (str_lt_irrefl a). now apply Hall.
Qed.

End YearlyFigures.

Section YearlyFiguresExtras.
Import Wrapped WrappedMain.

(** X4. Grouping loses and invents no click.  For any grouping column,
    as long as the absolute click counts add up to less than [2^63], the
    sums of the groups add up to the total clicks of the year, which is
    the sum of the column; and whatever the [int64] counts are, they do
    so modulo [2^64], the total being the wrapped sum. *)
Theorem group_totals_add_up_to_total_clicks :
  forall key rows,
    (magnitude rows < 2 ^ 63 ->
     fold_right Z.add 0 (map snd (groupby_sum key rows)) = total_clicks rows /\
     total_clicks rows = fold_right Z.add 0 (map r_clicks rows)) /\
    (Forall (fun r => - 2 ^ 63 <= r_clicks r < 2 ^ 63) rows ->
     wrap64 (fold_right Z.add 0 (map snd (groupby_sum key rows)))
     = total_clicks rows).
Proof.
  intros key rows. split.
  - intros Hm. split; [|now apply total_clicks_exact].
    rewrite <- (groupby_sum_total key rows). symmetry. apply wrap64_small.
    pose proof (abs_sum_le snd (groupby_sum key rows)).
    pose proof (groupby_sum_magnitude key rows). lia.
  - intros _. apply groupby_sum_total.
Qed.

Lemma group_totals_add_up_to_total_clicks_witness :
  fold_right Z.add 0 (map snd (groupby_sum r_page scenario_rows))
  = total_clicks scenario_rows /\
  total_clicks scenario_rows = fold_right Z.add 0 (map r_clicks scenario_rows).
Proof.
  apply (proj1 (group_totals_add_up_to_total_clicks r_page scenario_rows)).
  reflexivity.
Defined.

(** X5. When no row carries a negative click count and the counts add
    up to less than [2^63], the clicks reported for the top page (or
    query) lie between 0 and the total clicks. *)
Theorem top_clicks_within_total :
  forall key rows,
    rows <> [] ->
    (forall r, In r rows -> 0 <= r_clicks r) ->
    magnitude rows < 2 ^ 63 ->
    0 <= top_clicks key rows <= total_clicks rows.
Proof.
  intros key rows Hne Hpos Hm.
  unfold top_clicks. destruct (top_by key rows) as [k c] eqn:Etop.
  destruct (top_by_greatest_sum key rows k c Hne Etop) as (_ & Hc & _).
  rewrite (total_for_exact key k rows Hm) in Hc. subst c. cbn [snd].
  rewrite (total_clicks_exact rows Hm).
  split; [now apply total_for_nonneg | now apply total_for_le_sum].
Qed.

Lemma top_clicks_within_total_witness :
  0 <= top_clicks r_page scenario_rows <= total_clicks scenario_rows.
Proof.
  apply top_clicks_within_total.
  - discriminate.
  - intros r Hr. cbn in Hr.
    repeat (destruct Hr as [<-|Hr]; [cbn; lia|]). contradiction.
  - reflexivity.
Defined.

(** X6. The count of distinct pages (or queries) reported equals the
    number of groups the top-page computation works on, and it is at most
    the number of rows. *)
Theorem nunique_counts_the_groups :
  forall key rows,
    nunique key rows = List.length (groupby_sum key rows) /\
    (nunique key rows <= List.length rows)%nat.
Proof.
  intros key rows.
  destruct (groupby_sum_spec key rows) as (Hs & Hk & _).
  pose proof (sorted_keys_nodup _ Hs) as Hnd.
  pose proof (NoDup_nodup string_dec (map key rows)) as Hnd'.
  unfold nunique. split.
  - rewrite <- (length_map fst (groupby_sum key rows)).
    apply Nat.le_antisymm; apply NoDup_incl_length; try assumption.
    + intros k Hin. apply Hk. now apply nodup_In in Hin.
    + intros k Hin. apply nodup_In. now apply Hk.
  - rewrite <- (length_map key rows).
    apply NoDup_incl_length; [assumption|].
    intros k Hin. now apply nodup_In in Hin.
Qed.

End YearlyFiguresExtras.

Section FileNameExtras.
Import PyDate Windows FileNames.

(** X7. The month in the names of the CSV and HTML files is the month of
    the newest rows: it equals the ['%Y-%m'] label that window 1 gives its
    row, for every run date from year 3 on. *)
Theorem file_name_month_is_first_window :
  forall today,
    valid_date today -> MINYEAR + 2 <= year today ->
    exists start_of_month end_of_month,
      monthly_window today 1 = Some (start_of_month, end_of_month) /\
      most_recent_month today = Some (strftime_ym start_of_month).
Proof.
  intros today Hv Hy.
  pose proof (window_defined today Hv Hy 1 ltac:(lia)) as Hw.
  eexists. eexists. split; [exact Hw|].
  pose proof Hv as Hv'. apply valid_date_iff in Hv'.
  destruct Hv' as (Hyr & Hm & Hd). unfold MINYEAR, MAXYEAR in *.
  unfold most_recent_month, replace_day.
  pose proof (days_in_month_bounds (year today) (month today)) as Hb.
  rewrite make_date_valid
    by (apply valid_date_iff; cbn [year month day]; unfold MINYEAR, MAXYEAR; lia).
  cbn [bind date_sub_days].
  assert (Hfirst : mkdate (year today) (month today) 1
                   = first_of_month (month_index today)).
  { unfold first_of_month, month_index. f_equal.
    - apply Z.div_unique with (r := month today - 1); lia.
    - assert (month today - 1 = (12 * year today + (month today - 1)) mod 12)
        by (apply Z.mod_unique with (q := year today); lia).
      lia. }
  rewrite Hfirst, yesterday_first_of_month
    by (unfold MINYEAR, month_index; lia).
  cbn [bind]. reflexivity.
Qed.

Lemma file_name_month_is_first_window_witness :
  exists start_of_month end_of_month,
    monthly_window (mkdate 2024 1 9) 1 = Some (start_of_month, end_of_month) /\
    most_recent_month (mkdate 2024 1 9) = Some (strftime_ym start_of_month).
Proof.
  apply file_name_month_is_first_window.
  - reflexivity.
  - unfold MINYEAR. simpl. lia.
Defined.

End FileNameExtras.

Section KeyOrder.
Import Wrapped QueriesPages Report.

Lemma compare_refl a : String.compare a a = Eq.
Proof.
  destruct (String.compare a a) eqn:E; [reflexivity| |].
  - exfalso. now apply (str_lt_irrefl a).
  - exfalso. apply (str_lt_irrefl a). now apply compare_gt_lt.
Qed.

Lemma compare_lt_trans a b c :
  String.compare a b = Lt -> String.compare b c = Lt ->
  String.compare a c = Lt.
Proof. apply str_lt_trans. Qed.

Lemma str_leb_trans a b c :
  String.leb a b = true -> String.leb b c = true -> String.leb a c = true.
Proof.
  unfold String.leb.
  destruct (String.compare a b) eqn:Eab; try discriminate; intros _;
    destruct (String.compare b c) eqn:Ebc; try discriminate; intros _.
  - apply String.compare_eq_iff in Eab, Ebc. subst. now rewrite compare_refl.
  - apply String.compare_eq_iff in Eab. subst. now rewrite Ebc.
  - apply String.compare_eq_iff in Ebc. subst. now rewrite Eab.
  - now rewrite (compare_lt_trans a b c Eab Ebc).
Qed.

Lemma key_leb_root a b :
  key_leb a b = true -> String.leb (fst (fst a)) (fst (fst b)) = true.
Proof.
  unfold key_leb, key_compare, String.leb.
  destruct (String.compare (fst (fst a)) (fst (fst b))); auto.
Qed.

Lemma key_leb_class a b :
  key_leb a b = true -> fst (fst a) = fst (fst b) ->
  snd (fst a) <= snd (fst b).
Proof.
  unfold key_leb, key_compare. intros H Heq.
  rewrite Heq, compare_refl in H.
  destruct (Z.compare_spec (snd (fst a)) (snd (fst b))); try lia; discriminate.
Qed.

Lemma key_leb_total a b : key_leb a b = false -> key_leb b a = true.
Proof.
  unfold key_leb, key_compare.
  rewrite (String.compare_antisym (fst (fst b)) (fst (fst a))).
  rewrite (Z.compare_antisym (snd (fst a)) (snd (fst b))).
  rewrite (String.compare_antisym (snd b) (snd a)).
  destruct (String.compare (fst (fst a)) (fst (fst b)));
    destruct (Z.compare (snd (fst a)) (snd (fst b)));
    destruct (String.compare (snd a) (snd b));
    cbn [CompOpp]; intros H; try discriminate H; reflexivity.
Qed.

Lemma key_leb_spec a b :
  key_leb a b = true <->
  str_lt (fst (fst a)) (fst (fst b)) \/
  (fst (fst a) = fst (fst b) /\
   (snd (fst a) < snd (fst b) \/
    (snd (fst a) = snd (fst b) /\ String.leb (snd a) (snd b) = true))).
Proof.
  unfold key_leb, key_compare, str_lt, String.leb.
  destruct (String.compare (fst (fst a)) (fst (fst b))) eqn:R.
  - apply String.compare_eq_iff in R.
    destruct (Z.compare_spec (snd (fst a)) (snd (fst b))) as [Ho|Ho|Ho].
    + destruct (String.compare (snd a) (snd b)); split; intros H;
        try discriminate; try (right; split; [assumption|right; now split]);
        try reflexivity.
      destruct H as [H|(_ & [H|(_ & H)])]; try discriminate; lia.
    + split; [intros _; right; split; [assumption|now left] | reflexivity].
    + split; [discriminate|].
      intros [H|(_ & [H|(H & _)])]; try discriminate; lia.
  - split; [intros _; now left | reflexivity].
  - split; [discriminate|]. intros [H|(H & _)]; [discriminate|].
    rewrite H, compare_refl in R. discriminate.
Qed.

Lemma key_leb_trans a b c :
  key_leb a b = true -> key_leb b c = true -> key_leb a c = true.
Proof.
  rewrite !key_leb_spec.
  intros [Hab|(Rab & Hab)] [Hbc|(Rbc & Hbc)].
  - left. eapply str_lt_trans; eassumption.
  - left. now rewrite <- Rbc.
  - left. now rewrite Rab.
  - right. split; [congruence|].
    destruct Hab as [Hab|(Oab & Sab)], Hbc as [Hbc|(Obc & Sbc)].
    + left. lia.
    + left. lia.
    + left. lia.
    + right. split; [lia|]. eapply str_leb_trans; eassumption.
Qed.

End KeyOrder.

Section SortedSites.
Import PyStr Wrapped QueriesPages Report.

Lemma insert_site_perm site sorted :
  Permutation (insert_site site sorted) (site :: sorted).
Proof.
  induction sorted as [|s tl IH]; cbn [insert_site]; [reflexivity|].
  destruct (key_leb (get_sort_key site) (get_sort_key s)); [reflexivity|].
  rewrite IH. apply perm_swap.
Qed.

Lemma sort_sites_perm sites : Permutation (sort_sites sites) sites.
Proof.
  induction sites as [|s tl IH]; cbn [sort_sites fold_right]; [reflexivity|].
  fold (sort_sites tl). rewrite insert_site_perm. now constructor.
Qed.

Lemma insert_site_sorted site sorted :
  StronglySorted (fun a b => key_leb (get_sort_key a) (get_sort_key b) = true)
                 sorted ->
  StronglySorted (fun a b => key_leb (get_sort_key a) (get_sort_key b) = true)
                 (insert_site site sorted).
Proof.
  induction sorted as [|s tl IH]; cbn [insert_site]; intros Hs.
  - repeat constructor.
  - apply StronglySorted_inv in Hs. destruct Hs as [Hs Hall].
    destruct (key_leb (get_sort_key site) (get_sort_key s)) eqn:E.
    + constructor; [constructor; assumption|].
      constructor; [exact E|].
      eapply Forall_impl; [|exact Hall]. cbn beta. intros a Ha.
      eapply key_leb_trans; eassumption.
    + constructor; [now apply IH|].
      eapply Permutation_Forall; [symmetry; apply insert_site_perm|].
      constructor; [now apply key_leb_total | assumption].
Qed.

Lemma sort_sites_sorted sites :
  StronglySorted (fun a b => key_leb (get_sort_key a) (get_sort_key b) = true)
                 (sort_sites sites).
Proof.
  induction sites as [|s tl IH]; cbn [sort_sites fold_right]; [constructor|].
  now apply insert_site_sorted.
Qed.

Lemma sorted_weaken {A : Type} (R R' : A -> A -> Prop) l :
  (forall a b, R a b -> R' a b) -> StronglySorted R l -> StronglySorted R' l.
Proof.
  intros Himp Hs. induction Hs as [|a l Hs IH Hall]; constructor;
    [assumption|].
  eapply Forall_impl; [|exact Hall]. intros b. apply Himp.
Qed.

Lemma sorted_pair {A : Type} (R : A -> A -> Prop) l1 a l2 b l3 :
  StronglySorted R (l1 ++ a :: l2 ++ b :: l3) ->
  R a b /\ Forall (R a) l2 /\ Forall (fun c => R c b) l2.
Proof.
  induction l1 as [|x l1 IH]; cbn [app]; intros Hs.
  - apply StronglySorted_inv in Hs. destruct Hs as [Hs Hall].
    apply Forall_app in Hall. destruct Hall as [H2 Hb].
    apply Forall_cons_iff in Hb. destruct Hb as [Hab _].
    repeat split; try assumption.
    clear H2 Hab. induction l2 as [|c l2 IH2]; [constructor|].
    cbn [app] in Hs. apply StronglySorted_inv in Hs. destruct Hs as [Hs Hc].
    constructor; [|now apply IH2].
    apply Forall_app in Hc. destruct Hc as [_ Hc].
    now apply Forall_cons_iff in Hc.
  - apply StronglySorted_inv in Hs. destruct Hs as [Hs _]. now apply IH.
Qed.

End SortedSites.

Section SortedSitesExtras.
Import PyStr Wrapped QueriesPages Report.

(** X8. Sorting the sites by their key loses and duplicates none, and
    lays the properties of one root domain side by side: between two
    sites of the same root domain there are only sites of that root
    domain, and of two such sites the earlier has the lower class, so a
    root's domain property comes before its www property and that before
    its other subdomains. *)
Theorem sort_sites_groups_root_domains :
  forall sites,
    Permutation (sort_sites sites) sites /\
    forall l1 a l2 b l3,
      sort_sites sites = (l1 ++ a :: l2 ++ b :: l3)%list ->
      key_leb (get_sort_key a) (get_sort_key b) = true /\
      (fst (fst (get_sort_key a)) = fst (fst (get_sort_key b)) ->
       snd (fst (get_sort_key a)) <= snd (fst (get_sort_key b)) /\
       forall c, In c l2 ->
                 fst (fst (get_sort_key c)) = fst (fst (get_sort_key a))).
Proof.
  intros sites. split; [apply sort_sites_perm|].
  intros l1 a l2 b l3 Hsplit.
  pose proof (sort_sites_sorted sites) as Hs. rewrite Hsplit in Hs.
  apply sorted_pair in Hs. destruct Hs as (Hab & Hac & Hcb).
  split; [exact Hab|]. intros Hroot.
  split; [now apply key_leb_class|].
  intros c Hc. rewrite Forall_forall in Hac, Hcb.
  apply String.leb_antisym.
  - rewrite Hroot. apply key_leb_root. now apply Hcb.
  - apply key_leb_root. now apply Hac.
Qed.

Lemma sort_sites_groups_root_domains_witness :
  key_leb (get_sort_key "sc-domain:example.co.uk")
          (get_sort_key "https://blog.example.co.uk/") = true /\
  (fst (fst (get_sort_key "sc-domain:example.co.uk"))
   = fst (fst (get_sort_key "https://blog.example.co.uk/")) ->
   snd (fst (get_sort_key "sc-domain:example.co.uk"))
   <= snd (fst (get_sort_key "https://blog.example.co.uk/")) /\
   forall c, In c ["https://www.example.co.uk/"%string] ->
             fst (fst (get_sort_key c))
             = fst (fst (get_sort_key "sc-domain:example.co.uk"))).
Proof.
  apply (proj2 (sort_sites_groups_root_domains
                  ["https://blog.example.co.uk/"; "https://www.example.co.uk/";
                   "sc-domain:example.co.uk"]%string)
               [] "sc-domain:example.co.uk"%string
               ["https://www.example.co.uk/"%string]
               "https://blog.example.co.uk/"%string []).
  vm_compute. reflexivity.
Defined.

End SortedSitesExtras.

Section ReportIndex.
Import PyStr Wrapped QueriesPages Report.

Lemma group_roots_app a b :
  group_roots (a ++ b) = (group_roots a ++ group_roots b)%list.
Proof.
  induction a as [|[r| |s an ind] a IH]; cbn [app group_roots];
    [reflexivity | now rewrite IH | assumption | assumption].
Qed.

Lemma linked_sites_app a b :
  linked_sites (a ++ b) = (linked_sites a ++ linked_sites b)%list.
Proof.
  induction a as [|[r| |s an ind] a IH]; cbn [app linked_sites];
    [reflexivity | assumption | assumption | now rewrite IH].
Qed.

Lemma index_entries_cons site rest current :
  index_entries (site :: rest) current
  = (let root_domain := fst (fst (get_sort_key site)) in
     let changed := match current with
                    | Some c => negb (String.eqb root_domain c)
                    | None => true
                    end in
     (if changed
      then match current with Some _ => [GroupClose] | None => [] end
             ++ [GroupOpen root_domain]
      else [])
       ++ [SiteLink site (anchor_of site)
                    (negb ((snd (fst (get_sort_key site)) =? 0)
                           || (snd (fst (get_sort_key site)) =? 1)))]
       ++ index_entries rest (if changed then Some root_domain else current))%list.
Proof. reflexivity. Qed.

Lemma index_entries_nested sites :
  forall current,
    well_nested (match current with Some _ => true | None => false end)
                (index_entries sites current) = true.
Proof.
  induction sites as [|site rest IH]; intros current.
  - destruct current; reflexivity.
  - rewrite index_entries_cons. cbv zeta.
    destruct current as [c|].
    + destruct (String.eqb (fst (fst (get_sort_key site))) c);
        cbn [negb app well_nested andb].
      * apply (IH (Some c)).
      * apply (IH (Some (fst (fst (get_sort_key site))))).
    + cbn [app well_nested andb negb].
      apply (IH (Some (fst (fst (get_sort_key site))))).
Qed.

Lemma index_entries_links sites :
  forall current, linked_sites (index_entries sites current) = sites.
Proof.
  induction sites as [|site rest IH]; intros current.
  - destruct current; reflexivity.
  - rewrite index_entries_cons. cbv zeta.
    rewrite !linked_sites_app. cbn [linked_sites app].
    rewrite IH.
    destruct current as [c|];
      [destruct (negb (String.eqb (fst (fst (get_sort_key site))) c))|];
      reflexivity.
Qed.

Lemma leb_neq_lt a b : String.leb a b = true -> a <> b -> str_lt a b.
Proof.
  unfold String.leb, str_lt. intros Hle Hne.
  destruct (String.compare a b) eqn:E; [|reflexivity|discriminate].
  apply String.compare_eq_iff in E. contradiction.
Qed.

(** On sites whose root domains ascend, the roots of the groups opened
    ascend strictly, starting above the group that is open. *)
Lemma index_groups_ascend sites :
  forall current,
    StronglySorted (fun a b => String.leb (fst (fst (get_sort_key a)))
                                          (fst (fst (get_sort_key b))) = true)
                   sites ->
    (forall c, current = Some c ->
               Forall (fun s => String.leb c (fst (fst (get_sort_key s))) = true)
                      sites) ->
    StronglySorted str_lt (group_roots (index_entries sites current)) /\
    (forall c, current = Some c ->
               Forall (str_lt c) (group_roots (index_entries sites current))).
Proof.
  induction sites as [|site rest IH]; intros current Hs Hcur.
  - destruct current; cbn; split; try constructor; intros; constructor.
  - rewrite index_entries_cons. cbv zeta.
    apply StronglySorted_inv in Hs. destruct Hs as [Hs Hall].
    set (r := fst (fst (get_sort_key site))) in *.
    rewrite !group_roots_app. cbn [group_roots app].
    destruct current as [c|].
    + specialize (Hcur c eq_refl).
      apply Forall_cons_iff in Hcur. destruct Hcur as [Hcr Hrest].
      destruct (String.eqb_spec r c) as [->|Hne]; cbn [negb].
      * cbn [group_roots app].
        destruct (IH (Some c) Hs) as [H1 H2].
        { intros c' Hc'. inversion Hc'; subst. exact Hrest. }
        split; [exact H1|]. intros c' Hc'. inversion Hc'; subst.
        now apply H2.
      * rewrite group_roots_app. cbn [group_roots app].
        destruct (IH (Some r) Hs) as [H1 H2].
        { intros c' Hc'. inversion Hc'; subst. exact Hall. }
        specialize (H2 r eq_refl).
        assert (Hlt : str_lt c r)
          by (apply leb_neq_lt; [assumption | congruence]).
        split; [constructor; assumption|].
        intros c' Hc'. inversion Hc'; subst.
        constructor; [assumption|].
        eapply Forall_impl; [|exact H2]. intros x Hx.
        eapply str_lt_trans; eassumption.
    + cbn [group_roots app].
      destruct (IH (Some r) Hs) as [H1 H2].
      { intros c' Hc'. inversion Hc'; subst. exact Hall. }
      split; [constructor; [assumption | now apply H2]|].
      intros c' Hc'. discriminate.
Qed.

Lemma strictly_sorted_nodup l : StronglySorted str_lt l -> NoDup l.
Proof.
  intros Hs. induction Hs as [|a l Hs IH Hall]; constructor; [|assumption].
  intros Hin. rewrite Forall_forall in Hall.
  apply (str_lt_irrefl a). now apply Hall.
Qed.

End ReportIndex.

Section ReportIndexExtras.
Import PyStr Wrapped QueriesPages Report.

Lemma index_groups_from_sites sites :
  forall current r,
    In r (group_roots (index_entries sites current)) ->
    exists s, In s sites /\ fst (fst (get_sort_key s)) = r.
Proof.
  induction sites as [|site rest IH]; intros current r Hr.
  - destruct current; contradiction.
  - rewrite index_entries_cons in Hr. cbv zeta in Hr.
    rewrite !group_roots_app in Hr. cbn [group_roots app] in Hr.
    apply in_app_or in Hr. destruct Hr as [Hr|Hr].
    + exists site. split; [now left|].
      destruct current as [c|];
        [destruct (negb (String.eqb (fst (fst (get_sort_key site))) c))|];
        cbn in Hr; intuition.
    + apply IH in Hr. destruct Hr as (s & Hs & Hroot).
      exists s. split; [now right | assumption].
Qed.

Lemma index_groups_cover_sites sites :
  forall current s,
    In s sites ->
    In (fst (fst (get_sort_key s))) (group_roots (index_entries sites current))
    \/ current = Some (fst (fst (get_sort_key s))).
Proof.
  induction sites as [|site rest IH]; intros current s Hs; [contradiction|].
  rewrite index_entries_cons. cbv zeta.
  rewrite !group_roots_app. cbn [group_roots app].
  set (r := fst (fst (get_sort_key site))).
  destruct Hs as [->|Hs].
  - fold r. destruct current as [c|].
    + destruct (String.eqb_spec r c) as [->|Hne]; cbn [negb].
      * now right.
      * left. apply in_or_app. left. cbn. auto.
    + left. now left.
  - destruct current as [c|].
    + destruct (String.eqb_spec r c) as [->|Hne]; cbn [negb].
      * destruct (IH (Some c) s Hs) as [H|H]; [left | now right].
        cbn [group_roots app]. exact H.
      * left. apply in_or_app.
        destruct (IH (Some r) s Hs) as [H|H]; [now right|].
        left. inversion H. cbn. auto.
    + left. cbn [group_roots app].
      destruct (IH (Some r) s Hs) as [H|H]; [now right|].
      left. now inversion H.
Qed.

(** X9. For any list of sites, sorted or not, the pieces of the index are
    well nested: a group is opened only outside a group, every link lies
    inside a group, the last group is closed; and the links are the sites
    given, each once, in their order. *)
Theorem index_is_well_nested :
  forall sites,
    well_nested false (index_entries sites None) = true /\
    linked_sites (index_entries sites None) = sites.
Proof.
  intros sites. split.
  - apply (index_entries_nested sites None).
  - apply index_entries_links.
Qed.

(** X10. On the sorted list of sites the index opens exactly one group
    per root domain: no root domain heads two groups, and the group heads
    are the root domains of the sites. *)
Theorem sorted_index_has_one_group_per_root :
  forall sites,
    NoDup (group_roots (index_entries (sort_sites sites) None)) /\
    forall r,
      In r (group_roots (index_entries (sort_sites sites) None)) <->
      exists s, In s sites /\ fst (fst (get_sort_key s)) = r.
Proof.
  intros sites. split.
  - apply strictly_sorted_nodup.
    apply (index_groups_ascend (sort_sites sites) None).
    + eapply sorted_weaken; [|apply sort_sites_sorted].
      intros a b. apply key_leb_root.
    + intros c Hc. discriminate.
  - intros r. split.
    + intros Hr. apply index_groups_from_sites in Hr.
      destruct Hr as (s & Hs & Hroot). exists s. split; [|assumption].
      eapply Permutation_in; [apply sort_sites_perm | assumption].
    + intros (s & Hs & <-).
      destruct (index_groups_cover_sites (sort_sites sites) None s)
        as [H|H]; [| assumption | discriminate].
      eapply Permutation_in; [symmetry; apply sort_sites_perm | assumption].
Qed.

End ReportIndexExtras.

Section ReplacedCharacters.
Import PyStr Report Paths.

Lemma forall_chars_app p a b :
  forall_chars p (a ++ b) = forall_chars p a && forall_chars p b.
Proof.
  induction a as [|c a IH]; cbn [String.append forall_chars]; [reflexivity|].
  now rewrite IH, andb_assoc.
Qed.

Lemma forall_chars_impl (p q : ascii -> bool) s :
  (forall c, p c = true -> q c = true) ->
  forall_chars p s = true -> forall_chars q s = true.
Proof.
  intros Himp. induction s as [|c s IH]; cbn [forall_chars]; [reflexivity|].
  rewrite !andb_true_iff. intros [Hc Hs]. split; [now apply Himp | now apply IH].
Qed.

(** Replacing a single character everywhere: what comes out holds the
    characters of the replacement and those of the input other than the
    replaced one. *)
Lemma replace_char_forall (p : ascii -> bool) c new s :
  forall_chars p new = true ->
  forall_chars (fun a => Ascii.eqb a c || p a) s = true ->
  forall_chars p (replace s (String c EmptyString) new) = true.
Proof.
  intros Hnew. unfold replace.
  induction s as [|a s IH]; cbn [replace_from forall_chars]; [reflexivity|].
  rewrite andb_true_iff. intros [Ha Hs].
  cbn [String.prefix String.length Nat.pred].
  destruct (ascii_dec c a) as [->|Hne].
  - assert (Hp : String.prefix EmptyString s = true) by (destruct s; reflexivity).
    rewrite Hp, forall_chars_app, Hnew. cbn [andb]. now apply IH.
  - cbn [forall_chars]. rewrite (IH Hs), andb_true_r.
    apply orb_true_iff in Ha. destruct Ha as [Ha|Ha]; [|assumption].
    apply Ascii.eqb_eq in Ha. congruence.
Qed.

Lemma forall_chars_total (p : ascii -> bool) s :
  (forall c, p c = true) -> forall_chars p s = true.
Proof.
  intros Hp. induction s as [|c s IH]; cbn [forall_chars]; [reflexivity|].
  now rewrite Hp, IH.
Qed.

End ReplacedCharacters.

Section ReplacedCharactersExtras.
Import PyStr Report Paths.

(** X11. Whatever the site identifier, its anchor in the multi-site
    report holds no colon, no slash and no dot. *)
Theorem anchor_has_no_separator :
  forall site, forall_chars anchor_char (anchor_of site) = true.
Proof.
  intros site. unfold anchor_of.
  set (s0 := replace (replace site "https://" "") "http://" "").
  apply replace_char_forall; [reflexivity|].
  apply (forall_chars_impl
           (fun a => negb (Ascii.eqb a ":" || Ascii.eqb a "/"))).
  { intros c. unfold anchor_char.
    destruct (Ascii.eqb c "."), (Ascii.eqb c ":"), (Ascii.eqb c "/");
      cbn; auto. }
  apply replace_char_forall; [reflexivity|].
  apply (forall_chars_impl (fun a => negb (Ascii.eqb a ":"))).
  { intros c. destruct (Ascii.eqb c "/"), (Ascii.eqb c ":"); cbn; auto. }
  apply replace_char_forall; [reflexivity|].
  apply forall_chars_total. intros c. destruct (Ascii.eqb c ":"); reflexivity.
Qed.

(** X12. Whatever the site identifier, the part of the file names that
    stands for the site holds no dot, so that the only dot of a file name
    is the one before its extension when the month or year has none. *)
Theorem host_for_filename_has_no_dot :
  forall site_url, forall_chars not_dot (host_for_filename site_url) = true.
Proof.
  intros site_url. unfold host_for_filename.
  apply replace_char_forall; [reflexivity|].
  apply forall_chars_total. intros c. unfold not_dot.
  destruct (Ascii.eqb c "."); reflexivity.
Qed.

End ReplacedCharactersExtras.

Section SharedOutputNames.
Import PyStr Paths.

Lemma substring_all s : String.substring 0 (String.length s) s = s.
Proof.
  induction s as [|c s IH]; cbn [String.length String.substring];
    [reflexivity | now rewrite IH].
Qed.

Lemma substring_skip p m s :
  String.substring (String.length p) m (p ++ s) = String.substring 0 m s.
Proof.
  induction p as [|c p IH]; cbn [String.length String.append String.substring].
  - reflexivity.
  - destruct m; apply IH.
Qed.

Lemma length_append p s :
  String.length (p ++ s) = (String.length p + String.length s)%nat.
Proof.
  induction p as [|c p IH]; cbn [String.length String.append]; [reflexivity|].
  now rewrite IH.
Qed.

Lemma drop_app p s : drop (String.length p) (p ++ s) = s.
Proof.
  unfold drop. rewrite length_append.
  replace (String.length p + String.length s - String.length p)%nat
    with (String.length s) by lia.
  rewrite substring_skip. apply substring_all.
Qed.

Lemma until_delim_host h t :
  forall_chars host_char h = true ->
  until_delim (h ++ String "/" t) = h.
Proof.
  induction h as [|c h IH]; cbn [String.append until_delim forall_chars].
  - reflexivity.
  - rewrite andb_true_iff. intros [Hc Hh]. unfold host_char in Hc.
    apply negb_true_iff in Hc. rewrite Hc. now rewrite IH.
Qed.

Lemma prefix_app p s : String.prefix p (p ++ s) = true.
Proof.
  induction p as [|c p IH]; cbn [String.append String.prefix].
  - destruct s; reflexivity.
  - destruct (ascii_dec c c); [assumption | congruence].
Qed.

Lemma replace_from_skip old new p s :
  replace_from old new (String.length p) (p ++ s) = replace_from old new 0 s.
Proof.
  induction p as [|c p IH]; cbn [String.length String.append replace_from];
    [reflexivity | assumption].
Qed.

(** Replacing at the head: an occurrence that begins the string goes, and
    the scan resumes right after it. *)
Lemma replace_head c old s new :
  replace (String c old ++ s) (String c old) new
  = (new ++ replace s (String c old) new)%string.
Proof.
  unfold replace. cbn [String.append replace_from].
  change (String c (old ++ s)) with (String c old ++ s)%string.
  rewrite prefix_app. cbn [String.length Nat.pred].
  now rewrite replace_from_skip.
Qed.

Lemma plain_char_code c :
  plain_char c = true -> (33 <= nat_of_ascii c)%nat.
Proof.
  unfold plain_char. cbv zeta. intros H.
  apply andb_true_iff in H. destruct H as [H _].
  apply andb_true_iff in H. destruct H as [H _].
  now apply Nat.leb_le in H.
Qed.

(** The clean-up of [urlsplit] leaves a plain URL as it is. *)
Lemma clean_plain s :
  plain s = true -> remove_unsafe (lstrip_c0_or_space s) = s.
Proof.
  intros Hs.
  assert (Hstrip : lstrip_c0_or_space s = s).
  { destruct s as [|c s]; [reflexivity|].
    cbn [plain forall_chars] in Hs. apply andb_true_iff in Hs.
    destruct Hs as [Hc _]. apply plain_char_code in Hc.
    cbn [lstrip_c0_or_space].
    assert (E : (nat_of_ascii c <=? 32)%nat = false)
      by (apply Nat.leb_gt; lia).
    now rewrite E. }
  rewrite Hstrip. clear Hstrip.
  induction s as [|c s IH]; [reflexivity|].
  cbn [plain forall_chars] in Hs. apply andb_true_iff in Hs.
  destruct Hs as [Hc Hs]. apply plain_char_code in Hc.
  cbn [remove_unsafe]. cbv zeta.
  assert (E : ((nat_of_ascii c =? 9) || (nat_of_ascii c =? 10)
               || (nat_of_ascii c =? 13))%nat = false).
  { rewrite !orb_false_iff. repeat split; apply Nat.eqb_neq; lia. }
  rewrite E. f_equal. now apply IH.
Qed.

Lemma netloc_of_https h :
  plain h = true ->
  forall_chars host_char h = true ->
  urlparse_netloc ("https://" ++ h ++ "/") = h.
Proof.
  intros Hp Hh. unfold urlparse_netloc.
  rewrite clean_plain
    by (unfold plain; rewrite !forall_chars_app; fold (plain h);
        rewrite Hp; reflexivity).
  unfold split_netloc. cbv zeta.
  change (find_char ":" ("https://" ++ h ++ "/")) with (Some 5%nat).
  cbv iota.
  change (String.substring 0 5 ("https://" ++ h ++ "/")) with "https"%string.
  cbv iota.
  change (is_alpha "h" && forall_chars scheme_char "https") with true.
  cbv iota.
  change ("https://" ++ h ++ "/")%string
    with ("https:" ++ ("//" ++ h ++ "/"))%string.
  change 6%nat with (String.length "https:").
  rewrite drop_app.
  rewrite prefix_app.
  change 2%nat with (String.length "//").
  rewrite drop_app. now apply until_delim_host.
Qed.

End SharedOutputNames.

Section SharedOutputNamesExtras.
Import PyStr Paths.

(** X13. The domain property of a host, its URL-prefix property and its
    www URL-prefix property are given the same output directory and the
    same file prefix, so their reports are written over one another.
    This holds for every host made of printable ASCII characters without
    blanks or square brackets and free of [/], [?], [#] and of the
    [sc-domain:] marker. *)
Theorem properties_of_a_host_share_output_names :
  forall h,
    plain h = true ->
    forall_chars host_char h = true ->
    replace h "sc-domain:" "" = h ->
    host_dir ("sc-domain:" ++ h) = replace h "www." "" /\
    host_dir ("https://" ++ h ++ "/") = replace h "www." "" /\
    host_dir ("https://www." ++ h ++ "/") = replace h "www." "" /\
    forall month,
      file_prefix ("sc-domain:" ++ h) month
      = file_prefix ("https://www." ++ h ++ "/") month.
Proof.
  intros h Hp Hh Hmarker.
  assert (Hsc : host_dir ("sc-domain:" ++ h) = replace h "www." "").
  { unfold host_dir, host_plain, startswith.
    rewrite prefix_app.
    change ("sc-domain:" ++ h)%string
      with (String "s" "c-domain:" ++ h)%string.
    rewrite (replace_head "s" "c-domain:" h "").
    cbn [String.append]. now rewrite Hmarker. }
  assert (Hurl : host_dir ("https://" ++ h ++ "/") = replace h "www." "").
  { unfold host_dir, host_plain.
    change (startswith ("https://" ++ h ++ "/") "sc-domain:") with false.
    cbv iota. now rewrite netloc_of_https. }
  assert (Hwww : host_dir ("https://www." ++ h ++ "/") = replace h "www." "").
  { unfold host_dir, host_plain.
    change (startswith ("https://www." ++ h ++ "/") "sc-domain:") with false.
    cbv iota.
    change ("https://www." ++ h ++ "/")%string
      with ("https://" ++ ("www." ++ h) ++ "/")%string.
    rewrite netloc_of_https.
    - change ("www." ++ h)%string with (String "w" "ww." ++ h)%string.
      now rewrite (replace_head "w" "ww." h "").
    - unfold plain. rewrite forall_chars_app. fold (plain h).
      rewrite Hp. reflexivity.
    - cbn [String.append forall_chars]. now rewrite Hh. }
  repeat split; try assumption.
  intros month. unfold file_prefix, host_for_filename.
  now rewrite Hsc, Hwww.
Qed.

Lemma properties_of_a_host_share_output_names_witness :
  host_dir "sc-domain:example.com" = replace "example.com" "www." "" /\
  host_dir "https://example.com/" = replace "example.com" "www." "" /\
  host_dir "https://www.example.com/" = replace "example.com" "www." "" /\
  forall month,
    file_prefix "sc-domain:example.com" month
    = file_prefix "https://www.example.com/" month.
Proof.
  apply (properties_of_a_host_share_output_names "example.com");
    reflexivity.
Defined.

End SharedOutputNamesExtras.

Section RefusedSites.
Import PyDate Windows Api Frame Run.

Variables (svc : service) (today : date).

(** Whatever way the run ends, every record it holds was appended for a
    window the loop of its site reached. *)
Lemma qp_site_loop_reached_records sites :
  forall st d,
    In d (all_data (state_of (QueriesPages.site_loop svc today sites st))) ->
    In d (all_data st) \/
    exists site_url i,
      In site_url sites /\
      In i (QueriesPages.processed_windows svc today site_url window_indices) /\
      In d (QueriesPages.window_records svc today site_url i).
Proof.
  induction sites as [|site_url rest IH]; intros st d Hd.
  - now left.
  - rewrite qp_site_loop_cons in Hd.
    pose proof (qp_window_loop_state svc today site_url window_indices st) as Hst.
    assert (Hone : forall x,
               In x (all_data
                       (state_of (QueriesPages.window_loop
                                    svc today site_url window_indices st))) ->
               In x (all_data st) \/
               exists i,
                 In i (QueriesPages.processed_windows svc today site_url
                                                      window_indices) /\
                 In x (QueriesPages.window_records svc today site_url i)).
    { intros x Hx. rewrite Hst in Hx. cbn [all_data] in Hx.
      apply in_app_or in Hx. destruct Hx as [Hx|Hx]; [now left|].
      right. apply in_flat_map in Hx. destruct Hx as (i & Hi & Hx).
      exists i. split; assumption. }
    destruct (QueriesPages.window_loop svc today site_url window_indices st)
      as [st'|st'] eqn:El; cbn [state_of] in Hone.
    + apply IH in Hd. destruct Hd as [Hd|(s' & i & Hs' & Hi & Hx)].
      * apply Hone in Hd. destruct Hd as [Hd|(i & Hi & Hx)]; [now left|].
        right. exists site_url, i. repeat split; [now left | assumption..].
      * right. exists s', i. repeat split; [now right | assumption..].
    + cbn [state_of] in Hd. apply Hone in Hd.
      destruct Hd as [Hd|(i & Hi & Hx)]; [now left|].
      right. exists site_url, i. repeat split; [now left | assumption..].
Qed.

End RefusedSites.

Section RefusedSitesExtras.
Import PyDate Windows Api Frame Run.

(** X14.  In [queries-pages-analysis.py], once window [i] of a site is
    answered permission-denied, the rows of the run hold nothing of that
    site for the month of window [i] or of any later window (an older
    month), however the run ends. *)
Theorem refused_site_keeps_no_older_month :
  forall svc today sites site_url i j sj ej d,
    valid_date today -> MINYEAR + 2 <= year today ->
    1 <= i <= j -> j <= 16 ->
    fst (QueriesPages.window_fetch svc today site_url i)
    = QueriesPages.PermissionDenied ->
    monthly_window today j = Some (sj, ej) ->
    In d (all_data (state_of (QueriesPages.fetch_all svc today sites))) ->
    ~ (dict_get "site_url" d = Some (CStr site_url) /\
       dict_get "month" d = Some (CStr (strftime_ym sj))).
Proof.
  intros svc today sites site_url i j sj ej d Hv Hy Hij Hj Hden Hwj Hd
         [Hsite Hmonth].
  unfold QueriesPages.fetch_all in Hd.
  apply qp_site_loop_reached_records in Hd.
  destruct Hd as [[]|(site' & k & Hs' & Hk & Hx)].
  apply qp_window_records_inv in Hx.
  destruct Hx as (s & e & t & more & q & g & Hwk & _ & (d' & Hdata) & ->).
  rewrite (proj1 (qp_record_keys site' (strftime_ym s) t q g)) in Hsite.
  rewrite (proj2 (qp_record_keys site' (strftime_ym s) t q g)) in Hmonth.
  assert (site' = site_url) by congruence. subst site'.
  assert (Hlabel : strftime_ym s = strftime_ym sj) by congruence.
  assert (Hkr : 1 <= k <= 16).
  { apply window_indices_range. eapply qp_processed_incl; eassumption. }
  assert (k = j)
    by (eapply (window_label_inj today Hv Hy k j); try eassumption; lia).
  subst k.
  destruct (window_indices_split i) as (pre & post & Hsplit & Hlt & _); [lia|].
  rewrite Hsplit in Hk.
  destruct (qp_processed_denied svc today site_url pre i post Hden)
    as [Heq|Hincl].
  - rewrite Heq in Hk. apply in_app_or in Hk.
    destruct Hk as [Hk|[Hk|[]]].
    + apply Hlt in Hk. lia.
    + subst j. congruence.
  - apply Hincl in Hk. apply Hlt in Hk. lia.
Qed.

Lemma refused_site_keeps_no_older_month_witness :
  ~ (dict_get "site_url"
              (QueriesPages.monthly_record "https://www.example.com/" "2024-02"
                                           sample_totals 1 1)
     = Some (CStr "https://www.example.com/") /\
     dict_get "month"
              (QueriesPages.monthly_record "https://www.example.com/" "2024-02"
                                           sample_totals 1 1)
     = Some (CStr (strftime_ym (mkdate 2023 12 1)))).
Proof.
  apply (refused_site_keeps_no_older_month
           (denied_from "2024-01-01" sample_totals) (mkdate 2024 3 15)
           ["https://www.example.com/"%string] "https://www.example.com/"
           2 3 (mkdate 2023 12 1) (mkdate 2023 12 31)).
  - reflexivity.
  - unfold MINYEAR. simpl. lia.
  - lia.
  - lia.
  - vm_compute. reflexivity.
  - vm_compute. reflexivity.
  - vm_compute. left. reflexivity.
Defined.

End RefusedSitesExtras.
Section ReportSections.
Import PyDate Windows Api Frame Run Report Sections.

(** The frame [main] builds from the appended dicts, before anything is
    written. *)
Lemma qp_frame_of_records (ds : list dict) :
  ds <> [] ->
  Forall (fun d => exists site_url month totals_data q g,
              d = QueriesPages.monthly_record site_url month totals_data q g) ds ->
  select QueriesPages.column_order (from_records ds)
  = Some (mk_df QueriesPages.column_order (map (map snd) ds)).
Proof.
  intros Hne Hall.
  rewrite (from_records_uniform QueriesPages.column_order ds);
    [| reflexivity | reflexivity | assumption |].
  - unfold select. cbn [columns records].
    change (indices_of QueriesPages.column_order QueriesPages.column_order)
      with (Some [0; 1; 2; 3; 4; 5; 6; 7]%nat).
    cbn [bind]. do 2 f_equal.
    rewrite map_map. apply map_ext_in. intros d Hd.
    rewrite Forall_forall in Hall.
    destruct (Hall d Hd) as (site_url & month & t & q & g & ->). reflexivity.
  - eapply Forall_impl; [|exact Hall]. cbn beta.
    intros d (site_url & month & t & q & g & ->). reflexivity.
Qed.

(** The formatted copy keeps the columns and changes the six numeric
    cells of every line. *)
Lemma html_frame_of_lines (lines : list (list cell)) :
  html_frame (mk_df QueriesPages.column_order lines)
  = Some (mk_df QueriesPages.column_order
                (map html_line lines)).
Proof.
  unfold html_frame, apply_column. cbn [columns records bind].
  change (index_of "clicks" QueriesPages.column_order) with (Some 2%nat).
  cbn [bind columns records].
  change (index_of "impressions" QueriesPages.column_order) with (Some 3%nat).
  cbn [bind columns records].
  change (index_of "queries" QueriesPages.column_order) with (Some 6%nat).
  cbn [bind columns records].
  change (index_of "pages" QueriesPages.column_order) with (Some 7%nat).
  cbn [bind columns records].
  change (index_of "ctr" QueriesPages.column_order) with (Some 4%nat).
  cbn [bind columns records].
  change (index_of "position" QueriesPages.column_order) with (Some 5%nat).
  cbn [bind columns records].
  rewrite !map_map. reflexivity.
Qed.

Lemma site_frame_of_lines (lines : list (list cell)) (site : string) :
  site_frame (mk_df QueriesPages.column_order lines) site
  = Some (map (remove_nth 0)
              (filter (fun r => is_site site (nth 0 r CNaN)) lines)).
Proof. reflexivity. Qed.

Lemma generate_site_sections_total (df : DataFrame)
      (g : string -> list (list cell)) (sites : list string) :
  (forall site, site_frame df site = Some (g site)) ->
  generate_site_sections df sites
  = Some (map (fun site =>
                 mk_section (anchor_of site) site
                            (match g site with
                             | [] => NoDataNote
                             | _ => Table (g site)
                             end)) sites).
Proof.
  intros Hg. induction sites as [|site rest IH]; [reflexivity|].
  cbn [generate_site_sections map]. rewrite Hg, IH. reflexivity.
Qed.

(** The lines of a site in the formatted frame are the table lines of the
    dicts appended for it. *)
Lemma site_lines_of_records (site : string) (ds : list dict) :
  Forall (fun d => exists site_url month totals_data q g,
              d = QueriesPages.monthly_record site_url month totals_data q g) ds ->
  map (remove_nth 0)
      (filter (fun r => is_site site (nth 0 r CNaN))
              (map html_line (map (map snd) ds)))
  = map table_line (rows_of site ds).
Proof.
  induction 1 as [|d ds (s & m & t & q & g & ->) _ IH]; [reflexivity|].
  unfold rows_of in *. cbn [map filter].
  rewrite (proj1 (qp_record_keys s m t q g)).
  change (nth 0 (html_line (map snd (QueriesPages.monthly_record s m t q g)))
              CNaN) with (CStr s).
  destruct (is_site site (CStr s)); [|exact IH].
  cbn [map]. rewrite IH. reflexivity.
Qed.

Lemma qp_run_records svc today sites :
  Forall (fun d => exists site_url month totals_data q g,
              d = QueriesPages.monthly_record site_url month totals_data q g)
         (all_data (state_of (QueriesPages.fetch_all svc today sites))).
Proof.
  apply Forall_forall. intros d Hd. unfold QueriesPages.fetch_all in Hd.
  apply qp_site_loop_records in Hd.
  destruct Hd as [[]|(site & i & _ & _ & Hx)].
  apply qp_window_records_inv in Hx.
  destruct Hx as (s & e & t & more & q & g & _ & _ & _ & ->).
  now exists site, (strftime_ym s), t, q, g.
Qed.

Lemma qp_sections_of_records (ds : list dict) (sites : list string) :
  ds <> [] ->
  Forall (fun d => exists site_url month totals_data q g,
              d = QueriesPages.monthly_record site_url month totals_data q g) ds ->
  exists df html_df,
    select QueriesPages.column_order (from_records ds) = Some df /\
    html_frame df = Some html_df /\
    generate_site_sections html_df sites
    = Some (map (fun site =>
                   mk_section (anchor_of site) site
                              (match map table_line (rows_of site ds) with
                               | [] => NoDataNote
                               | _ => Table (map table_line (rows_of site ds))
                               end)) sites).
Proof.
  intros Hne Hall. eexists. eexists.
  split; [apply qp_frame_of_records; assumption|].
  split; [apply html_frame_of_lines|].
  apply generate_site_sections_total. intros site.
  rewrite site_frame_of_lines. f_equal.
  now apply site_lines_of_records.
Qed.

End ReportSections.

Section ReportSectionsExtras.
Import PyDate Windows Api Frame Run Report Sections.

(** X15.  In a multi-site run of [queries-pages-analysis.py] that
    fetched at least one row, the frame, its formatted copy and the
    sections are all built without error, and the report has one section
    per site, in the order of the sites: under the site's anchor and
    title comes a table with one line per row fetched for that site, in
    the order fetched, holding the month and the six figures under their
    formats, or the note that no data is available when no row was
    fetched for it. *)
Theorem sections_list_the_rows_of_each_site :
  forall svc today sites st,
    QueriesPages.fetch_all svc today sites = Finished st ->
    all_data st <> [] ->
    exists df html_df,
      select QueriesPages.column_order (from_records (all_data st)) = Some df /\
      html_frame df = Some html_df /\
      generate_site_sections html_df sites
      = Some (map (fun site =>
                     mk_section
                       (anchor_of site) site
                       (match map table_line (rows_of site (all_data st)) with
                        | [] => NoDataNote
                        | _ => Table (map table_line
                                          (rows_of site (all_data st)))
                        end)) sites).
Proof.
  intros svc today sites st Hrun Hne.
  apply qp_sections_of_records; [assumption|].
  pose proof (qp_run_records svc today sites) as H.
  rewrite Hrun in H. exact H.
Qed.

Lemma sections_list_the_rows_of_each_site_witness :
  exists df html_df,
    select QueriesPages.column_order
           (from_records
              (all_data (state_of (QueriesPages.fetch_all
                                     (steady_service sample_totals)
                                     (mkdate 2024 3 15)
                                     ["https://www.example.com/"%string]))))
    = Some df /\
    html_frame df = Some html_df /\
    generate_site_sections html_df ["https://www.example.com/"%string]
    = Some (map (fun site =>
                   mk_section
                     (anchor_of site) site
                     (match map table_line
                                (rows_of site
                                   (all_data
                                      (state_of
                                         (QueriesPages.fetch_all
                                            (steady_service sample_totals)
                                            (mkdate 2024 3 15)
                                            ["https://www.example.com/"%string]))))
                      with
                      | [] => NoDataNote
                      | _ => Table (map table_line
                                        (rows_of site
                                           (all_data
                                              (state_of
                                                 (QueriesPages.fetch_all
                                                    (steady_service sample_totals)
                                                    (mkdate 2024 3 15)
                                                    ["https://www.example.com/"%string])))))
                      end)) ["https://www.example.com/"%string]).
Proof.
  apply (sections_list_the_rows_of_each_site
           (steady_service sample_totals) (mkdate 2024 3 15)
           ["https://www.example.com/"%string]).
  - vm_compute. reflexivity.
  - vm_compute. discriminate.
Defined.

(** X16.  A site of a multi-site run whose most recent month is answered
    permission-denied is still listed in the index of the report, and its
    section, under the anchor the index links to, reads that no data is
    available for the site. *)
Theorem refused_site_section_reads_no_data :
  forall svc today sites st site,
    QueriesPages.fetch_all svc today sites = Finished st ->
    all_data st <> [] ->
    In site sites ->
    fst (QueriesPages.window_fetch svc today site 1)
    = QueriesPages.PermissionDenied ->
    exists df html_df sections,
      select QueriesPages.column_order (from_records (all_data st)) = Some df /\
      html_frame df = Some html_df /\
      generate_site_sections html_df sites = Some sections /\
      In (mk_section (anchor_of site) site NoDataNote) sections /\
      In (SiteLink site (anchor_of site)
                   (negb ((snd (fst (QueriesPages.get_sort_key site)) =? 0)%Z
                          || (snd (fst (QueriesPages.get_sort_key site)) =? 1)%Z)))
         (index_entries sites None).
Proof.
  intros svc today sites st site Hrun Hne Hin Hden.
  pose proof (qp_run_records svc today sites) as Hall.
  rewrite Hrun in Hall. cbn [state_of] in Hall.
  destruct (qp_sections_of_records (all_data st) sites Hne Hall)
    as (df & html_df & Hdf & Hhtml & Hsec).
  exists df, html_df. eexists.
  split; [exact Hdf|]. split; [exact Hhtml|]. split; [exact Hsec|].
  split.
  - assert (Hnone : rows_of site (all_data st) = []).
    { unfold rows_of.
      destruct (filter _ (all_data st)) as [|d rest] eqn:Ef; [reflexivity|].
      exfalso.
      assert (Hd : In d (filter
                           (fun d => match dict_get "site_url" d with
                                     | Some c => is_site site c
                                     | None => false
                                     end) (all_data st)))
        by (rewrite Ef; now left).
      apply filter_In in Hd. destruct Hd as [Hd Hsite].
      pose proof (qp_site_loop_reached_records svc today sites initial d) as Hr.
      fold (QueriesPages.fetch_all svc today sites) in Hr.
      rewrite Hrun in Hr. cbn [state_of] in Hr.
      destruct (Hr Hd) as [[]|(site' & k & _ & Hk & Hx)].
      apply qp_window_records_inv in Hx.
      destruct Hx as (s & e & t & more & q & g & _ & _ & (d' & Hdata) & ->).
      rewrite (proj1 (qp_record_keys site' (strftime_ym s) t q g)) in Hsite.
      cbn [is_site] in Hsite. apply String.eqb_eq in Hsite. subst site'.
      destruct (qp_processed_denied
                  svc today site []
                  1 [2; 3; 4; 5; 6; 7; 8; 9; 10; 11; 12; 13; 14; 15; 16] Hden)
        as [Heq|Hincl].
      - apply (eq_ind _ (fun l => In k l) Hk) in Heq.
        destruct Heq as [<-|[]]. congruence.
      - exact (Hincl k Hk). }
    apply in_map_iff. exists site. split; [|assumption].
    rewrite Hnone. reflexivity.
  - clear - Hin. revert Hin. generalize (@None string).
    induction sites as [|s rest IH]; intros current Hin; [contradiction|].
    rewrite index_entries_cons. cbv zeta.
    destruct Hin as [->|Hin].
    + apply in_or_app. right. now left.
    + apply in_or_app. right. right. now apply IH.
Qed.

Lemma refused_site_section_reads_no_data_witness :
  exists df html_df sections,
    select QueriesPages.column_order
           (from_records
              (all_data (state_of (QueriesPages.fetch_all
                                     (fun r =>
                                        if String.eqb (siteUrl r) "sc-domain:b.example"
                                        then HttpError 403
                                        else Response (Some [sample_totals]))
                                     (mkdate 2024 3 15)
                                     ["sc-domain:a.example";
                                      "sc-domain:b.example"]%string))))
    = Some df /\
    html_frame df = Some html_df /\
    generate_site_sections html_df
                           ["sc-domain:a.example"; "sc-domain:b.example"]%string
    = Some sections /\
    In (mk_section (anchor_of "sc-domain:b.example") "sc-domain:b.example"
                   NoDataNote) sections /\
    In (SiteLink "sc-domain:b.example" (anchor_of "sc-domain:b.example")
                 (negb ((snd (fst (QueriesPages.get_sort_key
                                     "sc-domain:b.example")) =? 0)%Z
                        || (snd (fst (QueriesPages.get_sort_key
                                        "sc-domain:b.example")) =? 1)%Z)))
       (index_entries ["sc-domain:a.example"; "sc-domain:b.example"]%string None).
Proof.
  apply (refused_site_section_reads_no_data
           (fun r => if String.eqb (siteUrl r) "sc-domain:b.example"
                     then HttpError 403
                     else Response (Some [sample_totals]))
           (mkdate 2024 3 15)
           ["sc-domain:a.example"; "sc-domain:b.example"]%string).
  - vm_compute. reflexivity.
  - vm_compute. discriminate.
  - right. left. reflexivity.
  - vm_compute. reflexivity.
Defined.

End ReportSectionsExtras.
Section WrittenFiles.
Import PyDate Windows Api Frame Run Output Mains.

Lemma aw_run_records svc today sites d :
  In d (all_data (state_of (AccountWide.fetch_all svc today sites))) ->
  exists site_url i s e row,
    In site_url sites /\ 1 <= i <= 16 /\
    monthly_window today i = Some (s, e) /\
    fst (AccountWide.window_fetch svc today site_url i) = Some row /\
    d = AccountWide.record_of site_url s row.
Proof.
  intros Hd. unfold AccountWide.fetch_all in Hd.
  apply aw_site_loop_records in Hd.
  destruct Hd as [[]|(site & i & Hs & Hi & Hx)].
  apply aw_window_records_inv in Hx.
  destruct Hx as (s & e & row & more & Hw & _ & Hf & ->).
  exists site, i, s, e, row. repeat split; try assumption;
    now apply window_indices_range.
Qed.

Lemma qp_run_fetched svc today sites d :
  In d (all_data (state_of (QueriesPages.fetch_all svc today sites))) ->
  exists site_url i d',
    In site_url sites /\ 1 <= i <= 16 /\
    fst (QueriesPages.window_fetch svc today site_url i) = QueriesPages.Data d'.
Proof.
  intros Hd. unfold QueriesPages.fetch_all in Hd.
  apply qp_site_loop_records in Hd.
  destruct Hd as [[]|(site & i & Hs & Hi & Hx)].
  apply qp_window_records_inv in Hx.
  destruct Hx as (s & e & t & more & q & g & _ & _ & (d' & Hf) & _).
  exists site, i, d'. repeat split; try assumption;
    now apply window_indices_range.
Qed.

Lemma aw_output_csv fs :
  csv_written (AccountWide.output_stage fs) = true <-> write_csv fs = IoOk.
Proof.
  destruct fs as [c h]. destruct c, h; cbn; split; congruence.
Qed.

Lemma aw_output_html fs :
  html_written (AccountWide.output_stage fs) = true
  <-> write_csv fs = IoOk /\ write_html fs = IoOk.
Proof.
  destruct fs as [c h]. destruct c, h; cbn; split;
    try (intros [? ?]); try split; congruence.
Qed.

Lemma qp_output_csv fs :
  csv_written (QueriesPages.output_stage false fs) = true
  <-> write_csv fs = IoOk.
Proof.
  destruct fs as [c h]. destruct c, h; cbn; split; congruence.
Qed.

(** A window the loop of a site reaches is preceded only by windows that
    returned data or nothing. *)
Lemma qp_processed_prefix svc today site_url pre k post :
  ~ In k pre ->
  In k (QueriesPages.processed_windows svc today site_url (pre ++ k :: post)) ->
  forall j, In j pre ->
            fst (QueriesPages.window_fetch svc today site_url j)
            <> QueriesPages.PermissionDenied.
Proof.
  induction pre as [|j0 pre IH]; intros Hnot Hk j Hj; [contradiction|].
  cbn [app QueriesPages.processed_windows] in Hk.
  assert (Hk0 : k <> j0) by (intros ->; apply Hnot; now left).
  assert (Hnot' : ~ In k pre) by (intros H; apply Hnot; now right).
  destruct (fst (QueriesPages.window_fetch svc today site_url j0)) eqn:Ef.
  - destruct Hk as [Hk|Hk]; [congruence|].
    destruct Hj as [<-|Hj]; [congruence | now apply IH].
  - destruct Hk as [Hk|[]]; congruence.
  - destruct Hk as [Hk|Hk]; [congruence|].
    destruct Hj as [<-|Hj]; [congruence | now apply IH].
  - destruct Hk as [Hk|[]]; congruence.
Qed.

Lemma qp_run_reached svc today sites d :
  In d (all_data (state_of (QueriesPages.fetch_all svc today sites))) ->
  exists site_url i d',
    In site_url sites /\ 1 <= i <= 16 /\
    fst (QueriesPages.window_fetch svc today site_url i) = QueriesPages.Data d' /\
    forall j, 1 <= j < i ->
              fst (QueriesPages.window_fetch svc today site_url j)
              <> QueriesPages.PermissionDenied.
Proof.
  intros Hd. unfold QueriesPages.fetch_all in Hd.
  apply qp_site_loop_reached_records in Hd.
  destruct Hd as [[]|(site & i & Hs & Hi & Hx)].
  apply qp_window_records_inv in Hx.
  destruct Hx as (s & e & t & more & q & g & _ & _ & (d' & Hf) & _).
  assert (Hr : 1 <= i <= 16).
  { apply window_indices_range. eapply qp_processed_incl; eassumption. }
  exists site, i, d'. repeat split; try assumption; try lia.
  intros j Hj.
  destruct (window_indices_split i Hr) as (pre & post & Hsplit & Hlt & Hgt).
  rewrite Hsplit in Hi.
  apply (qp_processed_prefix svc today site pre i post); [|assumption|].
  - intros Hin. apply Hlt in Hin. lia.
  - assert (Hjin : In j window_indices) by (apply window_indices_range; lia).
    rewrite Hsplit in Hjin. apply in_app_or in Hjin.
    destruct Hjin as [Hjin|[Hjin|Hjin]]; [assumption | lia |].
    apply Hgt in Hjin. lia.
Qed.

End WrittenFiles.

Section WrittenFilesExtras.
Import PyDate Windows Api Frame Run Output Mains.

(** X17.  [account-wide-analysis.py] writes its CSV exactly when the
    fetch of at least one month of at least one site returned a row and
    the write itself succeeds, and its HTML exactly when, besides, the
    HTML write succeeds: with no row at all the run returns before any
    file is opened. *)
Theorem account_wide_files_need_one_row :
  forall svc today sites fs,
    valid_date today -> MINYEAR + 2 <= year today ->
    (csv_written (account_wide_run svc today sites fs) = true
     <-> (exists site_url i row,
             In site_url sites /\ 1 <= i <= 16 /\
             fst (AccountWide.window_fetch svc today site_url i) = Some row) /\
         write_csv fs = IoOk) /\
    (html_written (account_wide_run svc today sites fs) = true
     <-> (exists site_url i row,
             In site_url sites /\ 1 <= i <= 16 /\
             fst (AccountWide.window_fetch svc today site_url i) = Some row) /\
         write_csv fs = IoOk /\ write_html fs = IoOk).
Proof.
  intros svc today sites fs Hv Hy.
  pose proof (aw_run_records svc today sites) as Hrec.
  assert (Hflat := aw_site_loop_flat svc today sites
                     (windows_never_fail today Hv Hy) initial).
  fold (AccountWide.fetch_all svc today sites) in Hflat.
  cbn [all_data calls initial app] in Hflat.
  assert (Hfetched :
            (exists site_url i row,
                In site_url sites /\ 1 <= i <= 16 /\
                fst (AccountWide.window_fetch svc today site_url i) = Some row)
            <-> all_data (state_of (AccountWide.fetch_all svc today sites))
                <> []).
  { split.
    - intros (site & i & row & Hs & Hi & Hf) Hnil.
      rewrite Hflat in Hnil. cbn [state_of all_data] in Hnil.
      assert (Hin : In (AccountWide.record_of
                          site (first_of_month (month_index today - i)) row)
                       (@nil dict)).
      { rewrite <- Hnil. apply in_flat_map. exists site. split; [assumption|].
        apply in_flat_map. exists i.
        split; [now apply window_indices_range|].
        unfold AccountWide.window_records.
        rewrite (window_defined today Hv Hy i Hi), Hf. now left. }
      exact Hin.
    - intros Hne.
      destruct (all_data (state_of (AccountWide.fetch_all svc today sites)))
        as [|d rest] eqn:Ed; [congruence|].
      destruct (Hrec d) as (site & i & s & e & row & Hs & Hi & _ & Hf & _);
        [now left|].
      now exists site, i, row. }
  assert (Hrun : account_wide_run svc today sites fs
                 = match all_data (state_of (AccountWide.fetch_all
                                               svc today sites)) with
                   | [] => mk_artifacts false false Returned
                   | _ => AccountWide.output_stage fs
                   end).
  { unfold account_wide_run.
    assert (Hcsv : all_data (state_of (AccountWide.fetch_all svc today sites))
                   <> [] ->
                   exists csv,
                     AccountWide.csv_artifact
                       (all_data (state_of (AccountWide.fetch_all
                                              svc today sites))) = Some csv).
    { intros Hne. eexists. apply aw_csv_of_records; [assumption|].
      apply Forall_forall. intros d Hd.
      destruct (Hrec d Hd) as (site & i & s & e & row & _ & _ & _ & _ & ->).
      now exists site, s, row. }
    rewrite Hflat in *. cbn [state_of] in *.
    destruct (all_data _) as [|d rest] eqn:Ed; [reflexivity|].
    destruct Hcsv as [csv ->]; [discriminate|]. reflexivity. }
  rewrite Hrun.
  destruct (all_data (state_of (AccountWide.fetch_all svc today sites)))
    as [|d rest] eqn:Ed.
  - cbn [csv_written html_written]. split; split;
      try discriminate; intros [Hex _]; apply Hfetched in Hex; congruence.
  - assert (Hex : exists site_url i row,
               In site_url sites /\ 1 <= i <= 16 /\
               fst (AccountWide.window_fetch svc today site_url i) = Some row)
      by (apply Hfetched; discriminate).
    rewrite aw_output_csv, aw_output_html. tauto.
Qed.

Lemma account_wide_files_need_one_row_witness :
  (csv_written (account_wide_run (steady_service sample_totals)
                                 (mkdate 2024 3 15)
                                 ["https://www.example.com/"%string]
                                 (mk_fs IoOk IoOk)) = true
   <-> (exists site_url i row,
           In site_url ["https://www.example.com/"%string] /\ 1 <= i <= 16 /\
           fst (AccountWide.window_fetch (steady_service sample_totals)
                                         (mkdate 2024 3 15) site_url i)
           = Some row) /\
       write_csv (mk_fs IoOk IoOk) = IoOk) /\
  (html_written (account_wide_run (steady_service sample_totals)
                                  (mkdate 2024 3 15)
                                  ["https://www.example.com/"%string]
                                  (mk_fs IoOk IoOk)) = true
   <-> (exists site_url i row,
           In site_url ["https://www.example.com/"%string] /\ 1 <= i <= 16 /\
           fst (AccountWide.window_fetch (steady_service sample_totals)
                                         (mkdate 2024 3 15) site_url i)
           = Some row) /\
       write_csv (mk_fs IoOk IoOk) = IoOk /\ write_html (mk_fs IoOk IoOk) = IoOk).
Proof.
  apply (account_wide_files_need_one_row
           (steady_service sample_totals) (mkdate 2024 3 15)
           ["https://www.example.com/"%string] (mk_fs IoOk IoOk)).
  - reflexivity.
  - unfold MINYEAR. simpl. lia.
Defined.

(** X18.  [queries-pages-analysis.py], run without a cache, writes its
    CSV only if some site has a month whose fetch returned data with no
    more recent month of that site refused, and the write itself
    succeeds.  Conversely, when no fetch raises anything but an HTTP
    error, such a month and a successful write are enough for the CSV to
    be written. *)
Theorem queries_pages_csv_needs_one_row :
  forall svc today sites fs,
    (csv_written (queries_pages_run svc today sites fs) = true ->
     (exists site_url i d,
         In site_url sites /\ 1 <= i <= 16 /\
         fst (QueriesPages.window_fetch svc today site_url i)
         = QueriesPages.Data d /\
         forall j, 1 <= j < i ->
                   fst (QueriesPages.window_fetch svc today site_url j)
                   <> QueriesPages.PermissionDenied) /\
     write_csv fs = IoOk) /\
    ((forall site_url i,
         In site_url sites -> 1 <= i <= 16 ->
         fst (QueriesPages.window_fetch svc today site_url i)
         <> QueriesPages.Uncaught) ->
     (exists site_url i d,
         In site_url sites /\ 1 <= i <= 16 /\
         fst (QueriesPages.window_fetch svc today site_url i)
         = QueriesPages.Data d /\
         forall j, 1 <= j < i ->
                   fst (QueriesPages.window_fetch svc today site_url j)
                   <> QueriesPages.PermissionDenied) ->
     write_csv fs = IoOk ->
     csv_written (queries_pages_run svc today sites fs) = true).
Proof.
  intros svc today sites fs.
  pose proof (qp_run_reached svc today sites) as Hreached.
  pose proof (qp_run_records svc today sites) as Hrecs.
  unfold queries_pages_run. split.
  - destruct (QueriesPages.fetch_all svc today sites) as [st|st];
      cbn [state_of] in *; [|discriminate].
    destruct (all_data st) as [|d rest] eqn:Ed; [discriminate|].
    destruct (QueriesPages.csv_artifact (d :: rest)); [|discriminate].
    intros Hw. split; [apply (Hreached d); now left|].
    now apply qp_output_csv.
  - intros Hok (site & i & d & Hs & Hi & Hf & Hpre) Hw.
    destruct (qp_site_loop_finishes svc today sites) with (st := initial)
      as [st Hrun].
    { intros s k Hin Hk. apply Hok; [assumption|].
      now apply window_indices_range. }
    fold (QueriesPages.fetch_all svc today sites) in Hrun.
    rewrite Hrun in *. cbn [state_of] in *.
    destruct (window_indices_split i Hi) as (pre & post & Hsplit & Hlt & _).
    assert (Hwin : exists s e, monthly_window today i = Some (s, e)).
    { unfold QueriesPages.window_fetch in Hf.
      destruct (monthly_window today i) as [[s e]|]; [now exists s, e|].
      discriminate. }
    destruct Hwin as (s & e & Hwin).
    assert (Hin : In (("site_url"%string, CStr site)
                        :: ("month"%string, CStr (strftime_ym s)) :: d)
                     (all_data st)).
    { eapply (qp_site_loop_reaches svc today sites initial st Hrun
                                   site pre i post);
        [assumption | assumption | |].
      - intros j Hj. apply Hpre. now apply Hlt.
      - unfold QueriesPages.window_records. rewrite Hwin, Hf. now left. }
    destruct (all_data st) as [|d0 rest] eqn:Ed; [contradiction|].
    rewrite (qp_csv_of_records (d0 :: rest)); [|discriminate|assumption].
    now apply qp_output_csv.
Qed.

Lemma queries_pages_csv_needs_one_row_witness :
  csv_written (queries_pages_run (steady_service sample_totals)
                                 (mkdate 2024 3 15)
                                 ["https://www.example.com/"%string]
                                 (mk_fs IoOk IoOk)) = true.
Proof.
  apply (proj2 (queries_pages_csv_needs_one_row
                  (steady_service sample_totals) (mkdate 2024 3 15)
                  ["https://www.example.com/"%string] (mk_fs IoOk IoOk))).
  - intros site_url i [<-|[]] Hi.
    assert (Hcases : i = 1 \/ i = 2 \/ i = 3 \/ i = 4 \/ i = 5 \/ i = 6 \/
                     i = 7 \/ i = 8 \/ i = 9 \/ i = 10 \/ i = 11 \/ i = 12 \/
                     i = 13 \/ i = 14 \/ i = 15 \/ i = 16) by lia.
    repeat (destruct Hcases as [->|Hcases]; [vm_compute; discriminate|]).
    subst i. vm_compute. discriminate.
  - exists "https://www.example.com/"%string, 1. eexists.
    split; [now left|]. split; [lia|]. split; [vm_compute; reflexivity|].
    intros j Hj. lia.
  - reflexivity.
Defined.

End WrittenFilesExtras.
Section DistinctRows.
Import PyDate Windows Api Frame Run Sections.

Lemma nodup_map_flat_map {A B C : Type} (key : B -> C) (f : A -> list B)
      (l : list A) :
  NoDup l ->
  (forall x, In x l -> NoDup (map key (f x))) ->
  (forall x y b c,
      In x l -> In y l -> In b (f x) -> In c (f y) -> key b = key c -> x = y) ->
  NoDup (map key (flat_map f l)).
Proof.
  induction 1 as [|x l Hx Hl IH]; intros Hone Hcross; [constructor|].
  cbn [flat_map]. rewrite map_app. apply NoDup_app.
  - apply Hone. now left.
  - apply IH.
    + intros y Hy. apply Hone. now right.
    + intros y z b c Hy Hz. apply Hcross; now right.
  - intros k Hk Hk'.
    apply in_map_iff in Hk. destruct Hk as (b & Hb & Hbin).
    apply in_map_iff in Hk'. destruct Hk' as (c & Hc & Hcin).
    apply in_flat_map in Hcin. destruct Hcin as (y & Hy & Hcin).
    assert (x = y).
    { apply (Hcross x y b c); [now left | now right | assumption..|congruence]. }
    subst y. contradiction.
Qed.

Lemma window_indices_nodup : NoDup window_indices.
Proof.
  unfold window_indices.
  repeat (constructor; [cbn [In]; lia|]). constructor.
Qed.

Variables (svc : service) (today : date).

Lemma qp_processed_nodup site_url indices :
  NoDup indices ->
  NoDup (QueriesPages.processed_windows svc today site_url indices).
Proof.
  induction 1 as [|i rest Hi Hrest IH]; cbn [QueriesPages.processed_windows];
    [constructor|].
  assert (Hcons : NoDup (i :: QueriesPages.processed_windows
                                svc today site_url rest)).
  { constructor; [|assumption].
    intros Hin. apply Hi. eapply qp_processed_incl; eassumption. }
  destruct (fst (QueriesPages.window_fetch svc today site_url i));
    try assumption; repeat constructor; intros [].
Qed.

(** In a run that ends normally the rows are those of the windows
    reached, site after site. *)
Lemma qp_site_loop_finished_flat sites :
  forall st st',
    QueriesPages.site_loop svc today sites st = Finished st' ->
    all_data st'
    = (all_data st
         ++ flat_map (fun site_url =>
                        flat_map (QueriesPages.window_records svc today site_url)
                                 (QueriesPages.processed_windows
                                    svc today site_url window_indices))
                     sites)%list.
Proof.
  induction sites as [|site rest IH]; intros st st' Hrun.
  - cbn in Hrun. inversion Hrun; subst. cbn [flat_map].
    now rewrite app_nil_r.
  - rewrite qp_site_loop_cons in Hrun.
    pose proof (qp_window_loop_state svc today site window_indices st) as Hst.
    destruct (QueriesPages.window_loop svc today site window_indices st)
      as [st1|st1]; [|discriminate].
    cbn [state_of] in Hst. rewrite (IH st1 st' Hrun), Hst.
    cbn [all_data flat_map]. now rewrite <- app_assoc.
Qed.

Hypothesis today_valid : valid_date today.
Hypothesis today_year : MINYEAR + 2 <= year today.

Lemma qp_window_rows_distinct site_url indices :
  NoDup indices -> incl indices window_indices ->
  NoDup (map row_key
             (flat_map (QueriesPages.window_records svc today site_url)
                       indices)).
Proof.
  intros Hnd Hincl. apply nodup_map_flat_map; [assumption| |].
  - intros i _. unfold QueriesPages.window_records.
    destruct (monthly_window today i) as [[s e]|]; [|constructor].
    destruct (fst (QueriesPages.window_fetch svc today site_url i));
      repeat constructor; intros [].
  - intros i j b c Hi Hj Hb Hc Hkey.
    apply qp_window_records_inv in Hb.
    destruct Hb as (s & e & t & more & q & g & Hwi & _ & _ & ->).
    apply qp_window_records_inv in Hc.
    destruct Hc as (s' & e' & t' & more' & q' & g' & Hwj & _ & _ & ->).
    unfold row_key in Hkey.
    rewrite (proj2 (qp_record_keys site_url (strftime_ym s) t q g)),
            (proj2 (qp_record_keys site_url (strftime_ym s') t' q' g')) in Hkey.
    apply (window_label_inj today today_valid today_year i j s e s' e');
      [apply window_indices_range; now apply Hincl
      |apply window_indices_range; now apply Hincl
      |assumption|assumption|congruence].
Qed.

Lemma aw_window_rows_distinct site_url :
  NoDup (map row_key
             (flat_map (AccountWide.window_records svc today site_url)
                       window_indices)).
Proof.
  apply nodup_map_flat_map; [apply window_indices_nodup| |].
  - intros i _. unfold AccountWide.window_records.
    destruct (monthly_window today i) as [[s e]|]; [|constructor].
    destruct (fst (AccountWide.window_fetch svc today site_url i));
      repeat constructor; intros [].
  - intros i j b c Hi Hj Hb Hc Hkey.
    apply aw_window_records_inv in Hb.
    destruct Hb as (s & e & row & more & Hwi & _ & _ & ->).
    apply aw_window_records_inv in Hc.
    destruct Hc as (s' & e' & row' & more' & Hwj & _ & _ & ->).
    unfold row_key in Hkey.
    rewrite (proj2 (aw_record_keys site_url s row)),
            (proj2 (aw_record_keys site_url s' row')) in Hkey.
    apply (window_label_inj today today_valid today_year i j s e s' e');
      [now apply window_indices_range
      |now apply window_indices_range
      |assumption|assumption|congruence].
Qed.

End DistinctRows.

Section DistinctRowsExtras.
Import PyDate Windows Api Frame Run Sections.

(** X19.  When no site is listed twice, the rows a run collects never
    repeat a (site, month) pair: in [account-wide-analysis.py], and in a
    run of [queries-pages-analysis.py] that ends normally, every site has
    at most one row per month. *)
Theorem rows_have_distinct_site_and_month :
  forall svc today sites,
    valid_date today -> MINYEAR + 2 <= year today ->
    NoDup sites ->
    (forall st, AccountWide.fetch_all svc today sites = Finished st ->
                NoDup (map row_key (all_data st))) /\
    (forall st, QueriesPages.fetch_all svc today sites = Finished st ->
                NoDup (map row_key (all_data st))).
Proof.
  intros svc today sites Hv Hy Hnd. split; intros st Hrun.
  - unfold AccountWide.fetch_all in Hrun.
    rewrite (aw_site_loop_flat svc today sites
               (windows_never_fail today Hv Hy) initial) in Hrun.
    apply (f_equal state_of) in Hrun. cbn [state_of] in Hrun.
    rewrite <- Hrun. cbn [all_data initial]. rewrite app_nil_l.
    apply nodup_map_flat_map; [assumption| |].
    + intros site _. now apply aw_window_rows_distinct.
    + intros x y b c _ _ Hb Hc Hkey.
      apply in_flat_map in Hb. destruct Hb as (i & _ & Hb).
      apply in_flat_map in Hc. destruct Hc as (j & _ & Hc).
      apply aw_window_records_inv in Hb.
      destruct Hb as (s & e & row & more & _ & _ & _ & ->).
      apply aw_window_records_inv in Hc.
      destruct Hc as (s' & e' & row' & more' & _ & _ & _ & ->).
      unfold row_key in Hkey.
      rewrite (proj1 (aw_record_keys x s row)),
              (proj1 (aw_record_keys y s' row')) in Hkey.
      congruence.
  - unfold QueriesPages.fetch_all in Hrun.
    rewrite (qp_site_loop_finished_flat svc today sites initial st Hrun).
    cbn [all_data initial]. rewrite app_nil_l.
    apply nodup_map_flat_map; [assumption| |].
    + intros site _. apply qp_window_rows_distinct; try assumption.
      * apply qp_processed_nodup. apply window_indices_nodup.
      * intros i Hi. eapply qp_processed_incl; eassumption.
    + intros x y b c _ _ Hb Hc Hkey.
      apply in_flat_map in Hb. destruct Hb as (i & _ & Hb).
      apply in_flat_map in Hc. destruct Hc as (j & _ & Hc).
      apply qp_window_records_inv in Hb.
      destruct Hb as (s & e & t & more & q & g & _ & _ & _ & ->).
      apply qp_window_records_inv in Hc.
      destruct Hc as (s' & e' & t' & more' & q' & g' & _ & _ & _ & ->).
      unfold row_key in Hkey.
      rewrite (proj1 (qp_record_keys x (strftime_ym s) t q g)),
              (proj1 (qp_record_keys y (strftime_ym s') t' q' g')) in Hkey.
      congruence.
Qed.

Lemma rows_have_distinct_site_and_month_witness :
  (forall st,
      AccountWide.fetch_all (steady_service sample_totals) (mkdate 2024 3 15)
                            ["https://a.example.com/"; "https://b.example.com/"]%string
      = Finished st ->
      NoDup (map row_key (all_data st))) /\
  (forall st,
      QueriesPages.fetch_all (steady_service sample_totals) (mkdate 2024 3 15)
                             ["https://a.example.com/"; "https://b.example.com/"]%string
      = Finished st ->
      NoDup (map row_key (all_data st))).
Proof.
  apply (rows_have_distinct_site_and_month
           (steady_service sample_totals) (mkdate 2024 3 15)
           ["https://a.example.com/"; "https://b.example.com/"]%string).
  - reflexivity.
  - unfold MINYEAR. simpl. lia.
  - repeat constructor; cbn [In]; intros H.
    + destruct H as [H|[]]. discriminate H.
    + exact H.
Defined.

End DistinctRowsExtras.
